(** * Face verification service: embedding of the scoring pipeline

    A shallow embedding of [app/services/face_verification_service.py],
    [app/services/face_verification_service_fallback.py], of the
    [/verify] and [/compare-faces] handlers of
    [app/routes/verification_routes.py], and of [Config.allowed_file] of
    [app/utils/config.py].

    - Python floats are idealised as real numbers; [round] is rounding to
      the nearest decimal, ties to even.  Where Python would produce the
      integer 0 from [max(0, x)], the model keeps the float 0.
    - Python dictionaries are finite maps from keys to dynamically typed
      values; a missing key raises, as [d[k]] does.
    - Every method is a computation that may raise and that keeps a log
      of the pipeline stages it entered: the quality gate, the face
      locator and the extractor log their entry with the path they were
      given, the comparison logs both paths once both representations
      are in hand.  Calls to [logger] are left out.
    - Calls into OpenCV, numpy, face_recognition and the operating system
      are read off a description of the files on disk ([Runtime]);
      [cv2.compareHist] and [face_recognition.face_distance] are modelled
      from their library definitions. *)

From Stdlib Require Import Reals Lra Lia ZArith Ascii.
From stdpp Require Import base gmap strings list pretty.

Open Scope R_scope.
Open Scope string_scope.

(** ** Numbers *)

#[global] Instance Rlt_decision (x y : R) : Decision (x < y) := Rlt_dec x y.
#[global] Instance Rle_decision (x y : R) : Decision (x <= y) := Rle_dec x y.
#[global] Instance Rgt_decision (x y : R) : Decision (x > y) := Rgt_dec x y.
#[global] Instance Rge_decision (x y : R) : Decision (x >= y) := Rge_dec x y.
#[global] Instance Req_decision : EqDecision R := Req_dec_T.

(** Nearest integer, ties to the even neighbour: the rounding rule of
    Python's [round]. *)
Definition round_half_even (x : R) : Z :=
  let f := Int_part x in
  let r := frac_part x in
  if decide (r < 1 / 2) then f
  else if decide (1 / 2 < r) then (f + 1)%Z
  else if Z.even f then f else (f + 1)%Z.

(** [round(x, ndigits)] on an idealised float. *)
Definition py_round (x : R) (ndigits : nat) : R :=
  IZR (round_half_even (x * 10 ^ ndigits)) / 10 ^ ndigits.

(** ** Values and dictionaries *)

#[warning="-register-all"]
Inductive Value : Type :=
| VNone
| VBool (b : bool)
| VInt (z : Z)
| VFloat (r : R)
| VStr (s : string)
| VList (l : list Value)
| VDict (d : gmap string Value).

Abbreviation Dict := (gmap string Value).

(** A dictionary display [{"k1": v1, ...}]. *)
Definition dict (items : list (string * Value)) : Dict := list_to_map items.
Arguments dict : simpl never.

(** Truth value of an object, as tested by [if] and [not]. *)
Definition truthy (v : Value) : bool :=
  match v with
  | VNone => false
  | VBool b => b
  | VInt z => negb (z =? 0)%Z
  | VFloat r => bool_decide (r <> 0)
  | VStr s => negb (String.eqb s "")
  | VList l => negb (bool_decide (length l = 0%nat))
  | VDict d => negb (bool_decide (size d = 0%nat))
  end.

(** ** Computations: a call log and exceptions *)

Inductive Stage : Type :=
| QUALITY_CHECK
| FACE_DETECTION
| REPRESENTATION_EXTRACTION
| COMPARISON.

(** [Entered s path]: stage [s] was started on the image at [path]. *)
Inductive Event : Type :=
| Entered (s : Stage) (path : string).

Inductive Outcome (A : Type) : Type :=
| Returned (a : A)
| Raised (msg : string).
Arguments Returned {A} a.
Arguments Raised {A} msg.

(** A computation yields the stages it entered, in order, and either a
    value or the text [str(e)] of the exception that escaped. *)
Definition Py (A : Type) : Type := (list Event * Outcome A)%type.

Definition ret {A} (a : A) : Py A := ([], Returned a).
Definition raise {A} (msg : string) : Py A := ([], Raised msg).
Definition enter (s : Stage) (path : string) : Py unit :=
  ([Entered s path], Returned tt).

Definition bind {A B} (k : A -> Py B) (m : Py A) : Py B :=
  match m with
  | (log, Returned a) => let '(log', o) := k a in ((log ++ log')%list, o)
  | (log, Raised msg) => (log, Raised msg)
  end.

#[global] Instance Py_ret : MRet Py := @ret.
#[global] Instance Py_bind : MBind Py := @bind.

(** [try: body  except Exception as e: handler(str(e))] *)
Definition try_except {A} (body : Py A) (handler : string -> Py A) : Py A :=
  match body with
  | (log, Returned a) => (log, Returned a)
  | (log, Raised msg) => let '(log', o) := handler msg in ((log ++ log')%list, o)
  end.

Definition trace {A} (m : Py A) : list Event := fst m.
Definition outcome {A} (m : Py A) : Outcome A := snd m.

(** [d[k]]: raises [KeyError], whose text is the quoted key. *)
Definition getitem (d : Dict) (k : string) : Py Value :=
  match d !! k with
  | Some v => ret v
  | None => raise ("'" +:+ k +:+ "'")
  end.
Arguments getitem : simpl never.

(** [d.get(k, default)] *)
Definition get (d : Dict) (k : string) (default : Value) : Value :=
  match d !! k with
  | Some v => v
  | None => default
  end.
Arguments get : simpl never.

(** [l[0]] on a list object. *)
Definition first_item (v : Value) : Py Value :=
  match v with
  | VList (x :: _) => ret x
  | VList [] => raise "list index out of range"
  | _ => raise "object is not subscriptable"
  end.

(** [v[k]] where [v] is expected to be a dictionary. *)
Definition subscript (v : Value) (k : string) : Py Value :=
  match v with
  | VDict d => getitem d k
  | _ => raise "object is not subscriptable"
  end.

(** The numeric reading of an object in a comparison with a number. *)
Definition as_number (v : Value) : Py R :=
  match v with
  | VInt z => ret (IZR z)
  | VFloat r => ret r
  | VBool b => ret (if b then 1 else 0)
  | _ => raise "'>=' not supported between these operands"
  end.

Definition as_int (v : Value) : Py Z :=
  match v with
  | VInt z => ret z
  | VBool b => ret (if b then 1 else 0)%Z
  | _ => raise "an integer is required"
  end.

Definition as_vector (v : Value) : Py (list R) :=
  match v with
  | VList l =>
      foldr (fun x acc => r ← as_number x; xs ← acc; ret (r :: xs)) (ret []) l
  | _ => raise "unsupported operand"
  end.
Arguments as_vector : simpl never.

(** [a == n] against an integer literal; never raises. *)
Definition eq_int (v : Value) (n : Z) : bool :=
  match v with
  | VInt z => (z =? n)%Z
  | VFloat r => bool_decide (r = IZR n)
  | VBool b => ((if b then 1 else 0) =? n)%Z
  | _ => false
  end.

(** [a, b, c, d = v] *)
Definition unpack4 (v : Value) : Py (Value * Value * Value * Value) :=
  match v with
  | VList [a; b; c; d] => ret (a, b, c, d)
  | VList _ => raise "wrong number of values to unpack"
  | _ => raise "cannot unpack non-iterable object"
  end.

(** ** The files on disk, as the libraries see them *)

(** A rectangle of four integers: [(x, y, w, h)] for OpenCV,
    [(top, right, bottom, left)] for face_recognition. *)
Definition Rect : Type := (Z * Z * Z * Z)%type.

Definition rect_value (r : Rect) : Value :=
  let '(a, b, c, d) := r in VList [VInt a; VInt b; VInt c; VInt d].

(** [faces.tolist()] on the result of [detectMultiScale]: the list of the
    rectangles when something was detected; when nothing was, the result
    is an empty tuple, which has no such method ([camera_service.py]
    guards its own call with [if face_count > 0 else []]). *)
Definition tolist (faces : list Rect) : Py Value :=
  match faces with
  | [] => raise "'tuple' object has no attribute 'tolist'"
  | _ => ret (VList (rect_value <$> faces))
  end.

(** What OpenCV and numpy report about a decoded image. *)
Record CvImage : Type := {
  shape : Z * Z;                  (* image.shape[:2], height first *)
  gray_mean : R;                  (* np.mean(gray) *)
  laplacian_var : R;              (* cv2.Laplacian(gray, cv2.CV_64F).var() *)
  detectMultiScale : list Rect;   (* face_cascade.detectMultiScale(gray, 1.1, 5, minSize (30,30)) *)
  calcHist : Rect -> list R;      (* cv2.calcHist over gray[y:y+h, x:x+w], 256 bins, flattened *)
  region_mean : Rect -> R;        (* np.mean(face_region) *)
  region_std : Rect -> R          (* np.std(face_region) *)
}.

(** What face_recognition reports about a loaded image. *)
Record FrImage : Type := {
  face_locations : list Rect;
  face_encodings : Outcome (list (list R))
}.

Record ImageFile : Type := {
  imread : option CvImage;             (* cv2.imread: None when undecodable *)
  load_image_file : Outcome FrImage    (* face_recognition.load_image_file *)
}.

(** Everything a call depends on besides its arguments. *)
Class Runtime : Type := {
  FACE_RECOGNITION_AVAILABLE : bool;   (* module flag, set once at import *)
  files : gmap string ImageFile;       (* the paths that exist *)
  now : string;                        (* datetime.now().isoformat() *)
  format_2f : R -> string;             (* f"{x:.2f}" *)
  str_float : R -> string;             (* str(x) of a float *)
  repr_container : Value -> string     (* str(x) of a list or dict *)
}.

Section Library.
Context `{Runtime}.

(** [str(v)], as f-strings apply it. *)
Definition str (v : Value) : string :=
  match v with
  | VStr s => s
  | VInt z => pretty z
  | VBool b => if b then "True" else "False"
  | VNone => "None"
  | VFloat r => str_float r
  | _ => repr_container v
  end.

Definition path_exists (path : string) : bool :=
  bool_decide (is_Some (files !! path)).

Definition cv2_imread (path : string) : option CvImage :=
  files !! path ≫= imread.

Definition fr_load_image_file (path : string) : Py FrImage :=
  match files !! path with
  | Some f => ([], load_image_file f)
  | None => raise ("[Errno 2] No such file or directory: '" +:+ path +:+ "'")
  end.

Definition _get_timestamp : string := now.
End Library.

Definition sum_list (l : list R) : R := foldr Rplus 0 l.

Definition DBL_EPSILON : R := / 2 ^ 52.

(** [cv2.compareHist(h1, h2, cv2.HISTCMP_CORREL)]: the correlation of the
    two bin sequences, 1 when either is (numerically) constant. *)
Definition correlation (h1 h2 : list R) : R :=
  let s1 := sum_list h1 in
  let s2 := sum_list h2 in
  let s11 := sum_list (zip_with Rmult h1 h1) in
  let s12 := sum_list (zip_with Rmult h1 h2) in
  let s22 := sum_list (zip_with Rmult h2 h2) in
  let scale := 1 / INR (length h1) in
  let num := s12 - s1 * s2 * scale in
  let denom2 := (s11 - s1 * s1 * scale) * (s22 - s2 * s2 * scale) in
  if decide (Rabs denom2 > DBL_EPSILON) then num / sqrt denom2 else 1.

Definition compareHist_CORREL (h1 h2 : list R) : Py R :=
  if decide (length h1 = length h2) then ret (correlation h1 h2)
  else raise "OpenCV: histograms differ in size".

(** [face_recognition.face_distance(known, e)]: for each known encoding,
    the Euclidean norm of its difference with [e]. *)
Definition euclidean (a b : list R) : R :=
  sqrt (sum_list (zip_with (fun x y => (x - y) * (x - y)) a b)).

Definition face_distance (known : list (list R)) (e : list R) : Py (list R) :=
  if decide (Forall (fun k => length k = length e) known) then
    ret ((fun k => euclidean k e) <$> known)
  else raise "operands could not be broadcast together".

(** ** face_verification_service_fallback.py *)

Module Fallback.
Section Methods.
Context `{Runtime}.

Record FaceVerificationServiceFallback : Type := {
  tolerance : R;
  model : string
}.

(** [__init__(self, tolerance=0.6, model='hog')]; an omitted argument is [None]. *)
Definition __init__ (tolerance : option R) (model : option string)
    : FaceVerificationServiceFallback :=
  {| tolerance := default 0.6 tolerance; model := default "hog" model |}.

Definition detect_faces_opencv (self : FaceVerificationServiceFallback)
    (image_path : string) : Py Dict :=
  try_except
    (enter FACE_DETECTION image_path;;
     match cv2_imread image_path with
     | None =>
         ret (dict [("success", VBool false);
                    ("message", VStr "Could not read image file");
                    ("error_code", VStr "IMAGE_READ_ERROR")])
     | Some image =>
         let faces := detectMultiScale image in
         let face_count := Z.of_nat (length faces) in
         faces_list ← tolist faces;
         ret (dict [("success", VBool true);
                    ("face_count", VInt face_count);
                    ("faces", faces_list);
                    ("message", VStr ("Detected " +:+ pretty face_count
                                      +:+ " face(s) using OpenCV"))])
     end)
    (fun e =>
       ret (dict [("success", VBool false);
                  ("message", VStr ("Face detection failed: " +:+ e));
                  ("error_code", VStr "OPENCV_DETECTION_ERROR")])).

Definition extract_face_features (self : FaceVerificationServiceFallback)
    (image_path : string) : Py Dict :=
  try_except
    (enter REPRESENTATION_EXTRACTION image_path;;
     if negb (path_exists image_path) then
       ret (dict [("success", VBool false);
                  ("message", VStr "Image file not found");
                  ("error_code", VStr "FILE_NOT_FOUND")])
     else
       detection_result ← detect_faces_opencv self image_path;
       ok ← getitem detection_result "success";
       if negb (truthy ok) then ret detection_result
       else
         face_count ← getitem detection_result "face_count";
         if eq_int face_count 0 then
           ret (dict [("success", VBool false);
                      ("message", VStr "No face detected in image");
                      ("error_code", VStr "NO_FACE_DETECTED")])
         else
           n ← as_number face_count;
           if decide (n > 1) then
             ret (dict [("success", VBool false);
                        ("message", VStr ("Multiple faces detected (" +:+ str face_count
                                          +:+ "). Please use image with single face"));
                        ("error_code", VStr "MULTIPLE_FACES_DETECTED")])
           else
             match cv2_imread image_path with
             | None => raise "OpenCV: cvtColor on an empty image"
             | Some image =>
                 faces ← getitem detection_result "faces";
                 face_coords ← first_item faces;
                 '(vx, vy, vw, vh) ← unpack4 face_coords;
                 y ← as_int vy; h ← as_int vh; x ← as_int vx; w ← as_int vw;
                 let face_region := (x, y, w, h) in
                 let face_histogram := calcHist image face_region in
                 let face_mean := region_mean image face_region in
                 let face_std := region_std image face_region in
                 aspect_ratio ← (if decide (h = 0%Z) then raise "division by zero"
                                 else ret (IZR w / IZR h));
                 let features :=
                   dict [("histogram", VList (VFloat <$> take 50 face_histogram));
                         ("mean_intensity", VFloat face_mean);
                         ("std_intensity", VFloat face_std);
                         ("face_area", VInt (w * h));
                         ("aspect_ratio", VFloat aspect_ratio);
                         ("face_coords", face_coords)] in
                 ret (dict [("success", VBool true);
                            ("message", VStr "Basic face features extracted successfully");
                            ("features", VDict features);
                            ("face_location", face_coords)])
             end)
    (fun e =>
       ret (dict [("success", VBool false);
                  ("message", VStr ("Face feature extraction failed: " +:+ e));
                  ("error_code", VStr "FEATURE_EXTRACTION_ERROR")])).

Definition basic_threshold : R := 0.4.

Definition compare_faces_basic (self : FaceVerificationServiceFallback)
    (image1_path image2_path : string) : Py Dict :=
  try_except
    (features1_result ← extract_face_features self image1_path;
     features2_result ← extract_face_features self image2_path;
     ok1 ← getitem features1_result "success";
     if negb (truthy ok1) then
       message1 ← getitem features1_result "message";
       ret (dict [("success", VBool false);
                  ("message", VStr ("Live camera image: " +:+ str message1));
                  ("error_code",
                   VStr ("CAMERA_IMAGE_"
                         +:+ str (get features1_result "error_code" (VStr "ERROR"))))])
     else
       ok2 ← getitem features2_result "success";
       if negb (truthy ok2) then
         message2 ← getitem features2_result "message";
         ret (dict [("success", VBool false);
                    ("message", VStr ("ID card image: " +:+ str message2));
                    ("error_code",
                     VStr ("ID_CARD_IMAGE_"
                           +:+ str (get features2_result "error_code" (VStr "ERROR"))))])
       else
         features1 ← getitem features1_result "features";
         features2 ← getitem features2_result "features";
         enter COMPARISON image1_path;; enter COMPARISON image2_path;;
         (* 1. Histogram correlation *)
         hist1 ← subscript features1 "histogram" ≫= as_vector;
         hist2 ← subscript features2 "histogram" ≫= as_vector;
         hist_correlation ← compareHist_CORREL hist1 hist2;
         (* 2. Intensity similarity *)
         mean1 ← subscript features1 "mean_intensity" ≫= as_number;
         mean2 ← subscript features2 "mean_intensity" ≫= as_number;
         let intensity_diff := Rabs (mean1 - mean2) in
         let intensity_similarity := Rmax 0 (1 - intensity_diff / 255.0) in
         (* 3. Aspect ratio similarity *)
         ratio1 ← subscript features1 "aspect_ratio" ≫= as_number;
         ratio2 ← subscript features2 "aspect_ratio" ≫= as_number;
         let ratio_diff := Rabs (ratio1 - ratio2) in
         let ratio_similarity := Rmax 0 (1 - ratio_diff) in
         (* 4. Size similarity *)
         area1 ← subscript features1 "face_area" ≫= as_number;
         area2 ← subscript features2 "face_area" ≫= as_number;
         size_ratio ← (if decide (Rmax area1 area2 = 0) then raise "division by zero"
                       else ret (Rmin area1 area2 / Rmax area1 area2));
         (* Combine similarities (weighted average) *)
         let combined_similarity :=
           hist_correlation * 0.4 + intensity_similarity * 0.2
           + ratio_similarity * 0.2 + size_ratio * 0.2 in
         let confidence := Rmax 0 (Rmin 100 (combined_similarity * 100)) in
         let is_match := bool_decide (combined_similarity >= basic_threshold) in
         let result_status := if is_match then "Verified" else "Not Verified" in
         let result_message :=
           if is_match
           then "Faces appear to match with " +:+ format_2f confidence
                +:+ "% confidence (basic method)"
           else "Faces do not appear to match. Confidence: " +:+ format_2f confidence
                +:+ "% (basic method)" in
         location1 ← getitem features1_result "face_location";
         location2 ← getitem features2_result "face_location";
         ret (dict
           [("success", VBool true);
            ("result", VStr result_status);
            ("is_match", VBool is_match);
            ("confidence", VFloat (py_round confidence 2));
            ("similarity_score", VFloat (py_round combined_similarity 4));
            ("tolerance_used", VFloat basic_threshold);
            ("message", VStr result_message);
            ("method", VStr "Basic OpenCV comparison");
            ("details", VDict (dict
              [("camera_image", VDict (dict [("path", VStr image1_path);
                                             ("face_location", location1)]));
               ("id_card_image", VDict (dict [("path", VStr image2_path);
                                              ("face_location", location2)]));
               ("similarity_breakdown", VDict (dict
                 [("histogram_correlation", VFloat (py_round hist_correlation 4));
                  ("intensity_similarity", VFloat (py_round intensity_similarity 4));
                  ("ratio_similarity", VFloat (py_round ratio_similarity 4));
                  ("size_similarity", VFloat (py_round size_ratio 4))]))]));
            ("warning", VStr "This is a basic comparison method. For better accuracy, install face_recognition library.")]))
    (fun e =>
       ret (dict [("success", VBool false);
                  ("message", VStr ("Face comparison failed: " +:+ e));
                  ("error_code", VStr "COMPARISON_ERROR")])).

Definition verify_identity (self : FaceVerificationServiceFallback)
    (camera_image_path id_card_image_path : string) (student_details : Value) : Py Dict :=
  let student_details_or_empty :=
    if truthy student_details then student_details else VDict (dict []) in
  try_except
    (comparison_result ← compare_faces_basic self camera_image_path id_card_image_path;
     ok ← getitem comparison_result "success";
     if negb (truthy ok) then
       message ← getitem comparison_result "message";
       ret (dict [("success", VBool false);
                  ("result", VStr "Verification Failed");
                  ("confidence", VInt 0);
                  ("message", message);
                  ("error_code", get comparison_result "error_code" VNone);
                  ("student_details", student_details_or_empty)])
     else
       result ← getitem comparison_result "result";
       is_match ← getitem comparison_result "is_match";
       confidence ← getitem comparison_result "confidence";
       similarity_score ← getitem comparison_result "similarity_score";
       message ← getitem comparison_result "message";
       method ← getitem comparison_result "method";
       tolerance_used ← getitem comparison_result "tolerance_used";
       similarity_breakdown ←
         (details ← getitem comparison_result "details";
          subscript details "similarity_breakdown");
       let verification_result :=
         dict [("success", VBool true);
               ("result", result);
               ("is_match", is_match);
               ("confidence", confidence);
               ("similarity_score", similarity_score);
               ("message", message);
               ("method", method);
               ("warning", get comparison_result "warning" (VStr ""));
               ("student_details", student_details_or_empty);
               ("verification_details", VDict (dict
                 [("tolerance_used", tolerance_used);
                  ("camera_image", VStr camera_image_path);
                  ("id_card_image", VStr id_card_image_path);
                  ("timestamp", VStr _get_timestamp);
                  ("similarity_breakdown", similarity_breakdown)]))] in
       (* Add recommendation based on confidence *)
       c ← as_number confidence;
       if decide (c >= 70) then
         ret (<["recommendation" := VStr "Moderate confidence match (basic method)"]>
                verification_result)
       else if decide (c >= 50) then
         ret (<["recommendation" := VStr "Low confidence match (basic method)"]>
                verification_result)
       else
         ret (<["recommendation" := VStr "Very low confidence - manual review required"]>
                verification_result))
    (fun e =>
       ret (dict [("success", VBool false);
                  ("result", VStr "Verification Failed");
                  ("confidence", VInt 0);
                  ("message", VStr ("Identity verification failed: " +:+ e));
                  ("error_code", VStr "VERIFICATION_ERROR");
                  ("student_details", student_details_or_empty)])).

Definition validate_image_quality (self : FaceVerificationServiceFallback)
    (image_path : string) : Py Dict :=
  try_except
    (enter QUALITY_CHECK image_path;;
     match cv2_imread image_path with
     | None =>
         ret (dict [("valid", VBool false);
                    ("message", VStr "Could not read image file");
                    ("error_code", VStr "IMAGE_READ_ERROR")])
     | Some image =>
         let '(height, width) := shape image in
         (* Check minimum resolution *)
         if decide (width < 100 \/ height < 100)%Z then
           ret (dict [("valid", VBool false);
                      ("message", VStr ("Image resolution too low: " +:+ pretty width +:+ "x"
                                        +:+ pretty height +:+ ". Minimum 100x100 required"));
                      ("error_code", VStr "LOW_RESOLUTION")])
         else
           (* Check if image is too dark or too bright *)
           let mean_brightness := gray_mean image in
           if decide (mean_brightness < 30) then
             ret (dict [("valid", VBool false);
                        ("message", VStr "Image is too dark for face recognition");
                        ("error_code", VStr "TOO_DARK")])
           else if decide (mean_brightness > 225) then
             ret (dict [("valid", VBool false);
                        ("message", VStr "Image is too bright for face recognition");
                        ("error_code", VStr "TOO_BRIGHT")])
           else
             (* Check for blur (using Laplacian variance) *)
             let laplacian_var := laplacian_var image in
             if decide (laplacian_var < 100) then
               ret (dict [("valid", VBool false);
                          ("message", VStr "Image appears to be blurry");
                          ("error_code", VStr "BLURRY_IMAGE")])
             else
               ret (dict [("valid", VBool true);
                          ("message", VStr "Image quality is acceptable for face recognition");
                          ("details", VDict (dict
                            [("resolution", VStr (pretty width +:+ "x" +:+ pretty height));
                             ("brightness", VFloat (py_round mean_brightness 2));
                             ("sharpness", VFloat (py_round laplacian_var 2))]))])
     end)
    (fun e =>
       ret (dict [("valid", VBool false);
                  ("message", VStr ("Image quality validation failed: " +:+ e));
                  ("error_code", VStr "VALIDATION_ERROR")])).
End Methods.
End Fallback.

(** ** face_verification_service.py *)

Module Service.
Section Methods.
Context `{Runtime}.

Record FaceVerificationService : Type := {
  tolerance : R;
  model : string;
  fallback_service : option Fallback.FaceVerificationServiceFallback
}.

(** [__init__(self, tolerance=0.6, model='hog')]; an omitted argument is [None]. *)
Definition __init__ (tolerance : option R) (model : option string)
    : FaceVerificationService :=
  let tolerance := default 0.6 tolerance in
  let model := default "hog" model in
  {| tolerance := tolerance;
     model := model;
     fallback_service :=
       if negb FACE_RECOGNITION_AVAILABLE
       then Some (Fallback.__init__ (Some tolerance) (Some model))
       else None |}.

(** [self.fallback_service.<method>(...)]: attribute access on [None] raises. *)
Definition with_fallback {A} (self : FaceVerificationService)
    (method : Fallback.FaceVerificationServiceFallback -> Py A) : Py A :=
  match fallback_service self with
  | Some fb => method fb
  | None => raise "'NoneType' object has no attribute"
  end.

Definition detect_faces_opencv (self : FaceVerificationService)
    (image_path : string) : Py Dict :=
  try_except
    (enter FACE_DETECTION image_path;;
     match cv2_imread image_path with
     | None =>
         ret (dict [("success", VBool false);
                    ("message", VStr "Could not read image file");
                    ("error_code", VStr "IMAGE_READ_ERROR")])
     | Some image =>
         let faces := detectMultiScale image in
         let face_count := Z.of_nat (length faces) in
         faces_list ← tolist faces;
         ret (dict [("success", VBool true);
                    ("face_count", VInt face_count);
                    ("faces", faces_list);
                    ("message", VStr ("Detected " +:+ pretty face_count
                                      +:+ " face(s) using OpenCV"))])
     end)
    (fun e =>
       ret (dict [("success", VBool false);
                  ("message", VStr ("Face detection failed: " +:+ e));
                  ("error_code", VStr "OPENCV_DETECTION_ERROR")])).

Definition detect_faces_dlib (self : FaceVerificationService)
    (image_path : string) : Py Dict :=
  if negb FACE_RECOGNITION_AVAILABLE then detect_faces_opencv self image_path
  else
    try_except
      (enter FACE_DETECTION image_path;;
       image ← fr_load_image_file image_path;
       let face_locations := face_locations image in
       let face_count := Z.of_nat (length face_locations) in
       if decide (face_count = 0%Z) then
         ret (dict [("success", VBool true);
                    ("face_count", VInt 0);
                    ("faces", VList []);
                    ("encodings", VList []);
                    ("message", VStr "No faces detected in image")])
       else
         face_encodings ← ([], face_encodings image);
         ret (dict [("success", VBool true);
                    ("face_count", VInt face_count);
                    ("faces", VList (rect_value <$> face_locations));
                    ("encodings",
                     VList ((fun e => VList (VFloat <$> e)) <$> face_encodings));
                    ("message", VStr ("Detected " +:+ pretty face_count
                                      +:+ " face(s) using face_recognition library"))]))
      (fun e =>
         ret (dict [("success", VBool false);
                    ("message", VStr ("Face detection failed: " +:+ e));
                    ("error_code", VStr "DLIB_DETECTION_ERROR")])).

Definition extract_face_encoding (self : FaceVerificationService)
    (image_path : string) : Py Dict :=
  if negb FACE_RECOGNITION_AVAILABLE then
    with_fallback self (fun fb => Fallback.extract_face_features fb image_path)
  else
    try_except
      (enter REPRESENTATION_EXTRACTION image_path;;
       if negb (path_exists image_path) then
         ret (dict [("success", VBool false);
                    ("message", VStr "Image file not found");
                    ("error_code", VStr "FILE_NOT_FOUND")])
       else
         detection_result ← detect_faces_dlib self image_path;
         ok ← getitem detection_result "success";
         if negb (truthy ok) then ret detection_result
         else
           face_count ← getitem detection_result "face_count";
           if eq_int face_count 0 then
             ret (dict [("success", VBool false);
                        ("message", VStr "No face detected in image");
                        ("error_code", VStr "NO_FACE_DETECTED")])
           else
             n ← as_number face_count;
             if decide (n > 1) then
               ret (dict [("success", VBool false);
                          ("message", VStr ("Multiple faces detected (" +:+ str face_count
                                            +:+ "). Please use image with single face"));
                          ("error_code", VStr "MULTIPLE_FACES_DETECTED")])
             else
               face_encoding ← getitem detection_result "encodings" ≫= first_item;
               face_location ← getitem detection_result "faces" ≫= first_item;
               ret (dict [("success", VBool true);
                          ("message", VStr "Face encoding extracted successfully");
                          ("encoding", face_encoding);
                          ("face_location", face_location)]))
      (fun e =>
         ret (dict [("success", VBool false);
                    ("message", VStr ("Face encoding extraction failed: " +:+ e));
                    ("error_code", VStr "ENCODING_EXTRACTION_ERROR")])).

Definition compare_faces (self : FaceVerificationService)
    (image1_path image2_path : string) : Py Dict :=
  if negb FACE_RECOGNITION_AVAILABLE then
    with_fallback self (fun fb => Fallback.compare_faces_basic fb image1_path image2_path)
  else
    try_except
      (encoding1_result ← extract_face_encoding self image1_path;
       encoding2_result ← extract_face_encoding self image2_path;
       ok1 ← getitem encoding1_result "success";
       if negb (truthy ok1) then
         message1 ← getitem encoding1_result "message";
         ret (dict [("success", VBool false);
                    ("message", VStr ("Live camera image: " +:+ str message1));
                    ("error_code",
                     VStr ("CAMERA_IMAGE_"
                           +:+ str (get encoding1_result "error_code" (VStr "ERROR"))))])
       else
         ok2 ← getitem encoding2_result "success";
         if negb (truthy ok2) then
           message2 ← getitem encoding2_result "message";
           ret (dict [("success", VBool false);
                      ("message", VStr ("ID card image: " +:+ str message2));
                      ("error_code",
                       VStr ("ID_CARD_IMAGE_"
                             +:+ str (get encoding2_result "error_code" (VStr "ERROR"))))])
         else
           encoding1 ← getitem encoding1_result "encoding";
           encoding2 ← getitem encoding2_result "encoding";
           enter COMPARISON image1_path;; enter COMPARISON image2_path;;
           (* Calculate face distance (lower = more similar) *)
           e1 ← as_vector encoding1;
           e2 ← as_vector encoding2;
           distances ← face_distance [e1] e2;
           face_distance ← match distances with
                           | d :: _ => ret d
                           | [] => raise "index 0 is out of bounds"
                           end;
           (* Calculate confidence percentage (higher = more confident match) *)
           let confidence := Rmax 0 ((1 - face_distance) * 100) in
           (* Determine if faces match based on tolerance *)
           let is_match := bool_decide (face_distance <= tolerance self) in
           let result_status := if is_match then "Verified" else "Not Verified" in
           let result_message :=
             if is_match
             then "Faces match with " +:+ format_2f confidence +:+ "% confidence"
             else "Faces do not match. Confidence: " +:+ format_2f confidence +:+ "%" in
           location1 ← getitem encoding1_result "face_location";
           location2 ← getitem encoding2_result "face_location";
           ret (dict
             [("success", VBool true);
              ("result", VStr result_status);
              ("is_match", VBool is_match);
              ("confidence", VFloat (py_round confidence 2));
              ("face_distance", VFloat (py_round face_distance 4));
              ("tolerance_used", VFloat (tolerance self));
              ("message", VStr result_message);
              ("method", VStr "Advanced face_recognition library");
              ("details", VDict (dict
                [("camera_image", VDict (dict [("path", VStr image1_path);
                                               ("face_location", location1)]));
                 ("id_card_image", VDict (dict [("path", VStr image2_path);
                                                ("face_location", location2)]))]))]))
      (fun e =>
         ret (dict [("success", VBool false);
                    ("message", VStr ("Face comparison failed: " +:+ e));
                    ("error_code", VStr "COMPARISON_ERROR")])).

Definition verify_identity (self : FaceVerificationService)
    (camera_image_path id_card_image_path : string) (student_details : Value) : Py Dict :=
  if negb FACE_RECOGNITION_AVAILABLE then
    with_fallback self (fun fb =>
      Fallback.verify_identity fb camera_image_path id_card_image_path student_details)
  else
    let student_details_or_empty :=
      if truthy student_details then student_details else VDict (dict []) in
    try_except
      (comparison_result ← compare_faces self camera_image_path id_card_image_path;
       ok ← getitem comparison_result "success";
       if negb (truthy ok) then
         message ← getitem comparison_result "message";
         ret (dict [("success", VBool false);
                    ("result", VStr "Verification Failed");
                    ("confidence", VInt 0);
                    ("message", message);
                    ("error_code", get comparison_result "error_code" VNone);
                    ("student_details", student_details_or_empty)])
       else
         result ← getitem comparison_result "result";
         is_match ← getitem comparison_result "is_match";
         confidence ← getitem comparison_result "confidence";
         message ← getitem comparison_result "message";
         tolerance_used ← getitem comparison_result "tolerance_used";
         let verification_result :=
           dict [("success", VBool true);
                 ("result", result);
                 ("is_match", is_match);
                 ("confidence", confidence);
                 ("face_distance", get comparison_result "face_distance" (VInt 0));
                 ("message", message);
                 ("method", get comparison_result "method" (VStr "Unknown"));
                 ("student_details", student_details_or_empty);
                 ("verification_details", VDict (dict
                   [("tolerance_used", tolerance_used);
                    ("camera_image", VStr camera_image_path);
                    ("id_card_image", VStr id_card_image_path);
                    ("timestamp", VStr _get_timestamp)]))] in
         (* Add recommendation based on confidence *)
         c ← as_number confidence;
         if decide (c >= 80) then
           ret (<["recommendation" := VStr "High confidence match"]> verification_result)
         else if decide (c >= 60) then
           ret (<["recommendation" := VStr "Moderate confidence match"]> verification_result)
         else
           ret (<["recommendation" := VStr "Low confidence - manual review recommended"]>
                  verification_result))
      (fun e =>
         ret (dict [("success", VBool false);
                    ("result", VStr "Verification Failed");
                    ("confidence", VInt 0);
                    ("message", VStr ("Identity verification failed: " +:+ e));
                    ("error_code", VStr "VERIFICATION_ERROR");
                    ("student_details", student_details_or_empty)])).

Definition validate_image_quality (self : FaceVerificationService)
    (image_path : string) : Py Dict :=
  try_except
    (enter QUALITY_CHECK image_path;;
     match cv2_imread image_path with
     | None =>
         ret (dict [("valid", VBool false);
                    ("message", VStr "Could not read image file");
                    ("error_code", VStr "IMAGE_READ_ERROR")])
     | Some image =>
         let '(height, width) := shape image in
         (* Check minimum resolution *)
         if decide (width < 100 \/ height < 100)%Z then
           ret (dict [("valid", VBool false);
                      ("message", VStr ("Image resolution too low: " +:+ pretty width +:+ "x"
                                        +:+ pretty height +:+ ". Minimum 100x100 required"));
                      ("error_code", VStr "LOW_RESOLUTION")])
         else
           (* Check if image is too dark or too bright *)
           let mean_brightness := gray_mean image in
           if decide (mean_brightness < 30) then
             ret (dict [("valid", VBool false);
                        ("message", VStr "Image is too dark for face recognition");
                        ("error_code", VStr "TOO_DARK")])
           else if decide (mean_brightness > 225) then
             ret (dict [("valid", VBool false);
                        ("message", VStr "Image is too bright for face recognition");
                        ("error_code", VStr "TOO_BRIGHT")])
           else
             (* Check for blur (using Laplacian variance) *)
             let laplacian_var := laplacian_var image in
             if decide (laplacian_var < 100) then
               ret (dict [("valid", VBool false);
                          ("message", VStr "Image appears to be blurry");
                          ("error_code", VStr "BLURRY_IMAGE")])
             else
               ret (dict [("valid", VBool true);
                          ("message", VStr "Image quality is acceptable for face recognition");
                          ("details", VDict (dict
                            [("resolution", VStr (pretty width +:+ "x" +:+ pretty height));
                             ("brightness", VFloat (py_round mean_brightness 2));
                             ("sharpness", VFloat (py_round laplacian_var 2))]))])
     end)
    (fun e =>
       ret (dict [("valid", VBool false);
                  ("message", VStr ("Image quality validation failed: " +:+ e));
                  ("error_code", VStr "VALIDATION_ERROR")])).
End Methods.
End Service.

(** ** Strings *)

(** [c in s] for a one-character [c]. *)
Fixpoint occurs (c : ascii) (s : string) : bool :=
  match s with
  | EmptyString => false
  | String c' rest => Ascii.eqb c' c || occurs c rest
  end.

(** The split of [s] at the last occurrence of [sep], if there is one. *)
Fixpoint rpartition (sep : ascii) (s : string) : option (string * string) :=
  match s with
  | EmptyString => None
  | String c rest =>
      match rpartition sep rest with
      | Some (before, after) => Some (String c before, after)
      | None => if Ascii.eqb c sep then Some (EmptyString, rest) else None
      end
  end.

(** [s.rsplit(sep, 1)] *)
Definition rsplit1 (s : string) (sep : ascii) : list string :=
  match rpartition sep s with
  | Some (before, after) => [before; after]
  | None => [s]
  end.

(** [s.lower()] on the letters A to Z; every other byte is kept.  Strings
    are sequences of bytes (UTF-8), and no character outside ASCII
    lowercases to a string that holds a [p], a [d] or an [f]: comparing
    the result with "pdf" decides as Python does. *)
Definition lower_char (c : ascii) : ascii :=
  let n := nat_of_ascii c in
  if (65 <=? n)%nat && (n <=? 90)%nat then ascii_of_nat (n + 32) else c.

Fixpoint lower (s : string) : string :=
  match s with
  | EmptyString => EmptyString
  | String c rest => String (lower_char c) (lower rest)
  end.

(** [l[i]] on a list. *)
Definition item {A} (l : list A) (i : nat) : Py A :=
  match l !! i with
  | Some x => ret x
  | None => raise "list index out of range"
  end.

(** ** utils/config.py *)

Module Config.
Definition FACE_RECOGNITION_TOLERANCE : R := 0.6.
Definition FACE_DETECTION_MODEL : string := "hog".
Definition ALLOWED_EXTENSIONS : list string := ["pdf"].

(** [Config.allowed_file(filename)], for a string. *)
Definition allowed_file (filename : string) : Py bool :=
  if occurs "."%char filename then
    extension ← item (rsplit1 filename "."%char) 1;
    ret (bool_decide (lower extension ∈ ALLOWED_EXTENSIONS))
  else ret false.
End Config.

(** ** routes/verification_routes.py: the [/verify] and [/compare-faces] handlers *)

Module Routes.
Section Handlers.
Context `{Runtime}.

(** [jsonify(body), status] *)
Record Response : Type := {
  body : Dict;
  status : Z
}.

Definition face_verification_service : Service.FaceVerificationService :=
  Service.__init__ (Some Config.FACE_RECOGNITION_TOLERANCE)
                   (Some Config.FACE_DETECTION_MODEL).

(** [v.get(k, default)]: only dictionaries have the method. *)
Definition get_method (v : Value) (k : string) (default : Value) : Py Value :=
  match v with
  | VDict d => ret (get d k default)
  | _ => raise "object has no attribute 'get'"
  end.

(** A path argument handed to the operating system; the model accepts
    strings only. *)
Definition as_path (v : Value) : Py string :=
  match v with
  | VStr s => ret s
  | _ => raise "expected str, bytes or os.PathLike object"
  end.

Definition suggestions : Value :=
  VList [VStr "Ensure images are well-lit and clear";
         VStr "Avoid blurry or low-resolution images";
         VStr "Retake photos if necessary"].

(** The handler's argument is the parsed request body, [request.get_json()]. *)
Definition verify_identity (data : Value) : Py Response :=
  try_except
    (if negb (truthy data) then
       ret {| body := dict [("status", VStr "error");
                            ("message", VStr "No JSON data provided");
                            ("error_code", VStr "NO_DATA")];
              status := 400 |}
     else
       camera_image ← get_method data "camera_image_path" VNone;
       id_card_image ← get_method data "id_card_image_path" VNone;
       student_details ← get_method data "student_details" (VDict (dict []));
       if negb (truthy camera_image) then
         ret {| body := dict [("status", VStr "error");
                              ("message", VStr "camera_image_path is required");
                              ("error_code", VStr "MISSING_CAMERA_IMAGE")];
                status := 400 |}
       else if negb (truthy id_card_image) then
         ret {| body := dict [("status", VStr "error");
                              ("message", VStr "id_card_image_path is required");
                              ("error_code", VStr "MISSING_ID_CARD_IMAGE")];
                status := 400 |}
       else
         camera_image_path ← as_path camera_image;
         if negb (path_exists camera_image_path) then
           ret {| body := dict [("status", VStr "error");
                                ("message", VStr ("Camera image not found: "
                                                  +:+ camera_image_path));
                                ("error_code", VStr "CAMERA_IMAGE_NOT_FOUND")];
                  status := 400 |}
         else
           id_card_image_path ← as_path id_card_image;
           if negb (path_exists id_card_image_path) then
             ret {| body := dict [("status", VStr "error");
                                  ("message", VStr ("ID card image not found: "
                                                    +:+ id_card_image_path));
                                  ("error_code", VStr "ID_CARD_IMAGE_NOT_FOUND")];
                    status := 400 |}
           else
             (* Validate image quality *)
             camera_quality ←
               Service.validate_image_quality face_verification_service camera_image_path;
             id_card_quality ←
               Service.validate_image_quality face_verification_service id_card_image_path;
             camera_valid ← getitem camera_quality "valid";
             camera_issues ←
               (if negb (truthy camera_valid) then
                  m ← getitem camera_quality "message";
                  ret [VStr ("Camera image: " +:+ str m)]
                else ret []);
             id_card_valid ← getitem id_card_quality "valid";
             id_card_issues ←
               (if negb (truthy id_card_valid) then
                  m ← getitem id_card_quality "message";
                  ret [VStr ("ID card image: " +:+ str m)]
                else ret []);
             let quality_issues := (camera_issues ++ id_card_issues)%list in
             if truthy (VList quality_issues) then
               ret {| body := dict [("status", VStr "error");
                                    ("message", VStr "Image quality issues detected");
                                    ("error_code", VStr "POOR_IMAGE_QUALITY");
                                    ("quality_issues", VList quality_issues);
                                    ("suggestions", suggestions)];
                      status := 400 |}
             else
               (* Perform identity verification *)
               verification_result ←
                 Service.verify_identity face_verification_service
                   camera_image_path id_card_image_path student_details;
               ok ← getitem verification_result "success";
               if truthy ok then
                 result ← getitem verification_result "result";
                 confidence ← getitem verification_result "confidence";
                 name ← get_method student_details "name" (VStr "");
                 register_number ← get_method student_details "register_number" (VStr "");
                 department ← get_method student_details "department" (VStr "");
                 college ← get_method student_details "college" (VStr "");
                 year ← get_method student_details "year" (VStr "");
                 course ← get_method student_details "course" (VStr "");
                 is_match ← getitem verification_result "is_match";
                 face_distance ← getitem verification_result "face_distance";
                 verification_details ← getitem verification_result "verification_details";
                 tolerance_used ← subscript verification_details "tolerance_used";
                 timestamp ← subscript verification_details "timestamp";
                 camera_valid' ← getitem camera_quality "valid";
                 camera_details ←
                   (if truthy camera_valid' then getitem camera_quality "details"
                    else ret VNone);
                 id_card_valid' ← getitem id_card_quality "valid";
                 id_card_details ←
                   (if truthy id_card_valid' then getitem id_card_quality "details"
                    else ret VNone);
                 let response_data :=
                   dict [("result", result);
                         ("confidence", VStr (str confidence +:+ "%"));
                         ("student_details", VDict (dict
                           [("name", name);
                            ("register_number", register_number);
                            ("department", department);
                            ("college", college);
                            ("year", year);
                            ("course", course)]));
                         ("verification_details", VDict (dict
                           [("is_match", is_match);
                            ("face_distance", face_distance);
                            ("tolerance_used", tolerance_used);
                            ("recommendation",
                             get verification_result "recommendation" (VStr ""));
                            ("timestamp", timestamp)]));
                         ("image_info", VDict (dict
                           [("camera_image", VStr camera_image_path);
                            ("id_card_image", VStr id_card_image_path);
                            ("camera_quality", camera_details);
                            ("id_card_quality", id_card_details)]))] in
                 message ← getitem verification_result "message";
                 ret {| body := dict [("status", VStr "success");
                                      ("message", message);
                                      ("data", VDict response_data)];
                        status := 200 |}
               else
                 message ← getitem verification_result "message";
                 ret {| body := dict [("status", VStr "error");
                                      ("message", message);
                                      ("error_code",
                                       get verification_result "error_code" VNone);
                                      ("data", VDict (dict
                                        [("result", VStr "Verification Failed");
                                         ("confidence", VStr "0%");
                                         ("student_details", student_details)]))];
                        status := 400 |})
    (fun e =>
       ret {| body := dict [("status", VStr "error");
                            ("message", VStr ("Identity verification failed: " +:+ e));
                            ("error_code", VStr "VERIFICATION_EXCEPTION")];
              status := 500 |}).

(** [/compare-faces]; the argument is the parsed request body. *)
Definition compare_faces_only (data : Value) : Py Response :=
  try_except
    (if negb (truthy data) then
       ret {| body := dict [("status", VStr "error");
                            ("message", VStr "No JSON data provided");
                            ("error_code", VStr "NO_DATA")];
              status := 400 |}
     else
       image1 ← get_method data "image1_path" VNone;
       image2 ← get_method data "image2_path" VNone;
       if negb (truthy image1) || negb (truthy image2) then
         ret {| body := dict [("status", VStr "error");
                              ("message",
                               VStr "Both image1_path and image2_path are required");
                              ("error_code", VStr "MISSING_IMAGE_PATHS")];
                status := 400 |}
       else
         image1_path ← as_path image1;
         if negb (path_exists image1_path) then
           ret {| body := dict [("status", VStr "error");
                                ("message", VStr ("First image not found: "
                                                  +:+ image1_path));
                                ("error_code", VStr "IMAGE1_NOT_FOUND")];
                  status := 400 |}
         else
           image2_path ← as_path image2;
           if negb (path_exists image2_path) then
             ret {| body := dict [("status", VStr "error");
                                  ("message", VStr ("Second image not found: "
                                                    +:+ image2_path));
                                  ("error_code", VStr "IMAGE2_NOT_FOUND")];
                    status := 400 |}
           else
             (* Compare faces *)
             comparison_result ←
               Service.compare_faces face_verification_service
                 image1_path image2_path;
             ok ← getitem comparison_result "success";
             if truthy ok then
               message ← getitem comparison_result "message";
               result ← getitem comparison_result "result";
               is_match ← getitem comparison_result "is_match";
               confidence ← getitem comparison_result "confidence";
               face_distance ← getitem comparison_result "face_distance";
               tolerance_used ← getitem comparison_result "tolerance_used";
               details ← getitem comparison_result "details";
               ret {| body := dict [("status", VStr "success");
                                    ("message", message);
                                    ("data", VDict (dict
                                      [("result", result);
                                       ("is_match", is_match);
                                       ("confidence", confidence);
                                       ("face_distance", face_distance);
                                       ("tolerance_used", tolerance_used);
                                       ("details", details)]))];
                      status := 200 |}
             else
               message ← getitem comparison_result "message";
               ret {| body := dict [("status", VStr "error");
                                    ("message", message);
                                    ("error_code",
                                     get comparison_result "error_code" VNone)];
                      status := 400 |})
    (fun e =>
       ret {| body := dict [("status", VStr "error");
                            ("message", VStr ("Face comparison failed: " +:+ e));
                            ("error_code", VStr "COMPARISON_EXCEPTION")];
              status := 500 |}).
End Handlers.
End Routes.

(** ** Vocabulary for the statements *)

(** First binding of a key in a dictionary display. *)
Fixpoint assoc (k : string) (items : list (string * Value)) : option Value :=
  match items with
  | [] => None
  | (k', v) :: rest => if String.eqb k' k then Some v else assoc k rest
  end.

(** The shape shared by every failure report of the two services. *)
Definition failure (message error_code : string) : Dict :=
  dict [("success", VBool false);
        ("message", VStr message);
        ("error_code", VStr error_code)].

(** The feature bundle the fallback extractor computes for the face at
    [rect] of a decoded image, and its success report. *)
Definition features_of (image : CvImage) (rect : Rect) : Dict :=
  let '(x, y, w, h) := rect in
  dict [("histogram", VList (VFloat <$> take 50 (calcHist image rect)));
        ("mean_intensity", VFloat (region_mean image rect));
        ("std_intensity", VFloat (region_std image rect));
        ("face_area", VInt (w * h));
        ("aspect_ratio", VFloat (IZR w / IZR h));
        ("face_coords", rect_value rect)].

Definition features_report (image : CvImage) (rect : Rect) : Dict :=
  dict [("success", VBool true);
        ("message", VStr "Basic face features extracted successfully");
        ("features", VDict (features_of image rect));
        ("face_location", rect_value rect)].

(** The success report of the embedding extractor. *)
Definition encoding_report (encoding : list R) (location : Rect) : Dict :=
  dict [("success", VBool true);
        ("message", VStr "Face encoding extracted successfully");
        ("encoding", VList (VFloat <$> encoding));
        ("face_location", rect_value location)].

Definition height_of (rect : Rect) : Z := let '(_, _, _, h) := rect in h.
Definition width_of (rect : Rect) : Z := let '(_, _, w, _) := rect in w.

(** The four sub-scores of the heuristic comparison and their combination. *)
Definition intensity_similarity (mean1 mean2 : R) : R :=
  Rmax 0 (1 - Rabs (mean1 - mean2) / 255.0).
Definition ratio_similarity (ratio1 ratio2 : R) : R :=
  Rmax 0 (1 - Rabs (ratio1 - ratio2)).
Definition size_similarity (area1 area2 : R) : R :=
  Rmin area1 area2 / Rmax area1 area2.
Definition weighted_sum (hist intensity ratio size : R) : R :=
  hist * 0.4 + intensity * 0.2 + ratio * 0.2 + size * 0.2.
Definition clamp (x lo hi : R) : R := Rmax lo (Rmin hi x).

(** The feature values of a face region, as numbers. *)
Definition histogram_of (image : CvImage) (rect : Rect) : list R :=
  take 50 (calcHist image rect).
Definition aspect_of (rect : Rect) : R := IZR (width_of rect) / IZR (height_of rect).
Definition area_of (rect : Rect) : R := IZR (width_of rect * height_of rect).

Section Reports.
Context `{Runtime}.

(** The combined similarity of two located faces. *)
Definition heuristic_similarity (image1 : CvImage) (rect1 : Rect)
    (image2 : CvImage) (rect2 : Rect) : R :=
  weighted_sum
    (correlation (histogram_of image1 rect1) (histogram_of image2 rect2))
    (intensity_similarity (region_mean image1 rect1) (region_mean image2 rect2))
    (ratio_similarity (aspect_of rect1) (aspect_of rect2))
    (size_similarity (area_of rect1) (area_of rect2)).

(** The success report of [compare_faces_basic]. *)
Definition basic_comparison_report (image1_path image2_path : string)
    (image1 : CvImage) (rect1 : Rect) (image2 : CvImage) (rect2 : Rect) : Dict :=
  let hist_correlation := correlation (histogram_of image1 rect1) (histogram_of image2 rect2) in
  let intensity := intensity_similarity (region_mean image1 rect1) (region_mean image2 rect2) in
  let ratio := ratio_similarity (aspect_of rect1) (aspect_of rect2) in
  let size_ratio := size_similarity (area_of rect1) (area_of rect2) in
  let combined := weighted_sum hist_correlation intensity ratio size_ratio in
  let confidence := clamp (combined * 100) 0 100 in
  let is_match := bool_decide (combined >= Fallback.basic_threshold) in
  dict
    [("success", VBool true);
     ("result", VStr (if is_match then "Verified" else "Not Verified"));
     ("is_match", VBool is_match);
     ("confidence", VFloat (py_round confidence 2));
     ("similarity_score", VFloat (py_round combined 4));
     ("tolerance_used", VFloat Fallback.basic_threshold);
     ("message",
      VStr (if is_match
            then "Faces appear to match with " +:+ format_2f confidence
                 +:+ "% confidence (basic method)"
            else "Faces do not appear to match. Confidence: " +:+ format_2f confidence
                 +:+ "% (basic method)"));
     ("method", VStr "Basic OpenCV comparison");
     ("details", VDict (dict
       [("camera_image", VDict (dict [("path", VStr image1_path);
                                      ("face_location", rect_value rect1)]));
        ("id_card_image", VDict (dict [("path", VStr image2_path);
                                       ("face_location", rect_value rect2)]));
        ("similarity_breakdown", VDict (dict
          [("histogram_correlation", VFloat (py_round hist_correlation 4));
           ("intensity_similarity", VFloat (py_round intensity 4));
           ("ratio_similarity", VFloat (py_round ratio 4));
           ("size_similarity", VFloat (py_round size_ratio 4))]))]));
     ("warning", VStr "This is a basic comparison method. For better accuracy, install face_recognition library.")].

(** The confidence the fallback comparison reports. *)
Definition basic_confidence (image1 : CvImage) (rect1 : Rect)
    (image2 : CvImage) (rect2 : Rect) : R :=
  py_round (clamp (heuristic_similarity image1 rect1 image2 rect2 * 100) 0 100) 2.

(** [student_details or {}] *)
Definition or_empty (student_details : Value) : Value :=
  if truthy student_details then student_details else VDict (dict []).

(** The record both services return when the comparison did not succeed. *)
Definition failed_verification (message error_code student_details : Value) : Dict :=
  dict [("success", VBool false);
        ("result", VStr "Verification Failed");
        ("confidence", VInt 0);
        ("message", message);
        ("error_code", error_code);
        ("student_details", or_empty student_details)].

(** The record of a successful fallback verification. *)
Definition basic_verification_record (camera_image_path id_card_image_path : string)
    (student_details : Value)
    (image1 : CvImage) (rect1 : Rect) (image2 : CvImage) (rect2 : Rect) : Dict :=
  let report :=
    basic_comparison_report camera_image_path id_card_image_path image1 rect1 image2 rect2 in
  let field k := default VNone (report !! k) in
  let details := match field "details" with VDict d => d | _ => dict [] end in
  let c := basic_confidence image1 rect1 image2 rect2 in
  <["recommendation" :=
      VStr (if decide (c >= 70) then "Moderate confidence match (basic method)"
            else if decide (c >= 50) then "Low confidence match (basic method)"
            else "Very low confidence - manual review required")]>
    (dict [("success", VBool true);
           ("result", field "result");
           ("is_match", field "is_match");
           ("confidence", field "confidence");
           ("similarity_score", field "similarity_score");
           ("message", field "message");
           ("method", field "method");
           ("warning", field "warning");
           ("student_details", or_empty student_details);
           ("verification_details", VDict (dict
             [("tolerance_used", field "tolerance_used");
              ("camera_image", VStr camera_image_path);
              ("id_card_image", VStr id_card_image_path);
              ("timestamp", VStr _get_timestamp);
              ("similarity_breakdown",
               default VNone (details !! "similarity_breakdown"))]))]).

(** The success report of [compare_faces] on the embedding path. *)
Definition embedding_comparison_report (tolerance : R) (image1_path image2_path : string)
    (encoding1 : list R) (location1 : Rect) (encoding2 : list R) (location2 : Rect) : Dict :=
  let distance := euclidean encoding1 encoding2 in
  let confidence := Rmax 0 ((1 - distance) * 100) in
  let is_match := bool_decide (distance <= tolerance) in
  dict
    [("success", VBool true);
     ("result", VStr (if is_match then "Verified" else "Not Verified"));
     ("is_match", VBool is_match);
     ("confidence", VFloat (py_round confidence 2));
     ("face_distance", VFloat (py_round distance 4));
     ("tolerance_used", VFloat tolerance);
     ("message",
      VStr (if is_match
            then "Faces match with " +:+ format_2f confidence +:+ "% confidence"
            else "Faces do not match. Confidence: " +:+ format_2f confidence +:+ "%"));
     ("method", VStr "Advanced face_recognition library");
     ("details", VDict (dict
       [("camera_image", VDict (dict [("path", VStr image1_path);
                                      ("face_location", rect_value location1)]));
        ("id_card_image", VDict (dict [("path", VStr image2_path);
                                       ("face_location", rect_value location2)]))]))].

(** The confidence the embedding comparison reports. *)
Definition embedding_confidence (encoding1 encoding2 : list R) : R :=
  py_round (Rmax 0 ((1 - euclidean encoding1 encoding2) * 100)) 2.

(** The record of a successful verification on the embedding path. *)
Definition embedding_verification_record (tolerance : R)
    (camera_image_path id_card_image_path : string) (student_details : Value)
    (encoding1 : list R) (location1 : Rect) (encoding2 : list R) (location2 : Rect) : Dict :=
  let report :=
    embedding_comparison_report tolerance camera_image_path id_card_image_path
      encoding1 location1 encoding2 location2 in
  let field k := default VNone (report !! k) in
  let c := embedding_confidence encoding1 encoding2 in
  <["recommendation" :=
      VStr (if decide (c >= 80) then "High confidence match"
            else if decide (c >= 60) then "Moderate confidence match"
            else "Low confidence - manual review recommended")]>
    (dict [("success", VBool true);
           ("result", field "result");
           ("is_match", field "is_match");
           ("confidence", field "confidence");
           ("face_distance", field "face_distance");
           ("message", field "message");
           ("method", field "method");
           ("student_details", or_empty student_details);
           ("verification_details", VDict (dict
             [("tolerance_used", field "tolerance_used");
              ("camera_image", VStr camera_image_path);
              ("id_card_image", VStr id_card_image_path);
              ("timestamp", VStr _get_timestamp)]))]).

(** The image at [p] loads, shows exactly one face at [location], and the
    first encoding computed for it is [encoding]. *)
Definition encodable (p : string) (encoding : list R) (location : Rect) : Prop :=
  exists f image rest,
    files !! p = Some f /\ load_image_file f = Returned image
    /\ face_locations image = [location]
    /\ face_encodings image = Returned (encoding :: rest).

(** The conditions under which the fallback comparison yields a score. *)
Definition scorable (p1 p2 : string) (image1 : CvImage) (rect1 : Rect)
    (image2 : CvImage) (rect2 : Rect) : Prop :=
  cv2_imread p1 = Some image1 /\ detectMultiScale image1 = [rect1] /\ height_of rect1 <> 0%Z
  /\ cv2_imread p2 = Some image2 /\ detectMultiScale image2 = [rect2] /\ height_of rect2 <> 0%Z
  /\ length (histogram_of image1 rect1) = length (histogram_of image2 rect2)
  /\ Rmax (area_of rect1) (area_of rect2) <> 0.

(** The two images each yield one encoding, of a common dimension. *)
Definition comparable (p1 p2 : string) (encoding1 : list R) (location1 : Rect)
    (encoding2 : list R) (location2 : Rect) : Prop :=
  encodable p1 encoding1 location1 /\ encodable p2 encoding2 location2
  /\ length encoding1 = length encoding2.
End Reports.

(** A rejected and an accepted quality report. *)
Definition quality_failure (message error_code : string) : Dict :=
  dict [("valid", VBool false);
        ("message", VStr message);
        ("error_code", VStr error_code)].

Definition quality_pass (image : CvImage) : Dict :=
  dict [("valid", VBool true);
        ("message", VStr "Image quality is acceptable for face recognition");
        ("details", VDict (dict
          [("resolution", VStr (pretty (shape image).2 +:+ "x" +:+ pretty (shape image).1));
           ("brightness", VFloat (py_round (gray_mean image) 2));
           ("sharpness", VFloat (py_round (laplacian_var image) 2))]))].

(** The four thresholds of the quality gate, all met. *)
Definition acceptable (image : CvImage) : Prop :=
  (100 <= (shape image).2)%Z /\ (100 <= (shape image).1)%Z
  /\ 30 <= gray_mean image <= 225 /\ 100 <= laplacian_var image.

(** A well-formed body of a [/verify] request. *)
Definition request (camera_image_path id_card_image_path : string) (details : Value) : Value :=
  VDict (dict [("camera_image_path", VStr camera_image_path);
               ("id_card_image_path", VStr id_card_image_path);
               ("student_details", details)]).

(** The entry a quality report adds to [quality_issues]. *)
Definition issues_of `{Runtime} (tag : string) (report : Dict) : list Value :=
  match report !! "valid" with
  | Some v =>
      if truthy v then []
      else [VStr (tag +:+ str (default VNone (report !! "message")))]
  | None => []
  end.

(** The two error responses of the handler that the statements name. *)
Definition poor_quality (issues : list Value) : Routes.Response :=
  {| Routes.body := dict [("status", VStr "error");
                          ("message", VStr "Image quality issues detected");
                          ("error_code", VStr "POOR_IMAGE_QUALITY");
                          ("quality_issues", VList issues);
                          ("suggestions", Routes.suggestions)];
     Routes.status := 400 |}.

Definition server_error (e : string) : Routes.Response :=
  {| Routes.body := dict [("status", VStr "error");
                          ("message", VStr ("Identity verification failed: " +:+ e));
                          ("error_code", VStr "VERIFICATION_EXCEPTION")];
     Routes.status := 500 |}.

(** ** Vocabulary for the handlers and the error codes *)

(** The error codes an extraction can report, by backend. *)
Definition embedding_extraction_codes : list string :=
  ["FILE_NOT_FOUND"; "DLIB_DETECTION_ERROR"; "NO_FACE_DETECTED";
   "MULTIPLE_FACES_DETECTED"; "ENCODING_EXTRACTION_ERROR"].

Definition fallback_extraction_codes : list string :=
  ["FILE_NOT_FOUND"; "IMAGE_READ_ERROR"; "OPENCV_DETECTION_ERROR";
   "MULTIPLE_FACES_DETECTED"; "FEATURE_EXTRACTION_ERROR"].

(** The codes in force for the backend in use. *)
Definition extraction_codes `{Runtime} : list string :=
  if FACE_RECOGNITION_AVAILABLE then embedding_extraction_codes
  else fallback_extraction_codes.

(** The error codes a comparison can report over these. *)
Definition comparison_codes (codes : list string) : list string :=
  "COMPARISON_ERROR"
  :: ((fun c => "CAMERA_IMAGE_" +:+ c) <$> codes)
  ++ ((fun c => "ID_CARD_IMAGE_" +:+ c) <$> codes).

(** The stages of a comparison that reached its score. *)
Definition scored_stages (p1 p2 : string) : list Event :=
  [Entered REPRESENTATION_EXTRACTION p1; Entered FACE_DETECTION p1;
   Entered REPRESENTATION_EXTRACTION p2; Entered FACE_DETECTION p2;
   Entered COMPARISON p1; Entered COMPARISON p2].

(** The recommendation tiers of the two variants, and the verdict of a
    decision. *)
Definition embedding_tier (c : R) : string :=
  if decide (c >= 80) then "High confidence match"
  else if decide (c >= 60) then "Moderate confidence match"
  else "Low confidence - manual review recommended".

Definition basic_tier (c : R) : string :=
  if decide (c >= 70) then "Moderate confidence match (basic method)"
  else if decide (c >= 50) then "Low confidence match (basic method)"
  else "Very low confidence - manual review required".

Definition verdict (is_match : bool) : string :=
  if is_match then "Verified" else "Not Verified".

(** The postcondition of a computation: what holds of the value it
    returns, if it returns one. *)
Definition returns {A} (P : A -> Prop) (m : Py A) : Prop :=
  match outcome m with
  | Returned a => P a
  | Raised _ => True
  end.

(** An answer of a handler is a success with status 200 and a payload,
    or an error with status 400 or 500, a code and a message. *)
Definition well_formed (response : Routes.Response) : Prop :=
  (Routes.status response = 200%Z
   /\ Routes.body response !! "status" = Some (VStr "success")
   /\ is_Some (Routes.body response !! "message")
   /\ is_Some (Routes.body response !! "data")
   /\ Routes.body response !! "error_code" = None)
  \/ ((Routes.status response = 400%Z \/ Routes.status response = 500%Z)
      /\ Routes.body response !! "status" = Some (VStr "error")
      /\ is_Some (Routes.body response !! "message")
      /\ is_Some (Routes.body response !! "error_code")).

(** An error answer with the given status, message and code, and nothing else. *)
Definition error_response (status : Z) (message error_code : string) : Routes.Response :=
  {| Routes.body := dict [("status", VStr "error");
                          ("message", VStr message);
                          ("error_code", VStr error_code)];
     Routes.status := status |}.




(** The stages of a comparison and of a verification over the extractions
    of two images: those of the first extraction, those of the second,
    and the comparison stage when both extractions succeeded. *)
Definition staged (p1 p2 : string) (extract1 extract2 compare verify : Py Dict) : Prop :=
  exists log1 report1 log2 report2 tail,
    extract1 = (log1, Returned report1)
    /\ extract2 = (log2, Returned report2)
    /\ trace compare = (log1 ++ log2 ++ tail)%list
    /\ trace verify = (log1 ++ log2 ++ tail)%list
    /\ (report1 !! "success" = Some (VBool true) ->
        report2 !! "success" = Some (VBool true) ->
        tail = [Entered COMPARISON p1; Entered COMPARISON p2])
    /\ (report1 !! "success" = Some (VBool false)
        \/ report2 !! "success" = Some (VBool false) ->
        tail = []).

(** ** Sample files *)

Module Sample.

(** A face region whose pixels all have intensity 200: only bin 200 of the
    histogram is occupied. *)
Definition flat_histogram (pixels : Z) : list R :=
  replicate 200 0 ++ [IZR pixels] ++ replicate 55 0.

Definition picture (height width : Z) (mean sharpness : R) (faces : list Rect) : CvImage :=
  {| shape := (height, width);
     gray_mean := mean;
     laplacian_var := sharpness;
     detectMultiScale := faces;
     calcHist := fun rect => flat_histogram (width_of rect * height_of rect);
     region_mean := fun _ => 200;
     region_std := fun _ => 0 |}.

Definition camera_encoding : list R := 0.123456 :: replicate 127 0.
Definition id_card_encoding : list R := replicate 128 0.

Definition file (image : CvImage) (locations : list Rect) (encodings : list (list R))
    : ImageFile :=
  {| imread := Some image;
     load_image_file :=
       Returned {| face_locations := locations; face_encodings := Returned encodings |} |}.

Definition camera_face : Rect := (100, 100, 30, 30)%Z.
Definition id_card_face : Rect := (50, 40, 31, 31)%Z.
Definition camera_location : Rect := (100, 130, 130, 100)%Z.
Definition id_card_location : Rect := (40, 81, 71, 50)%Z.

Definition camera_picture : CvImage := picture 480 640 120 150 [camera_face].
Definition id_card_picture : CvImage := picture 300 240 140 180 [id_card_face].
Definition dark_picture : CvImage := picture 480 640 10 150 [camera_face].
Definition small_picture : CvImage := picture 80 80 120 150 [].
Definition empty_picture : CvImage := picture 480 640 120 150 [].
Definition group_picture : CvImage := picture 480 640 120 150 [camera_face; id_card_face].

Definition disk : gmap string ImageFile :=
  list_to_map
    [("camera.jpg", file camera_picture [camera_location] [camera_encoding]);
     ("id_card.jpg", file id_card_picture [id_card_location] [id_card_encoding]);
     ("dark.jpg", file dark_picture [camera_location] [camera_encoding]);
     ("small.jpg", file small_picture [] []);
     ("empty.jpg", file empty_picture [] []);
     ("group.jpg", file group_picture [camera_location; id_card_location]
                     [camera_encoding; id_card_encoding])].

(** A runtime over these files, with or without the embedding backend. *)
Definition runtime (available : bool) : Runtime :=
  {| FACE_RECOGNITION_AVAILABLE := available;
     files := disk;
     now := "2024-05-01T12:00:00";
     format_2f := fun _ => "";
     str_float := fun _ => "";
     repr_container := fun _ => "" |}.

(** The service as the routes build it, with and without the backend. *)
Definition embedding_service : Service.FaceVerificationService :=
  @Service.__init__ (runtime true) None None.
Definition degraded_service : Service.FaceVerificationService :=
  @Service.__init__ (runtime false) None None.

Definition no_details : Value := VDict (dict []).

End Sample.

(** * Properties *)

(** ** Rounding *)

Lemma Int_part_spec (x : R) : IZR (Int_part x) <= x < IZR (Int_part x) + 1.
Proof. destruct (base_Int_part x) as [H1 H2]. lra. Qed.

Lemma frac_part_eq (x : R) : frac_part x = x - IZR (Int_part x).
Proof. reflexivity. Qed.

(** Rounding never leaves an interval with integer end points. *)
Lemma round_half_even_bounds (a b : Z) (x : R) :
  IZR a <= x <= IZR b -> (a <= round_half_even x <= b)%Z.
Proof.
  intros [Ha Hb]. pose proof (Int_part_spec x) as [Hlo Hhi].
  assert (Hfa : (a <= Int_part x)%Z).
  { apply Z.lt_succ_r, lt_IZR. rewrite succ_IZR. lra. }
  assert (Hfb : (Int_part x <= b)%Z) by (apply le_IZR; lra).
  assert (Hup : 0 < frac_part x -> (Int_part x + 1 <= b)%Z).
  { rewrite frac_part_eq. intros Hpos.
    apply Z.le_succ_l, lt_IZR. lra. }
  unfold round_half_even.
  repeat case_decide; try destruct (Z.even _); split; try lia; apply Hup; lra.
Qed.

(** A real strictly within one half of an integer rounds to it. *)
Lemma round_half_even_near (z : Z) (x : R) :
  IZR z - 1 / 2 < x < IZR z + 1 / 2 -> round_half_even x = z.
Proof.
  intros [Hlo Hhi]. pose proof (Int_part_spec x) as [Flo Fhi].
  unfold round_half_even. rewrite frac_part_eq.
  assert (Hcases : Int_part x = z \/ Int_part x = (z - 1)%Z).
  { assert (z - 1 <= Int_part x)%Z.
    { apply Z.lt_succ_r, lt_IZR. rewrite succ_IZR, minus_IZR. lra. }
    assert (Int_part x < z + 1)%Z.
    { apply lt_IZR. rewrite plus_IZR. lra. }
    lia. }
  destruct Hcases as [-> | ->].
  - rewrite decide_True by lra. reflexivity.
  - rewrite minus_IZR in *. rewrite decide_False by lra.
    rewrite decide_True by lra. lia.
Qed.

Lemma pow10_pos (n : nat) : 0 < 10 ^ n.
Proof. apply pow_lt. lra. Qed.

Lemma py_round_bounds (a b : Z) (x : R) (n : nat) :
  IZR a <= x <= IZR b -> IZR a <= py_round x n <= IZR b.
Proof.
  intros [Ha Hb]. pose proof (pow10_pos n) as Hp.
  unfold py_round.
  assert (Hpow : 10 ^ n = IZR (10 ^ Z.of_nat n)).
  { rewrite <- pow_IZR. reflexivity. }
  destruct (round_half_even_bounds (a * 10 ^ Z.of_nat n) (b * 10 ^ Z.of_nat n) (x * 10 ^ n))
    as [Hlo Hhi].
  { rewrite !mult_IZR, <- Hpow. split; apply Rmult_le_compat_r; lra. }
  apply IZR_le in Hlo, Hhi. rewrite mult_IZR, <- Hpow in Hlo, Hhi.
  split; apply Rmult_le_reg_r with (10 ^ n); try lra;
    unfold Rdiv; rewrite Rmult_assoc, Rinv_l by lra; lra.
Qed.

Lemma py_round_near (z : Z) (x : R) (n : nat) :
  IZR z - 1 / 2 < x * 10 ^ n < IZR z + 1 / 2 -> py_round x n = IZR z / 10 ^ n.
Proof. intros Hx. unfold py_round. by rewrite (round_half_even_near z). Qed.

(** ** Dictionaries and computations *)

Lemma lookup_dict k items : dict items !! k = assoc k items.
Proof.
  unfold dict. induction items as [|[k' v] rest IH]; simpl.
  - apply lookup_empty.
  - rewrite lookup_insert. destruct (String.eqb_spec k' k) as [->|Hne].
    + by rewrite decide_True.
    + by rewrite decide_False.
Qed.

Lemma getitem_dict k items :
  getitem (dict items) k =
  match assoc k items with Some v => ret v | None => raise ("'" +:+ k +:+ "'") end.
Proof. unfold getitem. by rewrite lookup_dict. Qed.

Lemma get_dict k items dflt :
  get (dict items) k dflt = default dflt (assoc k items).
Proof. unfold get. rewrite lookup_dict. by destruct (assoc k items). Qed.

Lemma bind_returned {A B} (k : A -> Py B) log a :
  (log, Returned a) ≫= k = ((log ++ trace (k a))%list, outcome (k a)).
Proof. unfold mbind, Py_bind, bind. by destruct (k a). Qed.

Lemma bind_raised {A B} (k : A -> Py B) log msg :
  (log, Raised msg) ≫= k = (log, Raised msg).
Proof. reflexivity. Qed.

Lemma as_vector_floats (l : list R) : as_vector (VList (VFloat <$> l)) = ret l.
Proof.
  unfold as_vector. induction l as [|x l IH]; [reflexivity|].
  rewrite fmap_cons. cbn [foldr]. rewrite IH. reflexivity.
Qed.

(** ** The fallback extractor *)

Section FallbackExtraction.
Context `{Runtime}.
Implicit Types (self : Fallback.FaceVerificationServiceFallback) (p : string).

Lemma cv2_imread_exists p image : cv2_imread p = Some image -> path_exists p = true.
Proof.
  unfold cv2_imread, path_exists. intros Him.
  destruct (files !! p) as [f|]; [|discriminate].
  by apply bool_decide_eq_true.
Qed.

Lemma Fallback_detect_decoded self p image :
  cv2_imread p = Some image -> detectMultiScale image <> [] ->
  Fallback.detect_faces_opencv self p =
  ([Entered FACE_DETECTION p],
   Returned (dict [("success", VBool true);
                   ("face_count", VInt (Z.of_nat (length (detectMultiScale image))));
                   ("faces", VList (rect_value <$> detectMultiScale image));
                   ("message", VStr ("Detected "
                                     +:+ pretty (Z.of_nat (length (detectMultiScale image)))
                                     +:+ " face(s) using OpenCV"))])).
Proof.
  intros Him Hfaces. unfold Fallback.detect_faces_opencv. rewrite Him.
  by destruct (detectMultiScale image).
Qed.

(** Without a detection the locator itself fails: [tolist] raises and the
    handler turns the exception into a report. *)
Lemma Fallback_detect_nothing self p image :
  cv2_imread p = Some image -> detectMultiScale image = [] ->
  Fallback.detect_faces_opencv self p =
  ([Entered FACE_DETECTION p],
   Returned (failure "Face detection failed: 'tuple' object has no attribute 'tolist'"
                     "OPENCV_DETECTION_ERROR")).
Proof.
  intros Him Hfaces. unfold Fallback.detect_faces_opencv. by rewrite Him, Hfaces.
Qed.

Lemma Fallback_detect_undecoded self p :
  cv2_imread p = None ->
  Fallback.detect_faces_opencv self p =
  ([Entered FACE_DETECTION p], Returned (failure "Could not read image file" "IMAGE_READ_ERROR")).
Proof. intros Him. unfold Fallback.detect_faces_opencv. by rewrite Him. Qed.

Lemma Fallback_extract_missing self p :
  path_exists p = false ->
  Fallback.extract_face_features self p =
  ([Entered REPRESENTATION_EXTRACTION p],
   Returned (failure "Image file not found" "FILE_NOT_FOUND")).
Proof. intros Hex. unfold Fallback.extract_face_features. by rewrite Hex. Qed.

Lemma Fallback_extract_undecoded self p :
  path_exists p = true -> cv2_imread p = None ->
  Fallback.extract_face_features self p =
  ([Entered REPRESENTATION_EXTRACTION p; Entered FACE_DETECTION p],
   Returned (failure "Could not read image file" "IMAGE_READ_ERROR")).
Proof.
  intros Hex Him. unfold Fallback.extract_face_features.
  rewrite Hex, Fallback_detect_undecoded by done. simpl.
  unfold failure. rewrite getitem_dict. reflexivity.
Qed.

(** The report of the failed locator is handed on as it is: the branch
    for [face_count == 0] is never reached. *)
Lemma Fallback_extract_no_face self p image :
  cv2_imread p = Some image -> detectMultiScale image = [] ->
  Fallback.extract_face_features self p =
  ([Entered REPRESENTATION_EXTRACTION p; Entered FACE_DETECTION p],
   Returned (failure "Face detection failed: 'tuple' object has no attribute 'tolist'"
                     "OPENCV_DETECTION_ERROR")).
Proof.
  intros Him Hfaces. unfold Fallback.extract_face_features.
  rewrite (cv2_imread_exists _ _ Him), (Fallback_detect_nothing _ _ _ Him Hfaces). simpl.
  unfold failure. rewrite !getitem_dict. reflexivity.
Qed.

Lemma Fallback_extract_multiple self p image :
  cv2_imread p = Some image -> (2 <= length (detectMultiScale image))%nat ->
  Fallback.extract_face_features self p =
  ([Entered REPRESENTATION_EXTRACTION p; Entered FACE_DETECTION p],
   Returned (failure ("Multiple faces detected ("
                      +:+ pretty (Z.of_nat (length (detectMultiScale image)))
                      +:+ "). Please use image with single face")
                     "MULTIPLE_FACES_DETECTED")).
Proof.
  intros Him Hmany. unfold Fallback.extract_face_features.
  rewrite (cv2_imread_exists _ _ Him), (Fallback_detect_decoded _ _ _ Him)
    by (intros Hnil; rewrite Hnil in Hmany; simpl in Hmany; lia).
  simpl.
  rewrite !getitem_dict. simpl.
  destruct (Z.eqb_spec (Z.of_nat (length (detectMultiScale image))) 0) as [Hz|_]; [lia|].
  simpl. rewrite decide_True; [reflexivity|].
  apply Rlt_gt, IZR_lt. lia.
Qed.

Lemma Fallback_extract_flat self p image x y w :
  cv2_imread p = Some image -> detectMultiScale image = [(x, y, w, 0%Z)] ->
  Fallback.extract_face_features self p =
  ([Entered REPRESENTATION_EXTRACTION p; Entered FACE_DETECTION p],
   Returned (failure "Face feature extraction failed: division by zero"
                     "FEATURE_EXTRACTION_ERROR")).
Proof.
  intros Him Hfaces. unfold Fallback.extract_face_features.
  rewrite (cv2_imread_exists _ _ Him), (Fallback_detect_decoded _ _ _ Him)
    by (by rewrite Hfaces).
  rewrite Hfaces, Him.
  simpl. rewrite !getitem_dict. simpl. change (Z.of_nat 1) with 1%Z.
  rewrite decide_False by lra. simpl. rewrite ?getitem_dict. reflexivity.
Qed.

Lemma Fallback_extract_one self p image rect :
  cv2_imread p = Some image -> detectMultiScale image = [rect] -> height_of rect <> 0%Z ->
  Fallback.extract_face_features self p =
  ([Entered REPRESENTATION_EXTRACTION p; Entered FACE_DETECTION p],
   Returned (features_report image rect)).
Proof.
  destruct rect as [[[x y] w] h]. simpl. intros Him Hfaces Hh.
  unfold Fallback.extract_face_features.
  rewrite (cv2_imread_exists _ _ Him), (Fallback_detect_decoded _ _ _ Him)
    by (by rewrite Hfaces).
  rewrite Hfaces, Him.
  simpl. rewrite !getitem_dict. simpl. change (Z.of_nat 1) with 1%Z.
  rewrite decide_False by lra. simpl. rewrite ?getitem_dict. simpl.
  rewrite (decide_False (P := h = 0%Z)) by done. reflexivity.
Qed.

(** The extractor always returns a report, and the report is either a
    failure or the feature bundle of the only face found. *)
Lemma Fallback_extract_cases self p :
  (exists log message code,
     Fallback.extract_face_features self p = (log, Returned (failure message code)))
  \/ (exists image rect,
        cv2_imread p = Some image /\ detectMultiScale image = [rect]
        /\ height_of rect <> 0%Z
        /\ Fallback.extract_face_features self p =
           ([Entered REPRESENTATION_EXTRACTION p; Entered FACE_DETECTION p],
            Returned (features_report image rect))).
Proof.
  destruct (path_exists p) eqn:Hex.
  2: { left. do 3 eexists. by apply Fallback_extract_missing. }
  destruct (cv2_imread p) as [image|] eqn:Him.
  2: { left. do 3 eexists. by apply Fallback_extract_undecoded. }
  destruct (detectMultiScale image) as [|rect [|rect' rest]] eqn:Hfaces.
  - left. do 3 eexists. by eapply Fallback_extract_no_face.
  - destruct (decide (height_of rect = 0%Z)) as [Hz|Hnz].
    + left. destruct rect as [[[x y] w] h]. simpl in Hz. subst h.
      do 3 eexists. by eapply Fallback_extract_flat.
    + right. exists image, rect. repeat split; try done.
      by apply Fallback_extract_one.
  - left. do 3 eexists. eapply Fallback_extract_multiple; [done|].
    rewrite Hfaces. simpl. lia.
Qed.
End FallbackExtraction.

(** ** The fallback comparison *)

Section FallbackComparison.
Context `{Runtime}.
Implicit Types (self : Fallback.FaceVerificationServiceFallback).

(** A failed extraction of the camera image ends the comparison. *)
Lemma Fallback_compare_camera_failed self p1 p2 log1 log2 message code report2 :
  Fallback.extract_face_features self p1 = (log1, Returned (failure message code)) ->
  Fallback.extract_face_features self p2 = (log2, Returned report2) ->
  Fallback.compare_faces_basic self p1 p2 =
  ((log1 ++ log2)%list,
   Returned (failure ("Live camera image: " +:+ message) ("CAMERA_IMAGE_" +:+ code))).
Proof.
  intros H1 H2. unfold Fallback.compare_faces_basic. rewrite H1, H2. simpl.
  unfold failure. rewrite !getitem_dict. simpl. rewrite get_dict. simpl.
  by rewrite app_nil_r.
Qed.

(** So does a failed extraction of the ID card image. *)
Lemma Fallback_compare_id_card_failed self p1 p2 log1 log2 image1 rect1 message code :
  Fallback.extract_face_features self p1 = (log1, Returned (features_report image1 rect1)) ->
  Fallback.extract_face_features self p2 = (log2, Returned (failure message code)) ->
  Fallback.compare_faces_basic self p1 p2 =
  ((log1 ++ log2)%list,
   Returned (failure ("ID card image: " +:+ message) ("ID_CARD_IMAGE_" +:+ code))).
Proof.
  intros H1 H2. unfold Fallback.compare_faces_basic. rewrite H1, H2. simpl.
  unfold failure, features_report. rewrite !getitem_dict. simpl. rewrite get_dict. simpl.
  by rewrite app_nil_r.
Qed.

(** With both feature bundles in hand the four sub-scores are computed. *)
Lemma Fallback_compare_scored self p1 p2 log1 log2 image1 rect1 image2 rect2 :
  Fallback.extract_face_features self p1 = (log1, Returned (features_report image1 rect1)) ->
  Fallback.extract_face_features self p2 = (log2, Returned (features_report image2 rect2)) ->
  length (histogram_of image1 rect1) = length (histogram_of image2 rect2) ->
  Rmax (area_of rect1) (area_of rect2) <> 0 ->
  Fallback.compare_faces_basic self p1 p2 =
  ((log1 ++ log2 ++ [Entered COMPARISON p1; Entered COMPARISON p2])%list,
   Returned (basic_comparison_report p1 p2 image1 rect1 image2 rect2)).
Proof.
  intros H1 H2 Hlen Harea. unfold Fallback.compare_faces_basic. rewrite H1, H2.
  destruct rect1 as [[[x1 y1] w1] h1], rect2 as [[[x2 y2] w2] h2].
  unfold area_of, histogram_of in *. simpl in Hlen, Harea. simpl.
  unfold features_report, features_of. rewrite !getitem_dict. simpl.
  rewrite !getitem_dict. simpl. rewrite !as_vector_floats. simpl.
  unfold compareHist_CORREL.
  rewrite (decide_True (P := length _ = length _)) by exact Hlen. simpl.
  rewrite (decide_False (P := Rmax _ _ = 0)) by exact Harea. simpl.
  reflexivity.
Qed.

Lemma Fallback_compare_sizes_differ self p1 p2 log1 log2 image1 rect1 image2 rect2 :
  Fallback.extract_face_features self p1 = (log1, Returned (features_report image1 rect1)) ->
  Fallback.extract_face_features self p2 = (log2, Returned (features_report image2 rect2)) ->
  length (histogram_of image1 rect1) <> length (histogram_of image2 rect2) ->
  Fallback.compare_faces_basic self p1 p2 =
  ((log1 ++ log2 ++ [Entered COMPARISON p1; Entered COMPARISON p2])%list,
   Returned (failure "Face comparison failed: OpenCV: histograms differ in size"
                     "COMPARISON_ERROR")).
Proof.
  intros H1 H2 Hlen. unfold Fallback.compare_faces_basic. rewrite H1, H2.
  destruct rect1 as [[[x1 y1] w1] h1], rect2 as [[[x2 y2] w2] h2].
  unfold histogram_of in *. simpl.
  unfold features_report, features_of. rewrite !getitem_dict. simpl.
  rewrite !getitem_dict. simpl. rewrite !as_vector_floats. simpl.
  unfold compareHist_CORREL.
  rewrite (decide_False (P := length _ = length _)) by exact Hlen. simpl.
  by rewrite app_nil_r.
Qed.

Lemma Fallback_compare_no_area self p1 p2 log1 log2 image1 rect1 image2 rect2 :
  Fallback.extract_face_features self p1 = (log1, Returned (features_report image1 rect1)) ->
  Fallback.extract_face_features self p2 = (log2, Returned (features_report image2 rect2)) ->
  length (histogram_of image1 rect1) = length (histogram_of image2 rect2) ->
  Rmax (area_of rect1) (area_of rect2) = 0 ->
  Fallback.compare_faces_basic self p1 p2 =
  ((log1 ++ log2 ++ [Entered COMPARISON p1; Entered COMPARISON p2])%list,
   Returned (failure "Face comparison failed: division by zero" "COMPARISON_ERROR")).
Proof.
  intros H1 H2 Hlen Harea. unfold Fallback.compare_faces_basic. rewrite H1, H2.
  destruct rect1 as [[[x1 y1] w1] h1], rect2 as [[[x2 y2] w2] h2].
  unfold area_of, histogram_of in *. simpl in Hlen, Harea. simpl.
  unfold features_report, features_of. rewrite !getitem_dict. simpl.
  rewrite !getitem_dict. simpl. rewrite !as_vector_floats. simpl.
  unfold compareHist_CORREL.
  rewrite (decide_True (P := length _ = length _)) by exact Hlen. simpl.
  rewrite (decide_True (P := Rmax _ _ = 0)) by exact Harea. simpl.
  by rewrite app_nil_r.
Qed.

Lemma Fallback_compare_of_scorable self p1 p2 image1 rect1 image2 rect2 :
  scorable p1 p2 image1 rect1 image2 rect2 ->
  Fallback.compare_faces_basic self p1 p2 =
  ([Entered REPRESENTATION_EXTRACTION p1; Entered FACE_DETECTION p1;
    Entered REPRESENTATION_EXTRACTION p2; Entered FACE_DETECTION p2;
    Entered COMPARISON p1; Entered COMPARISON p2],
   Returned (basic_comparison_report p1 p2 image1 rect1 image2 rect2)).
Proof.
  intros (Him1 & Hf1 & Hh1 & Him2 & Hf2 & Hh2 & Hlen & Harea).
  by rewrite (Fallback_compare_scored self p1 p2 _ _ image1 rect1 image2 rect2
                (Fallback_extract_one self p1 image1 rect1 Him1 Hf1 Hh1)
                (Fallback_extract_one self p2 image2 rect2 Him2 Hf2 Hh2) Hlen Harea).
Qed.

(** The comparison always returns a report: a failure, or the scores of
    the two single faces. *)
Lemma Fallback_compare_cases self p1 p2 :
  (exists log message code,
     Fallback.compare_faces_basic self p1 p2 = (log, Returned (failure message code)))
  \/ (exists image1 rect1 image2 rect2,
        scorable p1 p2 image1 rect1 image2 rect2).
Proof.
  destruct (Fallback_extract_cases self p1)
    as [(log1 & m1 & c1 & E1) | (image1 & rect1 & Him1 & Hf1 & Hh1 & E1)].
  { destruct (Fallback_extract_cases self p2)
      as [(log2 & m2 & c2 & E2) | (image2 & rect2 & _ & _ & _ & E2)];
      left; do 3 eexists; by eapply Fallback_compare_camera_failed. }
  destruct (Fallback_extract_cases self p2)
    as [(log2 & m2 & c2 & E2) | (image2 & rect2 & Him2 & Hf2 & Hh2 & E2)].
  { left. do 3 eexists. by eapply Fallback_compare_id_card_failed. }
  destruct (decide (length (histogram_of image1 rect1) = length (histogram_of image2 rect2)))
    as [Hlen|Hlen].
  2: { left. do 3 eexists. by eapply Fallback_compare_sizes_differ. }
  destruct (decide (Rmax (area_of rect1) (area_of rect2) = 0)) as [Harea|Harea].
  { left. do 3 eexists. by eapply Fallback_compare_no_area. }
  right. exists image1, rect1, image2, rect2. by repeat split.
Qed.

(** *** [verify_identity] of the fallback service *)

Lemma Fallback_verify_failed self p1 p2 details log message code :
  Fallback.compare_faces_basic self p1 p2 = (log, Returned (failure message code)) ->
  Fallback.verify_identity self p1 p2 details =
  (log, Returned (failed_verification (VStr message) (VStr code) details)).
Proof.
  intros Hc. unfold Fallback.verify_identity. rewrite Hc. simpl.
  unfold failure. rewrite !getitem_dict. simpl. rewrite get_dict. simpl.
  by rewrite app_nil_r.
Qed.

Lemma Fallback_verify_scored self p1 p2 details image1 rect1 image2 rect2 :
  scorable p1 p2 image1 rect1 image2 rect2 ->
  Fallback.verify_identity self p1 p2 details =
  ([Entered REPRESENTATION_EXTRACTION p1; Entered FACE_DETECTION p1;
    Entered REPRESENTATION_EXTRACTION p2; Entered FACE_DETECTION p2;
    Entered COMPARISON p1; Entered COMPARISON p2],
   Returned (basic_verification_record p1 p2 details image1 rect1 image2 rect2)).
Proof.
  intros Hs. unfold Fallback.verify_identity.
  rewrite (Fallback_compare_of_scorable _ _ _ _ _ _ _ Hs). simpl.
  unfold basic_verification_record, basic_comparison_report.
  rewrite !getitem_dict, !get_dict, !lookup_dict. simpl.
  rewrite !getitem_dict, !lookup_dict. simpl.
  fold (heuristic_similarity image1 rect1 image2 rect2).
  fold (basic_confidence image1 rect1 image2 rect2).
  repeat case_decide; reflexivity.
Qed.
End FallbackComparison.

(** ** The embedding extractor *)

Section EmbeddingExtraction.
Context `{Runtime}.
Hypothesis available : FACE_RECOGNITION_AVAILABLE = true.
Implicit Types (self : Service.FaceVerificationService) (p : string).

Lemma path_exists_lookup p f : files !! p = Some f -> path_exists p = true.
Proof. intros Hf. unfold path_exists. rewrite Hf. by apply bool_decide_eq_true. Qed.

Lemma Service_extract_missing self p :
  path_exists p = false ->
  Service.extract_face_encoding self p =
  ([Entered REPRESENTATION_EXTRACTION p],
   Returned (failure "Image file not found" "FILE_NOT_FOUND")).
Proof. intros Hex. unfold Service.extract_face_encoding. by rewrite available, Hex. Qed.

Lemma Service_extract_unloadable self p f e :
  files !! p = Some f -> load_image_file f = Raised e ->
  Service.extract_face_encoding self p =
  ([Entered REPRESENTATION_EXTRACTION p; Entered FACE_DETECTION p],
   Returned (failure ("Face detection failed: " +:+ e) "DLIB_DETECTION_ERROR")).
Proof.
  intros Hf Hload.
  unfold Service.extract_face_encoding, Service.detect_faces_dlib, fr_load_image_file.
  rewrite available, (path_exists_lookup _ _ Hf), Hf, Hload. simpl.
  rewrite !getitem_dict. reflexivity.
Qed.

Lemma Service_extract_no_face self p f image :
  files !! p = Some f -> load_image_file f = Returned image -> face_locations image = [] ->
  Service.extract_face_encoding self p =
  ([Entered REPRESENTATION_EXTRACTION p; Entered FACE_DETECTION p],
   Returned (failure "No face detected in image" "NO_FACE_DETECTED")).
Proof.
  intros Hf Hload Hlocs.
  unfold Service.extract_face_encoding, Service.detect_faces_dlib, fr_load_image_file.
  rewrite available, (path_exists_lookup _ _ Hf), Hf, Hload. simpl.
  rewrite Hlocs. simpl.
  rewrite !getitem_dict. reflexivity.
Qed.

Lemma Service_extract_unencodable self p f image e :
  files !! p = Some f -> load_image_file f = Returned image ->
  face_locations image <> [] -> face_encodings image = Raised e ->
  Service.extract_face_encoding self p =
  ([Entered REPRESENTATION_EXTRACTION p; Entered FACE_DETECTION p],
   Returned (failure ("Face detection failed: " +:+ e) "DLIB_DETECTION_ERROR")).
Proof.
  intros Hf Hload Hlocs Henc.
  unfold Service.extract_face_encoding, Service.detect_faces_dlib, fr_load_image_file.
  rewrite available, (path_exists_lookup _ _ Hf), Hf, Hload. simpl.
  rewrite Henc. simpl.
  rewrite decide_False by (destruct (face_locations image); [done|simpl; lia]).
  simpl. rewrite !getitem_dict. reflexivity.
Qed.

Lemma Service_extract_multiple self p f image encodings :
  files !! p = Some f -> load_image_file f = Returned image ->
  (2 <= length (face_locations image))%nat -> face_encodings image = Returned encodings ->
  Service.extract_face_encoding self p =
  ([Entered REPRESENTATION_EXTRACTION p; Entered FACE_DETECTION p],
   Returned (failure ("Multiple faces detected ("
                      +:+ pretty (Z.of_nat (length (face_locations image)))
                      +:+ "). Please use image with single face")
                     "MULTIPLE_FACES_DETECTED")).
Proof.
  intros Hf Hload Hmany Henc.
  unfold Service.extract_face_encoding, Service.detect_faces_dlib, fr_load_image_file.
  rewrite available, (path_exists_lookup _ _ Hf), Hf, Hload. simpl.
  rewrite Henc. simpl.
  rewrite decide_False by lia. simpl. rewrite !getitem_dict. simpl.
  destruct (Z.eqb_spec (Z.of_nat (length (face_locations image))) 0) as [Hz|_]; [lia|].
  simpl. rewrite decide_True; [reflexivity|].
  apply Rlt_gt, IZR_lt. lia.
Qed.

Lemma Service_extract_no_encoding self p f image location :
  files !! p = Some f -> load_image_file f = Returned image ->
  face_locations image = [location] -> face_encodings image = Returned [] ->
  Service.extract_face_encoding self p =
  ([Entered REPRESENTATION_EXTRACTION p; Entered FACE_DETECTION p],
   Returned (failure "Face encoding extraction failed: list index out of range"
                     "ENCODING_EXTRACTION_ERROR")).
Proof.
  intros Hf Hload Hlocs Henc.
  unfold Service.extract_face_encoding, Service.detect_faces_dlib, fr_load_image_file.
  rewrite available, (path_exists_lookup _ _ Hf), Hf, Hload. simpl.
  rewrite Henc, Hlocs. simpl.
  rewrite !getitem_dict. simpl. change (Z.of_nat 1) with 1%Z.
  rewrite decide_False by lra. simpl. rewrite ?getitem_dict. reflexivity.
Qed.

Lemma Service_extract_one self p encoding location :
  encodable p encoding location ->
  Service.extract_face_encoding self p =
  ([Entered REPRESENTATION_EXTRACTION p; Entered FACE_DETECTION p],
   Returned (encoding_report encoding location)).
Proof.
  intros (f & image & rest & Hf & Hload & Hlocs & Henc).
  unfold Service.extract_face_encoding, Service.detect_faces_dlib, fr_load_image_file.
  rewrite available, (path_exists_lookup _ _ Hf), Hf, Hload. simpl.
  rewrite Henc, Hlocs. simpl.
  rewrite !getitem_dict. simpl. change (Z.of_nat 1) with 1%Z.
  rewrite decide_False by lra. simpl. rewrite ?getitem_dict. reflexivity.
Qed.

(** The extractor always returns a report: a failure, or the encoding of
    the only face found. *)
Lemma Service_extract_cases self p :
  (exists log message code,
     Service.extract_face_encoding self p = (log, Returned (failure message code)))
  \/ (exists encoding location, encodable p encoding location).
Proof.
  destruct (path_exists p) eqn:Hex.
  2: { left. do 3 eexists. by apply Service_extract_missing. }
  destruct (files !! p) as [f|] eqn:Hf.
  2: { unfold path_exists in Hex. rewrite Hf in Hex.
       apply bool_decide_eq_true in Hex. by destruct Hex. }
  destruct (load_image_file f) as [image|e] eqn:Hload.
  2: { left. do 3 eexists. by eapply Service_extract_unloadable. }
  destruct (face_locations image) as [|location [|location' more]] eqn:Hlocs.
  - left. do 3 eexists. by eapply Service_extract_no_face.
  - destruct (face_encodings image) as [[|encoding rest]|e] eqn:Henc.
    + left. do 3 eexists. by eapply Service_extract_no_encoding.
    + right. exists encoding, location, f, image, rest. by repeat split.
    + left. do 3 eexists. eapply Service_extract_unencodable; try done. by rewrite Hlocs.
  - destruct (face_encodings image) as [encodings|e] eqn:Henc.
    + left. do 3 eexists. eapply Service_extract_multiple; try done.
      rewrite Hlocs. simpl. lia.
    + left. do 3 eexists. eapply Service_extract_unencodable; try done. by rewrite Hlocs.
Qed.
End EmbeddingExtraction.

(** ** The embedding comparison *)

Section EmbeddingComparison.
Context `{Runtime}.
Hypothesis available : FACE_RECOGNITION_AVAILABLE = true.
Implicit Types (self : Service.FaceVerificationService).

Lemma Service_compare_camera_failed self p1 p2 log1 log2 message code report2 :
  Service.extract_face_encoding self p1 = (log1, Returned (failure message code)) ->
  Service.extract_face_encoding self p2 = (log2, Returned report2) ->
  Service.compare_faces self p1 p2 =
  ((log1 ++ log2)%list,
   Returned (failure ("Live camera image: " +:+ message) ("CAMERA_IMAGE_" +:+ code))).
Proof.
  intros H1 H2. unfold Service.compare_faces. rewrite available, H1, H2. simpl.
  unfold failure. rewrite !getitem_dict. simpl. rewrite get_dict. simpl.
  by rewrite app_nil_r.
Qed.

Lemma Service_compare_id_card_failed self p1 p2 log1 log2 encoding1 location1 message code :
  Service.extract_face_encoding self p1
    = (log1, Returned (encoding_report encoding1 location1)) ->
  Service.extract_face_encoding self p2 = (log2, Returned (failure message code)) ->
  Service.compare_faces self p1 p2 =
  ((log1 ++ log2)%list,
   Returned (failure ("ID card image: " +:+ message) ("ID_CARD_IMAGE_" +:+ code))).
Proof.
  intros H1 H2. unfold Service.compare_faces. rewrite available, H1, H2. simpl.
  unfold failure, encoding_report. rewrite !getitem_dict. simpl. rewrite get_dict. simpl.
  by rewrite app_nil_r.
Qed.

Lemma Service_compare_scored self p1 p2 log1 log2 encoding1 location1 encoding2 location2 :
  Service.extract_face_encoding self p1
    = (log1, Returned (encoding_report encoding1 location1)) ->
  Service.extract_face_encoding self p2
    = (log2, Returned (encoding_report encoding2 location2)) ->
  length encoding1 = length encoding2 ->
  Service.compare_faces self p1 p2 =
  ((log1 ++ log2 ++ [Entered COMPARISON p1; Entered COMPARISON p2])%list,
   Returned (embedding_comparison_report (Service.tolerance self) p1 p2
               encoding1 location1 encoding2 location2)).
Proof.
  intros H1 H2 Hlen. unfold Service.compare_faces. rewrite available, H1, H2. simpl.
  unfold encoding_report. rewrite !getitem_dict. simpl.
  rewrite !as_vector_floats. simpl. unfold face_distance.
  rewrite decide_True by (by repeat constructor). simpl.
  rewrite ?getitem_dict. reflexivity.
Qed.

Lemma Service_compare_mismatched self p1 p2 log1 log2 encoding1 location1 encoding2 location2 :
  Service.extract_face_encoding self p1
    = (log1, Returned (encoding_report encoding1 location1)) ->
  Service.extract_face_encoding self p2
    = (log2, Returned (encoding_report encoding2 location2)) ->
  length encoding1 <> length encoding2 ->
  Service.compare_faces self p1 p2 =
  ((log1 ++ log2 ++ [Entered COMPARISON p1; Entered COMPARISON p2])%list,
   Returned (failure "Face comparison failed: operands could not be broadcast together"
                     "COMPARISON_ERROR")).
Proof.
  intros H1 H2 Hlen. unfold Service.compare_faces. rewrite available, H1, H2. simpl.
  unfold encoding_report. rewrite !getitem_dict. simpl.
  rewrite !as_vector_floats. simpl. unfold face_distance.
  rewrite decide_False by (by inversion 1). simpl.
  by rewrite app_nil_r.
Qed.

Lemma Service_compare_of_comparable self p1 p2 encoding1 location1 encoding2 location2 :
  comparable p1 p2 encoding1 location1 encoding2 location2 ->
  Service.compare_faces self p1 p2 =
  ([Entered REPRESENTATION_EXTRACTION p1; Entered FACE_DETECTION p1;
    Entered REPRESENTATION_EXTRACTION p2; Entered FACE_DETECTION p2;
    Entered COMPARISON p1; Entered COMPARISON p2],
   Returned (embedding_comparison_report (Service.tolerance self) p1 p2
               encoding1 location1 encoding2 location2)).
Proof.
  intros (He1 & He2 & Hlen).
  by rewrite (Service_compare_scored self p1 p2 _ _ _ _ _ _
                (Service_extract_one available self p1 _ _ He1)
                (Service_extract_one available self p2 _ _ He2) Hlen).
Qed.

Lemma Service_compare_cases self p1 p2 :
  (exists log message code,
     Service.compare_faces self p1 p2 = (log, Returned (failure message code)))
  \/ (exists encoding1 location1 encoding2 location2,
        comparable p1 p2 encoding1 location1 encoding2 location2).
Proof.
  destruct (Service_extract_cases available self p1)
    as [(log1 & m1 & c1 & E1) | (e1 & loc1 & He1)].
  { destruct (Service_extract_cases available self p2)
      as [(log2 & m2 & c2 & E2) | (e2 & loc2 & He2)];
      left; do 3 eexists; eapply Service_compare_camera_failed; try done.
    by apply Service_extract_one. }
  pose proof (Service_extract_one available self p1 _ _ He1) as E1.
  destruct (Service_extract_cases available self p2)
    as [(log2 & m2 & c2 & E2) | (e2 & loc2 & He2)].
  { left. do 3 eexists. by eapply Service_compare_id_card_failed. }
  pose proof (Service_extract_one available self p2 _ _ He2) as E2.
  destruct (decide (length e1 = length e2)) as [Hlen|Hlen].
  - right. by exists e1, loc1, e2, loc2.
  - left. do 3 eexists. by eapply Service_compare_mismatched.
Qed.

(** *** [verify_identity] on the embedding path *)

Lemma Service_verify_failed self p1 p2 details log message code :
  Service.compare_faces self p1 p2 = (log, Returned (failure message code)) ->
  Service.verify_identity self p1 p2 details =
  (log, Returned (failed_verification (VStr message) (VStr code) details)).
Proof.
  intros Hc. unfold Service.verify_identity. rewrite available, Hc. simpl.
  unfold failure. rewrite !getitem_dict. simpl. rewrite get_dict. simpl.
  by rewrite app_nil_r.
Qed.

Lemma Service_verify_scored self p1 p2 details encoding1 location1 encoding2 location2 :
  comparable p1 p2 encoding1 location1 encoding2 location2 ->
  Service.verify_identity self p1 p2 details =
  ([Entered REPRESENTATION_EXTRACTION p1; Entered FACE_DETECTION p1;
    Entered REPRESENTATION_EXTRACTION p2; Entered FACE_DETECTION p2;
    Entered COMPARISON p1; Entered COMPARISON p2],
   Returned (embedding_verification_record (Service.tolerance self) p1 p2 details
               encoding1 location1 encoding2 location2)).
Proof.
  intros Hs. unfold Service.verify_identity.
  rewrite available, (Service_compare_of_comparable _ _ _ _ _ _ _ Hs). simpl.
  unfold embedding_verification_record, embedding_comparison_report.
  rewrite !getitem_dict, !get_dict, !lookup_dict. simpl.
  fold (embedding_confidence encoding1 encoding2).
  repeat case_decide; reflexivity.
Qed.
End EmbeddingComparison.

(** ** Dispatch to the fallback service *)

Section Dispatch.
Context `{Runtime}.
Hypothesis unavailable : FACE_RECOGNITION_AVAILABLE = false.

Lemma Service_init_fallback (tolerance : option R) (model : option string) :
  Service.fallback_service (Service.__init__ tolerance model)
  = Some (Fallback.__init__ (Some (default 0.6 tolerance)) (Some (default "hog" model))).
Proof. unfold Service.__init__. simpl. by rewrite unavailable. Qed.

Lemma Service_extract_dispatch tolerance model p :
  Service.extract_face_encoding (Service.__init__ tolerance model) p
  = Fallback.extract_face_features
      (Fallback.__init__ (Some (default 0.6 tolerance)) (Some (default "hog" model))) p.
Proof.
  unfold Service.extract_face_encoding, Service.with_fallback.
  by rewrite unavailable, Service_init_fallback.
Qed.

Lemma Service_compare_dispatch tolerance model p1 p2 :
  Service.compare_faces (Service.__init__ tolerance model) p1 p2
  = Fallback.compare_faces_basic
      (Fallback.__init__ (Some (default 0.6 tolerance)) (Some (default "hog" model))) p1 p2.
Proof.
  unfold Service.compare_faces, Service.with_fallback.
  by rewrite unavailable, Service_init_fallback.
Qed.

Lemma Service_verify_dispatch tolerance model p1 p2 details :
  Service.verify_identity (Service.__init__ tolerance model) p1 p2 details
  = Fallback.verify_identity
      (Fallback.__init__ (Some (default 0.6 tolerance)) (Some (default "hog" model)))
      p1 p2 details.
Proof.
  unfold Service.verify_identity, Service.with_fallback.
  by rewrite unavailable, Service_init_fallback.
Qed.
End Dispatch.

(** ** The quality gate *)

Section QualityGate.
Context `{Runtime}.

(** The two services carry the same gate. *)
Lemma validate_image_quality_same (self : Service.FaceVerificationService)
    (fb : Fallback.FaceVerificationServiceFallback) (p : string) :
  Fallback.validate_image_quality fb p = Service.validate_image_quality self p.
Proof. reflexivity. Qed.

Lemma validate_undecoded self p :
  cv2_imread p = None ->
  Service.validate_image_quality self p =
  ([Entered QUALITY_CHECK p],
   Returned (quality_failure "Could not read image file" "IMAGE_READ_ERROR")).
Proof. intros Him. unfold Service.validate_image_quality. by rewrite Him. Qed.

Lemma validate_acceptable self p image :
  cv2_imread p = Some image -> acceptable image ->
  Service.validate_image_quality self p = ([Entered QUALITY_CHECK p], Returned (quality_pass image)).
Proof.
  intros Him (Hw & Hh & Hmean & Hsharp). unfold Service.validate_image_quality, quality_pass.
  rewrite Him. destruct (shape image) as [height width]. simpl in *.
  rewrite decide_False by lia. rewrite !(decide_False (P := _ < _)) by lra.
  rewrite (decide_False (P := _ > _)) by lra. reflexivity.
Qed.

Lemma validate_unacceptable self p image :
  cv2_imread p = Some image -> ~ acceptable image ->
  exists message code,
    Service.validate_image_quality self p =
    ([Entered QUALITY_CHECK p], Returned (quality_failure message code)).
Proof.
  intros Him Hbad. unfold Service.validate_image_quality, acceptable in *.
  rewrite Him. destruct (shape image) as [height width]. simpl in *.
  repeat case_decide; try (do 2 eexists; reflexivity).
  destruct Hbad. repeat split; first [lia | lra].
Qed.

(** Every image is either rejected with a message and a code, or accepted. *)
Lemma validate_cases self p :
  (exists message code,
     Service.validate_image_quality self p =
     ([Entered QUALITY_CHECK p], Returned (quality_failure message code)))
  \/ (exists image,
        cv2_imread p = Some image /\ acceptable image
        /\ Service.validate_image_quality self p =
           ([Entered QUALITY_CHECK p], Returned (quality_pass image))).
Proof.
  destruct (cv2_imread p) as [image|] eqn:Him.
  2: { left. do 2 eexists. by apply validate_undecoded. }
  destruct (decide ((100 <= (shape image).2)%Z /\ (100 <= (shape image).1)%Z)) as [Hres|Hres].
  2: { left. apply (validate_unacceptable _ _ image Him). unfold acceptable. tauto. }
  destruct (decide (30 <= gray_mean image <= 225)) as [Hmean|Hmean].
  2: { left. apply (validate_unacceptable _ _ image Him). unfold acceptable. tauto. }
  destruct (decide (100 <= laplacian_var image)) as [Hsharp|Hsharp].
  2: { left. apply (validate_unacceptable _ _ image Him). unfold acceptable. tauto. }
  right. exists image. assert (acceptable image) by (unfold acceptable; tauto).
  repeat split; try tauto. by apply validate_acceptable.
Qed.

(** C4. The quality gate checks, in this order, that the image decodes,
    that it measures at least 100 by 100 pixels, that its mean grayscale
    intensity lies between 30 and 225, and that the variance of its
    Laplacian reaches 100.  It reports the first check that fails, with
    exactly one error code, and accepts the image with no error code when
    none fails.  Both services carry this gate. *)
Theorem validate_image_quality_short_circuits (self : Service.FaceVerificationService)
    (fb : Fallback.FaceVerificationServiceFallback) (p : string) :
  exists report,
    Service.validate_image_quality self p = ([Entered QUALITY_CHECK p], Returned report)
    /\ Fallback.validate_image_quality fb p = ([Entered QUALITY_CHECK p], Returned report)
    /\ (cv2_imread p = None ->
        report !! "valid" = Some (VBool false)
        /\ report !! "error_code" = Some (VStr "IMAGE_READ_ERROR"))
    /\ (forall image height width,
          cv2_imread p = Some image -> shape image = (height, width) ->
          ((width < 100 \/ height < 100)%Z ->
           report !! "valid" = Some (VBool false)
           /\ report !! "error_code" = Some (VStr "LOW_RESOLUTION"))
          /\ ((100 <= width)%Z -> (100 <= height)%Z -> gray_mean image < 30 ->
              report !! "valid" = Some (VBool false)
              /\ report !! "error_code" = Some (VStr "TOO_DARK"))
          /\ ((100 <= width)%Z -> (100 <= height)%Z -> gray_mean image > 225 ->
              report !! "valid" = Some (VBool false)
              /\ report !! "error_code" = Some (VStr "TOO_BRIGHT"))
          /\ ((100 <= width)%Z -> (100 <= height)%Z -> 30 <= gray_mean image <= 225 ->
              laplacian_var image < 100 ->
              report !! "valid" = Some (VBool false)
              /\ report !! "error_code" = Some (VStr "BLURRY_IMAGE"))
          /\ ((100 <= width)%Z -> (100 <= height)%Z -> 30 <= gray_mean image <= 225 ->
              100 <= laplacian_var image ->
              report !! "valid" = Some (VBool true)
              /\ report !! "error_code" = None)).
Proof.
  rewrite (validate_image_quality_same self fb p).
  unfold Service.validate_image_quality.
  destruct (cv2_imread p) as [image|] eqn:Him.
  2: { eexists. split; [reflexivity|]. split; [reflexivity|].
       split; [by rewrite !lookup_dict|]. intros ? ? ? ?. discriminate. }
  destruct (shape image) as [h w] eqn:Hshape. simpl.
  repeat case_decide; (eexists; split; [reflexivity|]; split; [reflexivity|];
    split; [discriminate|]; intros ? ? ? [= <-]; rewrite Hshape; intros [= <- <-];
    rewrite !lookup_dict; simpl; repeat split; intros; first [reflexivity | lia | lra]).
Qed.
End QualityGate.

(** The gate on the 80 by 80 sample picture: the resolution check fails. *)
Lemma validate_image_quality_small_picture :
  exists report,
    @Service.validate_image_quality (Sample.runtime true)
      (@Service.__init__ (Sample.runtime true) None None) "small.jpg"
    = ([Entered QUALITY_CHECK "small.jpg"], Returned report)
    /\ report !! "valid" = Some (VBool false)
    /\ report !! "error_code" = Some (VStr "LOW_RESOLUTION").
Proof.
  destruct (@validate_image_quality_short_circuits (Sample.runtime true)
              (@Service.__init__ (Sample.runtime true) None None)
              (Fallback.__init__ None None) "small.jpg")
    as (report & Hrun & _ & _ & Hdecoded).
  exists report. split; [exact Hrun|].
  apply (Hdecoded Sample.small_picture 80%Z 80%Z); [reflexivity | reflexivity | lia].
Defined.

(** ** Face cardinality *)

Section Cardinality.
Context `{Runtime}.

(** Cardinality gating, variant by variant.  With the embedding backend,
    an image in which no face is located fails with NO_FACE_DETECTED and
    one with two or more faces fails with MULTIPLE_FACES_DETECTED.
    Without the backend, two or more detected faces fail with
    MULTIPLE_FACES_DETECTED as well, but an image without a detected face
    fails with the locator's own OPENCV_DETECTION_ERROR. *)
Theorem extraction_gates_cardinality (tolerance : option R) (model : option string)
    (p : string) :
  let self := Service.__init__ tolerance model in
  (FACE_RECOGNITION_AVAILABLE = true ->
   forall f image,
     files !! p = Some f -> load_image_file f = Returned image ->
     (face_locations image = [] ->
      exists log, Service.extract_face_encoding self p =
        (log, Returned (failure "No face detected in image" "NO_FACE_DETECTED")))
     /\ (forall encodings,
          (2 <= length (face_locations image))%nat ->
          face_encodings image = Returned encodings ->
          exists log message, Service.extract_face_encoding self p =
            (log, Returned (failure message "MULTIPLE_FACES_DETECTED"))))
  /\ (FACE_RECOGNITION_AVAILABLE = false ->
      forall image,
        cv2_imread p = Some image ->
        ((2 <= length (detectMultiScale image))%nat ->
         exists log message, Service.extract_face_encoding self p =
           (log, Returned (failure message "MULTIPLE_FACES_DETECTED")))
        /\ (detectMultiScale image = [] ->
            exists log message, Service.extract_face_encoding self p =
              (log, Returned (failure message "OPENCV_DETECTION_ERROR")))).
Proof.
  intros self. split.
  - intros Hav f image Hf Hload. split.
    + intros Hnone. eexists. by eapply Service_extract_no_face.
    + intros encodings Hmany Henc. do 2 eexists. by eapply Service_extract_multiple.
  - intros Hav image Him. unfold self. rewrite (Service_extract_dispatch Hav). split.
    + intros Hmany. do 2 eexists. by eapply Fallback_extract_multiple.
    + intros Hnone. do 2 eexists. by eapply Fallback_extract_no_face.
Qed.
End Cardinality.

(** The sample group picture shows two faces: extraction refuses it. *)
Lemma extraction_refuses_group_picture :
  exists log message,
    @Service.extract_face_encoding (Sample.runtime true)
      (@Service.__init__ (Sample.runtime true) None None) "group.jpg"
    = (log, Returned (failure message "MULTIPLE_FACES_DETECTED")).
Proof.
  refine (proj2 (proj1 (@extraction_gates_cardinality (Sample.runtime true) None None
                          "group.jpg") eq_refl _ _ eq_refl eq_refl) _ _ eq_refl).
  simpl. lia.
Defined.

(** C3 on the sample picture without a face, the backend missing: the
    picture decodes, nothing is detected, and the extraction reports
    OPENCV_DETECTION_ERROR where NO_FACE_DETECTED is expected. *)
Lemma fallback_extraction_without_a_face :
  @cv2_imread (Sample.runtime false) "empty.jpg" = Some Sample.empty_picture
  /\ detectMultiScale Sample.empty_picture = []
  /\ @Service.extract_face_encoding (Sample.runtime false) Sample.degraded_service "empty.jpg"
     = ([Entered REPRESENTATION_EXTRACTION "empty.jpg"; Entered FACE_DETECTION "empty.jpg"],
        Returned (failure "Face detection failed: 'tuple' object has no attribute 'tolist'"
                          "OPENCV_DETECTION_ERROR"))
  /\ failure "Face detection failed: 'tuple' object has no attribute 'tolist'"
        "OPENCV_DETECTION_ERROR" !! "error_code"
     <> Some (VStr "NO_FACE_DETECTED").
Proof.
  split; [reflexivity|]. split; [reflexivity|]. split.
  - unfold Sample.degraded_service.
    rewrite (@Service_extract_dispatch (Sample.runtime false) eq_refl).
    by eapply Fallback_extract_no_face.
  - unfold failure. by rewrite lookup_dict.
Qed.

(** ** Which image failed *)

Section Tagging.
Context `{Runtime}.

(** The verdict of a comparison that stopped at a failed extraction, as
    [compare_faces] and [verify_identity] report it. *)
Definition tagged (self : Service.FaceVerificationService) (p1 p2 : string)
    (details : Value) (error_code : string) : Prop :=
  exists log message,
    Service.compare_faces self p1 p2 = (log, Returned (failure message error_code))
    /\ Service.verify_identity self p1 p2 details =
       (log, Returned (failed_verification (VStr message) (VStr error_code) details)).

Lemma failure_code message code (v : Value) :
  failure message code !! "error_code" = Some v -> v = VStr code.
Proof. unfold failure. rewrite lookup_dict. simpl. by intros [= <-]. Qed.

Lemma failure_not_success message code :
  failure message code !! "success" = Some (VBool true) -> False.
Proof. unfold failure. by rewrite lookup_dict. Qed.

Lemma features_report_success image rect :
  features_report image rect !! "success" = Some (VBool false) -> False.
Proof. unfold features_report. by rewrite lookup_dict. Qed.

Lemma encoding_report_success encoding location :
  encoding_report encoding location !! "success" = Some (VBool false) -> False.
Proof. unfold encoding_report. by rewrite lookup_dict. Qed.

(** C7, as the code has it.  When extraction fails on the camera image,
    the error code of the comparison and of the verification is the
    extractor's code prefixed with CAMERA_IMAGE_; when the camera image
    yields a representation and extraction fails on the ID card image,
    it is the extractor's code prefixed with ID_CARD_IMAGE_. *)
Theorem extraction_failure_names_its_image (tolerance : option R) (model : option string)
    (p1 p2 : string) (details : Value) (log1 log2 : list Event) (report1 report2 : Dict)
    (code : string) :
  let self := Service.__init__ tolerance model in
  Service.extract_face_encoding self p1 = (log1, Returned report1) ->
  Service.extract_face_encoding self p2 = (log2, Returned report2) ->
  (report1 !! "success" = Some (VBool false) ->
   report1 !! "error_code" = Some (VStr code) ->
   tagged self p1 p2 details ("CAMERA_IMAGE_" +:+ code))
  /\ (report1 !! "success" = Some (VBool true) ->
      report2 !! "success" = Some (VBool false) ->
      report2 !! "error_code" = Some (VStr code) ->
      tagged self p1 p2 details ("ID_CARD_IMAGE_" +:+ code)).
Proof.
  intros self E1 E2. unfold tagged.
  destruct FACE_RECOGNITION_AVAILABLE eqn:Hav.
  - destruct (Service_extract_cases Hav self p1) as [(l1 & m1 & c1 & F1) | (e1 & loc1 & He1)].
    + rewrite E1 in F1. injection F1 as <- ->. split.
      * intros _ Hcode. apply failure_code in Hcode as [= ->].
        exists (log1 ++ log2)%list, ("Live camera image: " +:+ m1).
        pose proof (Service_compare_camera_failed Hav self p1 p2 _ _ _ _ _ E1 E2) as Hc.
        split; [exact Hc|]. by apply Service_verify_failed.
      * intros Hok. by apply failure_not_success in Hok.
    + pose proof (Service_extract_one Hav self p1 _ _ He1) as S1.
      rewrite E1 in S1. injection S1 as _ ->. split.
      * intros Hko. by apply encoding_report_success in Hko.
      * intros _ Hko Hcode.
        destruct (Service_extract_cases Hav self p2)
          as [(l2 & m2 & c2 & F2) | (e2 & loc2 & He2)].
        -- rewrite E2 in F2. injection F2 as <- ->.
           apply failure_code in Hcode as [= ->].
           eexists _, ("ID card image: " +:+ m2).
           pose proof (Service_compare_id_card_failed Hav self p1 p2 _ _ _ _ _ _ E1 E2) as Hc.
           split; [exact Hc|]. by apply Service_verify_failed.
        -- pose proof (Service_extract_one Hav self p2 _ _ He2) as S2.
           rewrite E2 in S2. injection S2 as _ ->.
           by apply encoding_report_success in Hko.
  - unfold self in *.
    rewrite (Service_compare_dispatch Hav), (Service_verify_dispatch Hav).
    rewrite (Service_extract_dispatch Hav) in E1, E2.
    set (fb := Fallback.__init__ _ _) in *.
    destruct (Fallback_extract_cases fb p1)
      as [(l1 & m1 & c1 & F1) | (image1 & rect1 & _ & _ & _ & S1)].
    + rewrite E1 in F1. injection F1 as <- ->. split.
      * intros _ Hcode. apply failure_code in Hcode as [= ->].
        exists (log1 ++ log2)%list, ("Live camera image: " +:+ m1).
        pose proof (Fallback_compare_camera_failed fb p1 p2 _ _ _ _ _ E1 E2) as Hc.
        split; [exact Hc|]. by apply Fallback_verify_failed.
      * intros Hok. by apply failure_not_success in Hok.
    + rewrite E1 in S1. injection S1 as _ ->. split.
      * intros Hko. by apply features_report_success in Hko.
      * intros _ Hko Hcode.
        destruct (Fallback_extract_cases fb p2)
          as [(l2 & m2 & c2 & F2) | (image2 & rect2 & _ & _ & _ & S2)].
        -- rewrite E2 in F2. injection F2 as <- ->.
           apply failure_code in Hcode as [= ->].
           eexists _, ("ID card image: " +:+ m2).
           pose proof (Fallback_compare_id_card_failed fb p1 p2 _ _ _ _ _ _ E1 E2) as Hc.
           split; [exact Hc|]. by apply Fallback_verify_failed.
        -- rewrite E2 in S2. injection S2 as _ ->.
           by apply features_report_success in Hko.
Qed.
End Tagging.

(** ** The sample files under the embedding variant *)

Lemma Sample_camera_encodable :
  @encodable (Sample.runtime true) "camera.jpg" Sample.camera_encoding Sample.camera_location.
Proof. by eexists _, _, []. Qed.

Lemma Sample_id_card_encodable :
  @encodable (Sample.runtime true) "id_card.jpg"
    Sample.id_card_encoding Sample.id_card_location.
Proof. by eexists _, _, []. Qed.

Lemma Sample_dark_encodable :
  @encodable (Sample.runtime true) "dark.jpg" Sample.camera_encoding Sample.camera_location.
Proof. by eexists _, _, []. Qed.

Lemma Sample_extract_camera :
  @Service.extract_face_encoding (Sample.runtime true) Sample.embedding_service "camera.jpg"
  = ([Entered REPRESENTATION_EXTRACTION "camera.jpg"; Entered FACE_DETECTION "camera.jpg"],
     Returned (encoding_report Sample.camera_encoding Sample.camera_location)).
Proof.
  apply (@Service_extract_one (Sample.runtime true) eq_refl). exact Sample_camera_encodable.
Qed.

Lemma Sample_extract_empty :
  @Service.extract_face_encoding (Sample.runtime true) Sample.embedding_service "empty.jpg"
  = ([Entered REPRESENTATION_EXTRACTION "empty.jpg"; Entered FACE_DETECTION "empty.jpg"],
     Returned (failure "No face detected in image" "NO_FACE_DETECTED")).
Proof. by eapply (@Service_extract_no_face (Sample.runtime true) eq_refl). Qed.

(** A camera picture with one face against a picture with none: the code
    names the second image ID_CARD_IMAGE, not DOCUMENT_IMAGE. *)
Lemma id_card_failure_is_not_tagged_document :
  exists log record,
    @Service.extract_face_encoding (Sample.runtime true) Sample.embedding_service "empty.jpg"
    = ([Entered REPRESENTATION_EXTRACTION "empty.jpg"; Entered FACE_DETECTION "empty.jpg"],
       Returned (failure "No face detected in image" "NO_FACE_DETECTED"))
    /\ @Service.verify_identity (Sample.runtime true) Sample.embedding_service
         "camera.jpg" "empty.jpg" Sample.no_details
       = (log, Returned record)
    /\ record !! "success" = Some (VBool false)
    /\ record !! "error_code" = Some (VStr "ID_CARD_IMAGE_NO_FACE_DETECTED")
    /\ record !! "error_code" <> Some (VStr ("DOCUMENT_IMAGE_" +:+ "NO_FACE_DETECTED")).
Proof.
  do 2 eexists. split; [exact Sample_extract_empty|]. split.
  { apply (@Service_verify_failed (Sample.runtime true) eq_refl).
    exact (@Service_compare_id_card_failed (Sample.runtime true) eq_refl _ _ _ _ _ _ _ _ _
             Sample_extract_camera Sample_extract_empty). }
  unfold failed_verification. rewrite !lookup_dict. by repeat split.
Qed.

(** The same pair through the theorem: the ID card image is named. *)
Lemma empty_id_card_is_tagged :
  @tagged (Sample.runtime true) Sample.embedding_service "camera.jpg" "empty.jpg"
    Sample.no_details ("ID_CARD_IMAGE_" +:+ "NO_FACE_DETECTED").
Proof.
  refine (proj2 (@extraction_failure_names_its_image (Sample.runtime true) None None
                   "camera.jpg" "empty.jpg" Sample.no_details _ _ _ _ "NO_FACE_DETECTED"
                   Sample_extract_camera Sample_extract_empty) _ _ _).
  - unfold encoding_report. by rewrite lookup_dict.
  - unfold failure. by rewrite lookup_dict.
  - unfold failure. by rewrite lookup_dict.
Defined.

(** ** The embedding score *)

#[global] Instance VFloat_inj : Inj (=) (=) VFloat.
Proof. by intros x y [= ->]. Qed.

Lemma sum_list_cons (x : R) (l : list R) : sum_list (x :: l) = x + sum_list l.
Proof. reflexivity. Qed.

Lemma euclidean_nonneg (a b : list R) : 0 <= euclidean a b.
Proof. apply sqrt_pos. Qed.

Lemma sum_squares_zeros (n : nat) :
  sum_list (zip_with (fun x y => (x - y) * (x - y)) (replicate n 0) (replicate n 0)) = 0.
Proof.
  induction n as [|n IH]; [reflexivity|].
  cbn [replicate zip_with]. rewrite sum_list_cons, IH. lra.
Qed.

Lemma euclidean_axis (n : nat) (x : R) :
  0 <= x -> euclidean (x :: replicate n 0) (0 :: replicate n 0) = x.
Proof.
  intros Hx. unfold euclidean. cbn [zip_with].
  rewrite sum_list_cons, sum_squares_zeros, Rplus_0_r, Rminus_0_r.
  by apply sqrt_square.
Qed.

Lemma Sample_distance :
  euclidean Sample.camera_encoding Sample.id_card_encoding = 0.123456.
Proof. apply (euclidean_axis 127). lra. Qed.

Section EmbeddingScore.
Context `{Runtime}.
Hypothesis available : FACE_RECOGNITION_AVAILABLE = true.

(** A successful extraction report determines the encoding it carries. *)
Lemma Service_extract_success_inv (self : Service.FaceVerificationService) p log report
    (encoding : list R) :
  Service.extract_face_encoding self p = (log, Returned report) ->
  report !! "success" = Some (VBool true) ->
  report !! "encoding" = Some (VList (VFloat <$> encoding)) ->
  exists location, encodable p encoding location.
Proof.
  intros E Hok Henc.
  destruct (Service_extract_cases available self p) as [(l & m & c & F) | (e & loc & He)].
  - rewrite E in F. injection F as _ ->. unfold failure in Hok. by rewrite lookup_dict in Hok.
  - pose proof (Service_extract_one available self p _ _ He) as S.
    rewrite E in S. injection S as _ ->.
    unfold encoding_report in Henc. rewrite lookup_dict in Henc. simpl in Henc.
    injection Henc as Heq. apply (inj (fmap VFloat)) in Heq. subst e. by exists loc.
Qed.

(** C1, as the code has it.  When the embedding variant extracts one
    encoding from each image (the two of one dimension), [compare_faces]
    succeeds; the confidence it returns is [max(0, (1 - distance) * 100)]
    rounded to two decimals, where [distance] is the Euclidean distance of
    the two encodings, and [is_match] tells whether the unrounded distance
    is at most the configured tolerance, 0.6 unless given. *)
Theorem compare_faces_embedding_score (self : Service.FaceVerificationService)
    (p1 p2 : string) (log1 log2 : list Event) (report1 report2 : Dict)
    (encoding1 encoding2 : list R) :
  Service.extract_face_encoding self p1 = (log1, Returned report1) ->
  report1 !! "success" = Some (VBool true) ->
  report1 !! "encoding" = Some (VList (VFloat <$> encoding1)) ->
  Service.extract_face_encoding self p2 = (log2, Returned report2) ->
  report2 !! "success" = Some (VBool true) ->
  report2 !! "encoding" = Some (VList (VFloat <$> encoding2)) ->
  length encoding1 = length encoding2 ->
  let distance := euclidean encoding1 encoding2 in
  exists log report,
    Service.compare_faces self p1 p2 = (log, Returned report)
    /\ report !! "success" = Some (VBool true)
    /\ report !! "confidence" = Some (VFloat (py_round (Rmax 0 ((1 - distance) * 100)) 2))
    /\ report !! "is_match" = Some (VBool (bool_decide (distance <= Service.tolerance self)))
    /\ (forall model, Service.tolerance (Service.__init__ None model) = 0.6)
    /\ (forall t model, Service.tolerance (Service.__init__ (Some t) model) = t).
Proof.
  intros E1 Hok1 Henc1 E2 Hok2 Henc2 Hlen distance.
  destruct (Service_extract_success_inv self p1 _ _ _ E1 Hok1 Henc1) as [loc1 He1].
  destruct (Service_extract_success_inv self p2 _ _ _ E2 Hok2 Henc2) as [loc2 He2].
  do 2 eexists. split.
  { by apply (Service_compare_of_comparable available self p1 p2 encoding1 loc1 encoding2 loc2). }
  unfold embedding_comparison_report. rewrite !lookup_dict. by repeat split.
Qed.
End EmbeddingScore.

Lemma Sample_compare :
  @Service.compare_faces (Sample.runtime true) Sample.embedding_service
    "camera.jpg" "id_card.jpg"
  = ([Entered REPRESENTATION_EXTRACTION "camera.jpg"; Entered FACE_DETECTION "camera.jpg";
      Entered REPRESENTATION_EXTRACTION "id_card.jpg"; Entered FACE_DETECTION "id_card.jpg";
      Entered COMPARISON "camera.jpg"; Entered COMPARISON "id_card.jpg"],
     Returned (@embedding_comparison_report (Sample.runtime true) 0.6
                 "camera.jpg" "id_card.jpg"
                 Sample.camera_encoding Sample.camera_location
                 Sample.id_card_encoding Sample.id_card_location)).
Proof.
  apply (@Service_compare_of_comparable (Sample.runtime true) eq_refl Sample.embedding_service).
  split; [exact Sample_camera_encodable|]. split; [exact Sample_id_card_encodable|].
  reflexivity.
Qed.

Lemma Sample_confidence :
  py_round (Rmax 0 ((1 - euclidean Sample.camera_encoding Sample.id_card_encoding) * 100)) 2
  = 87.65.
Proof.
  rewrite Sample_distance, Rmax_right by lra.
  rewrite (py_round_near 8765); simpl; lra.
Qed.

(** Encodings at distance 0.123456: the formula gives 87.6544, the report
    says 87.65. *)
Lemma compare_faces_confidence_is_rounded :
  exists log report,
    @Service.compare_faces (Sample.runtime true) Sample.embedding_service
      "camera.jpg" "id_card.jpg" = (log, Returned report)
    /\ report !! "success" = Some (VBool true)
    /\ report !! "confidence" = Some (VFloat 87.65)
    /\ Rmax 0 ((1 - euclidean Sample.camera_encoding Sample.id_card_encoding) * 100) = 87.6544
    /\ report !! "confidence"
       <> Some (VFloat (Rmax 0 ((1 - euclidean Sample.camera_encoding
                                       Sample.id_card_encoding) * 100))).
Proof.
  do 2 eexists. split; [exact Sample_compare|].
  assert (Hformula :
    Rmax 0 ((1 - euclidean Sample.camera_encoding Sample.id_card_encoding) * 100) = 87.6544).
  { rewrite Sample_distance, Rmax_right; lra. }
  unfold embedding_comparison_report. rewrite !lookup_dict. simpl.
  rewrite Sample_confidence, Hformula. repeat split.
  intros [= Heq]. lra.
Qed.

(** The theorem on the same pair: confidence 87.65 and a match at
    tolerance 0.6. *)
Lemma compare_faces_embedding_sample :
  exists log report,
    @Service.compare_faces (Sample.runtime true) Sample.embedding_service
      "camera.jpg" "id_card.jpg" = (log, Returned report)
    /\ report !! "confidence"
       = Some (VFloat (py_round
                 (Rmax 0 ((1 - euclidean Sample.camera_encoding Sample.id_card_encoding)
                          * 100)) 2))
    /\ report !! "is_match"
       = Some (VBool (bool_decide
                 (euclidean Sample.camera_encoding Sample.id_card_encoding <= 0.6))).
Proof.
  destruct (@compare_faces_embedding_score (Sample.runtime true) eq_refl
              Sample.embedding_service "camera.jpg" "id_card.jpg" _ _ _ _
              Sample.camera_encoding Sample.id_card_encoding
              Sample_extract_camera
              ltac:(unfold encoding_report; by rewrite lookup_dict)
              ltac:(unfold encoding_report; by rewrite lookup_dict)
              (@Service_extract_one (Sample.runtime true) eq_refl Sample.embedding_service
                 "id_card.jpg" _ _ Sample_id_card_encodable)
              ltac:(unfold encoding_report; by rewrite lookup_dict)
              ltac:(unfold encoding_report; by rewrite lookup_dict)
              eq_refl)
    as (log & report & Hrun & _ & Hconf & Hmatch & _).
  exists log, report. by repeat split.
Defined.

(** ** The heuristic score *)

Lemma DBL_EPSILON_pos : 0 < DBL_EPSILON.
Proof. unfold DBL_EPSILON. apply Rinv_0_lt_compat, pow_lt. lra. Qed.




Section HeuristicScore.
Context `{Runtime}.

Lemma basic_report_success p1 p2 image1 rect1 image2 rect2 :
  basic_comparison_report p1 p2 image1 rect1 image2 rect2 !! "success" = Some (VBool true).
Proof. unfold basic_comparison_report. by rewrite lookup_dict. Qed.

Lemma basic_report_confidence p1 p2 image1 rect1 image2 rect2 :
  basic_comparison_report p1 p2 image1 rect1 image2 rect2 !! "confidence"
  = Some (VFloat (basic_confidence image1 rect1 image2 rect2)).
Proof. unfold basic_comparison_report. by rewrite lookup_dict. Qed.

Lemma basic_report_is_match p1 p2 image1 rect1 image2 rect2 :
  basic_comparison_report p1 p2 image1 rect1 image2 rect2 !! "is_match"
  = Some (VBool (bool_decide (heuristic_similarity image1 rect1 image2 rect2 >= 0.4))).
Proof. unfold basic_comparison_report. by rewrite lookup_dict. Qed.

Lemma basic_report_score p1 p2 image1 rect1 image2 rect2 :
  basic_comparison_report p1 p2 image1 rect1 image2 rect2 !! "similarity_score"
  = Some (VFloat (py_round (heuristic_similarity image1 rect1 image2 rect2) 4)).
Proof. unfold basic_comparison_report. by rewrite lookup_dict. Qed.

End HeuristicScore.

(** ** The sample files under the fallback variant *)

Lemma Sample_scorable :
  @scorable (Sample.runtime false) "camera.jpg" "id_card.jpg"
    Sample.camera_picture Sample.camera_face Sample.id_card_picture Sample.id_card_face.
Proof.
  repeat split; try done.
  unfold area_of. simpl. rewrite !mult_IZR, Rmax_right; lra.
Qed.






(** ** Verification records *)

Section Records.
Context `{Runtime}.

Lemma failed_verification_success message code details :
  failed_verification message code details !! "success" = Some (VBool true) -> False.
Proof. unfold failed_verification. by rewrite lookup_dict. Qed.

(** A successful record of the embedding path comes from two comparable
    images. *)
Lemma Service_verify_success_inv (self : Service.FaceVerificationService)
    p1 p2 details log record :
  FACE_RECOGNITION_AVAILABLE = true ->
  Service.verify_identity self p1 p2 details = (log, Returned record) ->
  record !! "success" = Some (VBool true) ->
  exists encoding1 location1 encoding2 location2,
    comparable p1 p2 encoding1 location1 encoding2 location2
    /\ record = embedding_verification_record (Service.tolerance self) p1 p2 details
                  encoding1 location1 encoding2 location2.
Proof.
  intros Hav Hrun Hok.
  destruct (Service_compare_cases Hav self p1 p2)
    as [(l & m & c & F) | (e1 & loc1 & e2 & loc2 & Hc)].
  - rewrite (Service_verify_failed Hav self p1 p2 details _ _ _ F) in Hrun.
    injection Hrun as _ <-. by apply failed_verification_success in Hok.
  - rewrite (Service_verify_scored Hav self p1 p2 details _ _ _ _ Hc) in Hrun.
    injection Hrun as _ <-. by exists e1, loc1, e2, loc2.
Qed.

(** A successful record of the fallback comes from two scorable images. *)
Lemma Fallback_verify_success_inv (fb : Fallback.FaceVerificationServiceFallback)
    p1 p2 details log record :
  Fallback.verify_identity fb p1 p2 details = (log, Returned record) ->
  record !! "success" = Some (VBool true) ->
  exists image1 rect1 image2 rect2,
    scorable p1 p2 image1 rect1 image2 rect2
    /\ record = basic_verification_record p1 p2 details image1 rect1 image2 rect2.
Proof.
  intros Hrun Hok.
  destruct (Fallback_compare_cases fb p1 p2)
    as [(l & m & c & F) | (image1 & rect1 & image2 & rect2 & Hs)].
  - rewrite (Fallback_verify_failed fb p1 p2 details _ _ _ F) in Hrun.
    injection Hrun as _ <-. by apply failed_verification_success in Hok.
  - rewrite (Fallback_verify_scored fb p1 p2 details _ _ _ _ Hs) in Hrun.
    injection Hrun as _ <-. by exists image1, rect1, image2, rect2.
Qed.

Lemma embedding_record_confidence tolerance p1 p2 details e1 loc1 e2 loc2 :
  embedding_verification_record tolerance p1 p2 details e1 loc1 e2 loc2 !! "confidence"
  = Some (VFloat (embedding_confidence e1 e2)).
Proof.
  unfold embedding_verification_record, embedding_comparison_report.
  rewrite lookup_insert_ne by done. by rewrite !lookup_dict.
Qed.

Lemma basic_record_confidence p1 p2 details image1 rect1 image2 rect2 :
  basic_verification_record p1 p2 details image1 rect1 image2 rect2 !! "confidence"
  = Some (VFloat (basic_confidence image1 rect1 image2 rect2)).
Proof.
  unfold basic_verification_record, basic_comparison_report.
  rewrite lookup_insert_ne by done. by rewrite !lookup_dict.
Qed.

(** C5. A successful verification record carries a confidence and the
    recommendation tier that this confidence selects.  On the embedding
    path: at least 80 gives "High confidence match", from 60 up to 80
    "Moderate confidence match", below 60 "Low confidence - manual review
    recommended".  On the heuristic path: at least 70 gives "Moderate
    confidence match (basic method)", from 50 up to 70 "Low confidence
    match (basic method)", below 50 "Very low confidence - manual review
    required". *)
Theorem recommendation_follows_confidence (p1 p2 : string) (details : Value)
    (log : list Event) (record : Dict) :
  record !! "success" = Some (VBool true) ->
  (forall self : Service.FaceVerificationService,
     FACE_RECOGNITION_AVAILABLE = true ->
     Service.verify_identity self p1 p2 details = (log, Returned record) ->
     exists c,
       record !! "confidence" = Some (VFloat c)
       /\ (c >= 80 -> record !! "recommendation" = Some (VStr "High confidence match"))
       /\ (60 <= c < 80 ->
           record !! "recommendation" = Some (VStr "Moderate confidence match"))
       /\ (c < 60 ->
           record !! "recommendation"
           = Some (VStr "Low confidence - manual review recommended")))
  /\ (forall fb : Fallback.FaceVerificationServiceFallback,
        Fallback.verify_identity fb p1 p2 details = (log, Returned record) ->
        exists c,
          record !! "confidence" = Some (VFloat c)
          /\ (c >= 70 ->
              record !! "recommendation"
              = Some (VStr "Moderate confidence match (basic method)"))
          /\ (50 <= c < 70 ->
              record !! "recommendation" = Some (VStr "Low confidence match (basic method)"))
          /\ (c < 50 ->
              record !! "recommendation"
              = Some (VStr "Very low confidence - manual review required"))).
Proof.
  intros Hok. split.
  - intros self Hav Hrun.
    destruct (Service_verify_success_inv self p1 p2 details log record Hav Hrun Hok)
      as (e1 & loc1 & e2 & loc2 & _ & ->).
    exists (embedding_confidence e1 e2). split; [apply embedding_record_confidence|].
    unfold embedding_verification_record. rewrite lookup_insert_eq.
    repeat split; intros Hc; repeat case_decide; first [reflexivity | lra].
  - intros fb Hrun.
    destruct (Fallback_verify_success_inv fb p1 p2 details log record Hrun Hok)
      as (image1 & rect1 & image2 & rect2 & _ & ->).
    exists (basic_confidence image1 rect1 image2 rect2).
    split; [apply basic_record_confidence|].
    unfold basic_verification_record. rewrite lookup_insert_eq.
    repeat split; intros Hc; repeat case_decide; first [reflexivity | lra].
Qed.
End Records.

Lemma Sample_verify :
  @Service.verify_identity (Sample.runtime true) Sample.embedding_service
    "camera.jpg" "id_card.jpg" Sample.no_details
  = ([Entered REPRESENTATION_EXTRACTION "camera.jpg"; Entered FACE_DETECTION "camera.jpg";
      Entered REPRESENTATION_EXTRACTION "id_card.jpg"; Entered FACE_DETECTION "id_card.jpg";
      Entered COMPARISON "camera.jpg"; Entered COMPARISON "id_card.jpg"],
     Returned (@embedding_verification_record (Sample.runtime true) 0.6
                 "camera.jpg" "id_card.jpg" Sample.no_details
                 Sample.camera_encoding Sample.camera_location
                 Sample.id_card_encoding Sample.id_card_location)).
Proof.
  apply (@Service_verify_scored (Sample.runtime true) eq_refl Sample.embedding_service).
  split; [exact Sample_camera_encodable|]. split; [exact Sample_id_card_encodable|].
  reflexivity.
Qed.

Lemma embedding_record_success `{Runtime} tolerance p1 p2 details e1 loc1 e2 loc2 :
  embedding_verification_record tolerance p1 p2 details e1 loc1 e2 loc2 !! "success"
  = Some (VBool true).
Proof.
  unfold embedding_verification_record.
  rewrite lookup_insert_ne by done. by rewrite lookup_dict.
Qed.

(** The sample pair verifies with confidence 87.65: the top tier. *)
Lemma sample_recommendation_is_high :
  exists log record,
    @Service.verify_identity (Sample.runtime true) Sample.embedding_service
      "camera.jpg" "id_card.jpg" Sample.no_details = (log, Returned record)
    /\ record !! "confidence" = Some (VFloat 87.65)
    /\ record !! "recommendation" = Some (VStr "High confidence match").
Proof.
  do 2 eexists. split; [exact Sample_verify|].
  destruct (proj1 (@recommendation_follows_confidence (Sample.runtime true)
                     "camera.jpg" "id_card.jpg" Sample.no_details _ _
                     (@embedding_record_success (Sample.runtime true) _ _ _ _ _ _ _ _))
              Sample.embedding_service eq_refl Sample_verify)
    as (c & Hc & Hhigh & _).
  rewrite embedding_record_confidence in Hc. injection Hc as <-.
  unfold embedding_confidence in *. rewrite Sample_confidence in *.
  split; [by rewrite embedding_record_confidence; unfold embedding_confidence;
            rewrite Sample_confidence|].
  apply Hhigh. lra.
Defined.

(** The label at confidence 87.65 is spelled with a capital. *)
Lemma recommendation_label_is_capitalised :
  exists log record,
    @Service.verify_identity (Sample.runtime true) Sample.embedding_service
      "camera.jpg" "id_card.jpg" Sample.no_details = (log, Returned record)
    /\ record !! "success" = Some (VBool true)
    /\ record !! "confidence" = Some (VFloat 87.65)
    /\ 87.65 >= 80
    /\ record !! "recommendation" = Some (VStr "High confidence match")
    /\ record !! "recommendation" <> Some (VStr "high confidence match").
Proof.
  do 2 eexists. split; [exact Sample_verify|].
  split; [apply embedding_record_success|].
  split.
  { rewrite embedding_record_confidence. unfold embedding_confidence.
    by rewrite Sample_confidence. }
  split; [lra|].
  unfold embedding_verification_record. rewrite lookup_insert_eq.
  fold (embedding_confidence Sample.camera_encoding Sample.id_card_encoding).
  unfold embedding_confidence. rewrite Sample_confidence.
  rewrite decide_True by lra. by split.
Qed.

(** ** Bounds and symmetry of the scores *)

Section Scores.
Context `{Runtime}.



Lemma Service_compare_success_inv (self : Service.FaceVerificationService) p1 p2 log report :
  FACE_RECOGNITION_AVAILABLE = true ->
  Service.compare_faces self p1 p2 = (log, Returned report) ->
  report !! "success" = Some (VBool true) ->
  exists encoding1 location1 encoding2 location2,
    comparable p1 p2 encoding1 location1 encoding2 location2
    /\ report = embedding_comparison_report (Service.tolerance self) p1 p2
                  encoding1 location1 encoding2 location2.
Proof.
  intros Hav Hrun Hok.
  destruct (Service_compare_cases Hav self p1 p2)
    as [(l & m & c & F) | (e1 & loc1 & e2 & loc2 & Hc)].
  - rewrite F in Hrun. injection Hrun as _ <-. by apply failure_not_success in Hok.
  - rewrite (Service_compare_of_comparable Hav self _ _ _ _ _ _ Hc) in Hrun.
    injection Hrun as _ <-. by exists e1, loc1, e2, loc2.
Qed.

Lemma Fallback_compare_success_inv (fb : Fallback.FaceVerificationServiceFallback)
    p1 p2 log report :
  Fallback.compare_faces_basic fb p1 p2 = (log, Returned report) ->
  report !! "success" = Some (VBool true) ->
  exists image1 rect1 image2 rect2,
    scorable p1 p2 image1 rect1 image2 rect2
    /\ report = basic_comparison_report p1 p2 image1 rect1 image2 rect2.
Proof.
  intros Hrun Hok.
  destruct (Fallback_compare_cases fb p1 p2)
    as [(l & m & c & F) | (image1 & rect1 & image2 & rect2 & Hs)].
  - rewrite F in Hrun. injection Hrun as _ <-. by apply failure_not_success in Hok.
  - rewrite (Fallback_compare_of_scorable fb _ _ _ _ _ _ Hs) in Hrun.
    injection Hrun as _ <-. by exists image1, rect1, image2, rect2.
Qed.

Lemma embedding_report_confidence tolerance p1 p2 e1 loc1 e2 loc2 :
  embedding_comparison_report tolerance p1 p2 e1 loc1 e2 loc2 !! "confidence"
  = Some (VFloat (embedding_confidence e1 e2)).
Proof. unfold embedding_comparison_report. by rewrite lookup_dict. Qed.

Lemma embedding_report_is_match tolerance p1 p2 e1 loc1 e2 loc2 :
  embedding_comparison_report tolerance p1 p2 e1 loc1 e2 loc2 !! "is_match"
  = Some (VBool (bool_decide (euclidean e1 e2 <= tolerance))).
Proof. unfold embedding_comparison_report. by rewrite lookup_dict. Qed.

Lemma embedding_report_distance tolerance p1 p2 e1 loc1 e2 loc2 :
  embedding_comparison_report tolerance p1 p2 e1 loc1 e2 loc2 !! "face_distance"
  = Some (VFloat (py_round (euclidean e1 e2) 4)).
Proof. unfold embedding_comparison_report. by rewrite lookup_dict. Qed.

Lemma embedding_report_success tolerance p1 p2 e1 loc1 e2 loc2 :
  embedding_comparison_report tolerance p1 p2 e1 loc1 e2 loc2 !! "success"
  = Some (VBool true).
Proof. unfold embedding_comparison_report. by rewrite lookup_dict. Qed.


(** *** Symmetry *)

Lemma sum_squares_sym (a b : list R) :
  sum_list (zip_with (fun x y => (x - y) * (x - y)) a b)
  = sum_list (zip_with (fun x y => (x - y) * (x - y)) b a).
Proof.
  revert b. induction a as [|x a IH]; intros [|y b]; try reflexivity.
  cbn [zip_with]. rewrite !sum_list_cons, (IH b). lra.
Qed.

Lemma euclidean_sym (a b : list R) : euclidean a b = euclidean b a.
Proof. unfold euclidean. by rewrite sum_squares_sym. Qed.

Lemma sum_products_sym (a b : list R) :
  sum_list (zip_with Rmult a b) = sum_list (zip_with Rmult b a).
Proof.
  revert b. induction a as [|x a IH]; intros [|y b]; try reflexivity.
  cbn [zip_with]. rewrite !sum_list_cons, (IH b). lra.
Qed.

Lemma correlation_sym (h1 h2 : list R) :
  length h1 = length h2 -> correlation h1 h2 = correlation h2 h1.
Proof.
  intros Hlen. unfold correlation. rewrite <- Hlen, (sum_products_sym h2 h1).
  set (s1 := sum_list h1). set (s2 := sum_list h2).
  set (s11 := sum_list (zip_with Rmult h1 h1)). set (s22 := sum_list (zip_with Rmult h2 h2)).
  set (s12 := sum_list (zip_with Rmult h1 h2)). set (scale := 1 / INR (length h1)).
  replace ((s22 - s2 * s2 * scale) * (s11 - s1 * s1 * scale))
    with ((s11 - s1 * s1 * scale) * (s22 - s2 * s2 * scale)) by lra.
  replace (s12 - s2 * s1 * scale) with (s12 - s1 * s2 * scale) by lra.
  reflexivity.
Qed.

Lemma heuristic_similarity_sym image1 rect1 image2 rect2 :
  length (histogram_of image1 rect1) = length (histogram_of image2 rect2) ->
  heuristic_similarity image1 rect1 image2 rect2
  = heuristic_similarity image2 rect2 image1 rect1.
Proof.
  intros Hlen. unfold heuristic_similarity.
  rewrite (correlation_sym _ _ Hlen).
  unfold intensity_similarity, ratio_similarity, size_similarity.
  by rewrite (Rabs_minus_sym (region_mean image1 rect1)),
    (Rabs_minus_sym (aspect_of rect1)), (Rmin_comm (area_of rect1)),
    (Rmax_comm (area_of rect1)).
Qed.

Lemma comparable_sym p1 p2 e1 loc1 e2 loc2 :
  comparable p1 p2 e1 loc1 e2 loc2 -> comparable p2 p1 e2 loc2 e1 loc1.
Proof. intros (He1 & He2 & Hlen). by repeat split. Qed.

Lemma scorable_sym p1 p2 image1 rect1 image2 rect2 :
  scorable p1 p2 image1 rect1 image2 rect2 -> scorable p2 p1 image2 rect2 image1 rect1.
Proof.
  intros (Him1 & Hf1 & Hh1 & Him2 & Hf2 & Hh2 & Hlen & Harea).
  repeat split; try done. by rewrite Rmax_comm.
Qed.

(** C9. When comparing A with B succeeds, comparing B with A succeeds
    with the same score: the same Euclidean distance on the embedding
    path, the same combined similarity on the heuristic path, hence the
    same reported score, confidence and decision. *)
Theorem comparison_is_symmetric (p1 p2 : string) (log : list Event) (report : Dict) :
  report !! "success" = Some (VBool true) ->
  (forall self : Service.FaceVerificationService,
     FACE_RECOGNITION_AVAILABLE = true ->
     Service.compare_faces self p1 p2 = (log, Returned report) ->
     exists log' report' encoding1 location1 encoding2 location2,
       comparable p1 p2 encoding1 location1 encoding2 location2
       /\ euclidean encoding2 encoding1 = euclidean encoding1 encoding2
       /\ Service.compare_faces self p2 p1 = (log', Returned report')
       /\ report' !! "success" = Some (VBool true)
       /\ report' !! "face_distance" = report !! "face_distance"
       /\ report' !! "face_distance" = Some (VFloat (py_round (euclidean encoding1 encoding2) 4))
       /\ report' !! "confidence" = report !! "confidence"
       /\ report' !! "is_match" = report !! "is_match")
  /\ (forall fb : Fallback.FaceVerificationServiceFallback,
        Fallback.compare_faces_basic fb p1 p2 = (log, Returned report) ->
        exists log' report' image1 rect1 image2 rect2,
          scorable p1 p2 image1 rect1 image2 rect2
          /\ heuristic_similarity image2 rect2 image1 rect1
             = heuristic_similarity image1 rect1 image2 rect2
          /\ Fallback.compare_faces_basic fb p2 p1 = (log', Returned report')
          /\ report' !! "success" = Some (VBool true)
          /\ report' !! "similarity_score" = report !! "similarity_score"
          /\ report' !! "similarity_score"
             = Some (VFloat (py_round (heuristic_similarity image1 rect1 image2 rect2) 4))
          /\ report' !! "confidence" = report !! "confidence"
          /\ report' !! "is_match" = report !! "is_match").
Proof.
  intros Hok. split.
  - intros self Hav Hrun.
    destruct (Service_compare_success_inv self p1 p2 log report Hav Hrun Hok)
      as (e1 & loc1 & e2 & loc2 & Hc & ->).
    eexists _, _, e1, loc1, e2, loc2. split; [exact Hc|].
    split; [apply euclidean_sym|].
    split; [exact (Service_compare_of_comparable Hav self _ _ _ _ _ _ (comparable_sym _ _ _ _ _ _ Hc))|].
    rewrite !embedding_report_success, !embedding_report_distance,
      !embedding_report_confidence, !embedding_report_is_match.
    unfold embedding_confidence. by rewrite (euclidean_sym e2 e1).
  - intros fb Hrun.
    destruct (Fallback_compare_success_inv fb p1 p2 log report Hrun Hok)
      as (image1 & rect1 & image2 & rect2 & Hs & ->).
    assert (Hsym : heuristic_similarity image2 rect2 image1 rect1
                   = heuristic_similarity image1 rect1 image2 rect2).
    { symmetry. apply heuristic_similarity_sym. apply Hs. }
    eexists _, _, image1, rect1, image2, rect2. split; [exact Hs|].
    split; [exact Hsym|].
    split; [exact (Fallback_compare_of_scorable fb _ _ _ _ _ _ (scorable_sym _ _ _ _ _ _ Hs))|].
    rewrite !basic_report_success, !basic_report_score,
      !basic_report_confidence, !basic_report_is_match.
    unfold basic_confidence. by rewrite Hsym.
Qed.
End Scores.


(** The sample pair in the other order: the same reported distance. *)
Lemma sample_comparison_is_symmetric :
  exists log' report',
    @Service.compare_faces (Sample.runtime true) Sample.embedding_service
      "id_card.jpg" "camera.jpg" = (log', Returned report')
    /\ report' !! "success" = Some (VBool true)
    /\ report' !! "face_distance"
       = Some (VFloat (py_round (euclidean Sample.camera_encoding Sample.id_card_encoding) 4)).
Proof.
  destruct (proj1 (@comparison_is_symmetric (Sample.runtime true)
                     "camera.jpg" "id_card.jpg" _ _
                     (@embedding_report_success (Sample.runtime true) _ _ _ _ _ _ _))
              Sample.embedding_service eq_refl Sample_compare)
    as (log' & report' & e1 & loc1 & e2 & loc2 & _ & _ & Hrun & Hok & Heq & _).
  exists log', report'. split; [exact Hrun|]. split; [exact Hok|].
  rewrite Heq. apply embedding_report_distance.
Defined.

(** ** The [/verify] handler *)

Lemma request_truthy cam doc details : truthy (request cam doc details) = true.
Proof. reflexivity. Qed.

Lemma getitem_insert_ne (d : Dict) (k k' : string) (v : Value) :
  k' <> k -> getitem (<[k' := v]> d) k = getitem d k.
Proof. intros Hne. unfold getitem. by rewrite lookup_insert_ne. Qed.

Section Handler.
Context `{Runtime}.

(** With a rejected image the handler answers at once. *)
Lemma route_rejects cam doc details qc qd :
  cam <> "" -> doc <> "" -> path_exists cam = true -> path_exists doc = true ->
  Service.validate_image_quality Routes.face_verification_service cam
    = ([Entered QUALITY_CHECK cam], Returned qc) ->
  Service.validate_image_quality Routes.face_verification_service doc
    = ([Entered QUALITY_CHECK doc], Returned qd) ->
  (exists m c, qc = quality_failure m c) \/ (exists image, qc = quality_pass image) ->
  (exists m c, qd = quality_failure m c) \/ (exists image, qd = quality_pass image) ->
  (issues_of "Camera image: " qc ++ issues_of "ID card image: " qd)%list <> [] ->
  Routes.verify_identity (request cam doc details) =
  ([Entered QUALITY_CHECK cam; Entered QUALITY_CHECK doc],
   Returned (poor_quality
               (issues_of "Camera image: " qc ++ issues_of "ID card image: " qd)%list)).
Proof.
  intros Hcam Hdoc Hex1 Hex2 Hq1 Hq2 Hc Hd Hissues.
  unfold Routes.verify_identity. rewrite request_truthy. simpl.
  rewrite !get_dict. simpl.
  rewrite !(proj2 (String.eqb_neq _ _)) by done. simpl.
  rewrite Hex1. simpl. rewrite Hex2. simpl.
  rewrite Hq1. simpl. rewrite Hq2. simpl.
  destruct Hc as [(m1 & c1 & ->) | (image1 & ->)], Hd as [(m2 & c2 & ->) | (image2 & ->)];
    unfold quality_failure, quality_pass, issues_of in *; rewrite !lookup_dict in *;
    simpl in *; rewrite !getitem_dict; simpl; rewrite ?getitem_dict; simpl;
    try reflexivity.
  done.
Qed.

(** Whatever the images, the handler starts with the two quality checks. *)
Lemma route_checks_first cam doc details :
  cam <> "" -> doc <> "" -> path_exists cam = true -> path_exists doc = true ->
  exists rest,
    trace (Routes.verify_identity (request cam doc details))
    = Entered QUALITY_CHECK cam :: Entered QUALITY_CHECK doc :: rest.
Proof.
  intros Hcam Hdoc Hex1 Hex2.
  destruct (validate_cases Routes.face_verification_service cam)
    as [(m1 & c1 & Hq1) | (image1 & _ & _ & Hq1)];
  destruct (validate_cases Routes.face_verification_service doc)
    as [(m2 & c2 & Hq2) | (image2 & _ & _ & Hq2)].
  1-3: erewrite route_rejects; try done; try (by eexists);
       try (left; by do 2 eexists); try (right; by eexists);
       by (unfold issues_of, quality_failure, quality_pass; rewrite !lookup_dict).
  unfold Routes.verify_identity. rewrite request_truthy. simpl.
  rewrite !get_dict. simpl.
  rewrite !(proj2 (String.eqb_neq _ _)) by done. simpl.
  rewrite Hex1. simpl. rewrite Hex2. simpl.
  rewrite Hq1. simpl. rewrite Hq2. simpl.
  unfold quality_pass. rewrite !getitem_dict. simpl.
  destruct (mbind _ (Service.verify_identity _ _ _ _)) as [log' o]. simpl.
  destruct o; by eexists.
Qed.

(** A successful fallback record breaks the handler's success path. *)
Lemma route_fails_on_fallback_record cam doc details image1 image2 face1 rect1 face2 rect2 :
  FACE_RECOGNITION_AVAILABLE = false ->
  cam <> "" -> doc <> "" ->
  Service.validate_image_quality Routes.face_verification_service cam
    = ([Entered QUALITY_CHECK cam], Returned (quality_pass image1)) ->
  Service.validate_image_quality Routes.face_verification_service doc
    = ([Entered QUALITY_CHECK doc], Returned (quality_pass image2)) ->
  scorable cam doc face1 rect1 face2 rect2 ->
  exists log e,
    Routes.verify_identity (request cam doc details) = (log, Returned (server_error e))
    /\ (forall d, details = VDict d -> e = "'face_distance'").
Proof.
  intros Hav Hcam Hdoc Hq1 Hq2 Hs.
  assert (Hex1 : path_exists cam = true) by (eapply cv2_imread_exists; apply Hs).
  assert (Hex2 : path_exists doc = true) by (eapply cv2_imread_exists; apply Hs).
  unfold Routes.verify_identity. rewrite request_truthy. simpl.
  rewrite !get_dict. simpl.
  rewrite !(proj2 (String.eqb_neq _ _)) by done. simpl.
  rewrite Hex1. simpl. rewrite Hex2. simpl.
  rewrite Hq1. simpl. rewrite Hq2. simpl.
  unfold quality_pass. rewrite !getitem_dict. simpl.
  unfold Routes.face_verification_service.
  rewrite (Service_verify_dispatch Hav), (Fallback_verify_scored _ _ _ _ _ _ _ _ Hs). simpl.
  unfold basic_verification_record.
  rewrite !getitem_insert_ne by done. rewrite !getitem_dict. simpl.
  destruct details; simpl; (do 2 eexists; split; [reflexivity|]); try discriminate.
  reflexivity.
Qed.
End Handler.

(** ** The quality gate and the orchestrator *)

Lemma quality_failure_message message code (m : string) :
  quality_failure message code !! "message" = Some (VStr m) -> m = message.
Proof. unfold quality_failure. rewrite lookup_dict. simpl. by intros [= <-]. Qed.

Lemma quality_pass_invalid image :
  quality_pass image !! "valid" = Some (VBool false) -> False.
Proof. unfold quality_pass. by rewrite lookup_dict. Qed.

Section Gate.
Context `{Runtime}.

(** C6, as the code has it.  The gate is run by the [/verify] handler,
    not by [verify_identity].  On a request that names two existing
    files the handler runs the quality gate on the camera image and then
    on the ID card image before anything else.  If either report is
    invalid it answers 400 with the error code POOR_IMAGE_QUALITY and a
    list of issues that holds the message of each rejected image,
    prefixed with "Camera image: " or "ID card image: "; no detection,
    extraction or comparison is started. *)
Theorem handler_runs_quality_gate_first (cam doc : string) (details : Value) :
  cam <> "" -> doc <> "" -> path_exists cam = true -> path_exists doc = true ->
  exists qc qd,
    Service.validate_image_quality Routes.face_verification_service cam
      = ([Entered QUALITY_CHECK cam], Returned qc)
    /\ Service.validate_image_quality Routes.face_verification_service doc
       = ([Entered QUALITY_CHECK doc], Returned qd)
    /\ (exists rest,
          trace (Routes.verify_identity (request cam doc details))
          = Entered QUALITY_CHECK cam :: Entered QUALITY_CHECK doc :: rest)
    /\ (qc !! "valid" = Some (VBool false) \/ qd !! "valid" = Some (VBool false) ->
        exists response issues,
          Routes.verify_identity (request cam doc details)
            = ([Entered QUALITY_CHECK cam; Entered QUALITY_CHECK doc], Returned response)
          /\ Routes.status response = 400%Z
          /\ Routes.body response !! "error_code" = Some (VStr "POOR_IMAGE_QUALITY")
          /\ Routes.body response !! "quality_issues" = Some (VList issues)
          /\ (forall m, qc !! "valid" = Some (VBool false) ->
                qc !! "message" = Some (VStr m) ->
                VStr ("Camera image: " +:+ m) ∈ issues)
          /\ (forall m, qd !! "valid" = Some (VBool false) ->
                qd !! "message" = Some (VStr m) ->
                VStr ("ID card image: " +:+ m) ∈ issues)).
Proof.
  intros Hcam Hdoc Hex1 Hex2.
  destruct (validate_cases Routes.face_verification_service cam)
    as [(m1 & c1 & Hq1) | (image1 & _ & _ & Hq1)];
  destruct (validate_cases Routes.face_verification_service doc)
    as [(m2 & c2 & Hq2) | (image2 & _ & _ & Hq2)];
    eexists _, _; (split; [exact Hq1|]); (split; [exact Hq2|]);
    (split; [by apply route_checks_first|]); intros Hbad.
  4: { destruct Hbad as [Hbad|Hbad]; by apply quality_pass_invalid in Hbad. }
  all: clear Hbad; eexists _, _; split;
    [ apply (route_rejects cam doc details _ _ Hcam Hdoc Hex1 Hex2 Hq1 Hq2);
      [ first [left; by do 2 eexists | right; by eexists]
      | first [left; by do 2 eexists | right; by eexists]
      | by (unfold issues_of, quality_failure, quality_pass; rewrite !lookup_dict) ]
    | ];
    unfold poor_quality; simpl; rewrite !lookup_dict;
    split; [reflexivity|]; split; [reflexivity|]; split; [reflexivity|];
    unfold issues_of, quality_failure, quality_pass; rewrite !lookup_dict; simpl;
    split; intros m Hv Hm;
    try (by apply quality_pass_invalid in Hv);
    rewrite ?lookup_dict in Hm; simpl in Hm; try injection Hm as <-;
    first [by constructor | by do 2 constructor].
Qed.
End Gate.


Lemma validate_too_dark `{Runtime} (self : Service.FaceVerificationService) p image :
  cv2_imread p = Some image ->
  (100 <= (shape image).2)%Z -> (100 <= (shape image).1)%Z -> gray_mean image < 30 ->
  Service.validate_image_quality self p
  = ([Entered QUALITY_CHECK p],
     Returned (quality_failure "Image is too dark for face recognition" "TOO_DARK")).
Proof.
  intros Him Hw Hh Hdark. unfold Service.validate_image_quality. rewrite Him.
  destruct (shape image) as [height width]. simpl in *.
  rewrite decide_False by lia. by rewrite decide_True by lra.
Qed.

Lemma Sample_imread_dark :
  @cv2_imread (Sample.runtime true) "dark.jpg" = Some Sample.dark_picture.
Proof. reflexivity. Qed.

Lemma Sample_validate_dark :
  @Service.validate_image_quality (Sample.runtime true)
    (@Routes.face_verification_service (Sample.runtime true)) "dark.jpg"
  = ([Entered QUALITY_CHECK "dark.jpg"],
     Returned (quality_failure "Image is too dark for face recognition" "TOO_DARK")).
Proof.
  apply (@validate_too_dark (Sample.runtime true) _ _ Sample.dark_picture).
  - exact Sample_imread_dark.
  - cbn. lia.
  - cbn. lia.
  - cbn. lra.
Qed.

Lemma Sample_exists_dark : @path_exists (Sample.runtime true) "dark.jpg" = true.
Proof. reflexivity. Qed.

Lemma Sample_exists_id_card : @path_exists (Sample.runtime true) "id_card.jpg" = true.
Proof. reflexivity. Qed.

Lemma Sample_verify_dark :
  @Service.verify_identity (Sample.runtime true) Sample.embedding_service
    "dark.jpg" "id_card.jpg" Sample.no_details
  = ([Entered REPRESENTATION_EXTRACTION "dark.jpg"; Entered FACE_DETECTION "dark.jpg";
      Entered REPRESENTATION_EXTRACTION "id_card.jpg"; Entered FACE_DETECTION "id_card.jpg";
      Entered COMPARISON "dark.jpg"; Entered COMPARISON "id_card.jpg"],
     Returned (@embedding_verification_record (Sample.runtime true) 0.6
                 "dark.jpg" "id_card.jpg" Sample.no_details
                 Sample.camera_encoding Sample.camera_location
                 Sample.id_card_encoding Sample.id_card_location)).
Proof.
  apply (@Service_verify_scored (Sample.runtime true) eq_refl Sample.embedding_service).
  split; [exact Sample_dark_encodable|]. split; [exact Sample_id_card_encodable|].
  reflexivity.
Qed.

(** A camera picture that the gate rejects as too dark, handed to
    [verify_identity] itself: extraction and comparison run on it, no
    quality check is entered, and the verification succeeds. *)
Lemma verify_identity_skips_the_quality_gate :
  exists log record,
    @Service.validate_image_quality (Sample.runtime true)
      (@Routes.face_verification_service (Sample.runtime true)) "dark.jpg"
    = ([Entered QUALITY_CHECK "dark.jpg"],
       Returned (quality_failure "Image is too dark for face recognition" "TOO_DARK"))
    /\ @Service.verify_identity (Sample.runtime true) Sample.embedding_service
         "dark.jpg" "id_card.jpg" Sample.no_details = (log, Returned record)
    /\ record !! "success" = Some (VBool true)
    /\ record !! "error_code" = None
    /\ Entered REPRESENTATION_EXTRACTION "dark.jpg" ∈ log
    /\ (forall p, Entered QUALITY_CHECK p ∉ log).
Proof.
  do 2 eexists. split; [exact Sample_validate_dark|]. split; [exact Sample_verify_dark|].
  split; [apply embedding_record_success|]. split.
  { unfold embedding_verification_record. rewrite lookup_insert_ne by done.
    by rewrite lookup_dict. }
  split; [by constructor|].
  intros p Hin. repeat (apply elem_of_cons in Hin as [Heq|Hin]; [discriminate|]).
  by apply elem_of_nil in Hin.
Qed.

(** The same picture through the handler: turned away with
    POOR_IMAGE_QUALITY and the camera's message, nothing else started. *)
Lemma dark_camera_is_turned_away :
  exists response issues,
    @Routes.verify_identity (Sample.runtime true)
      (request "dark.jpg" "id_card.jpg" Sample.no_details)
    = ([Entered QUALITY_CHECK "dark.jpg"; Entered QUALITY_CHECK "id_card.jpg"],
       Returned response)
    /\ Routes.status response = 400%Z
    /\ Routes.body response !! "error_code" = Some (VStr "POOR_IMAGE_QUALITY")
    /\ Routes.body response !! "quality_issues" = Some (VList issues)
    /\ VStr "Camera image: Image is too dark for face recognition" ∈ issues.
Proof.
  destruct (@handler_runs_quality_gate_first (Sample.runtime true)
              "dark.jpg" "id_card.jpg" Sample.no_details
              ltac:(discriminate) ltac:(discriminate)
              Sample_exists_dark Sample_exists_id_card)
    as (qc & qd & Hq1 & _ & _ & Hbad).
  pose proof Sample_validate_dark as Hdark. rewrite Hq1 in Hdark.
  injection Hdark as ->.
  destruct Hbad as (response & issues & Hrun & Hstatus & Hcode & Hissues & Hcam & _).
  { left. unfold quality_failure. by rewrite lookup_dict. }
  exists response, issues.
  split; [exact Hrun|]. split; [exact Hstatus|]. split; [exact Hcode|].
  split; [exact Hissues|].
  apply (Hcam "Image is too dark for face recognition");
    unfold quality_failure; by rewrite lookup_dict.
Defined.

(** ** The shape of the verification records *)

Section Shapes.
Context `{Runtime}.

Lemma basic_record_shape p1 p2 details image1 rect1 image2 rect2 :
  basic_verification_record p1 p2 details image1 rect1 image2 rect2 !! "similarity_score"
  = Some (VFloat (py_round (heuristic_similarity image1 rect1 image2 rect2) 4))
  /\ basic_verification_record p1 p2 details image1 rect1 image2 rect2 !! "face_distance"
     = None.
Proof.
  unfold basic_verification_record, basic_comparison_report.
  rewrite !lookup_insert_ne by done. by rewrite !lookup_dict.
Qed.

Lemma embedding_record_shape tolerance p1 p2 details e1 loc1 e2 loc2 :
  embedding_verification_record tolerance p1 p2 details e1 loc1 e2 loc2 !! "face_distance"
  = Some (VFloat (py_round (euclidean e1 e2) 4))
  /\ embedding_verification_record tolerance p1 p2 details e1 loc1 e2 loc2
       !! "similarity_score" = None.
Proof.
  unfold embedding_verification_record, embedding_comparison_report.
  rewrite !lookup_insert_ne by done. by rewrite !lookup_dict.
Qed.

(** C10. The two variants return records of different shapes.  A
    successful record of the fallback [verify_identity] has a
    similarity_score and no face_distance, so reading its "face_distance"
    raises [KeyError]; a successful record of the embedding variant has a
    face_distance.  The [/verify] handler reads "face_distance" on its
    success path: when the backend is missing and both images pass the
    quality gate, every successful verification ends in the handler's
    500 response. *)
Theorem fallback_record_has_no_face_distance (p1 p2 : string) (details : Value)
    (log : list Event) (record : Dict) :
  record !! "success" = Some (VBool true) ->
  (forall fb : Fallback.FaceVerificationServiceFallback,
     Fallback.verify_identity fb p1 p2 details = (log, Returned record) ->
     is_Some (record !! "similarity_score")
     /\ record !! "face_distance" = None
     /\ getitem record "face_distance" = raise "'face_distance'")
  /\ (forall self : Service.FaceVerificationService,
        FACE_RECOGNITION_AVAILABLE = true ->
        Service.verify_identity self p1 p2 details = (log, Returned record) ->
        is_Some (record !! "face_distance"))
  /\ (FACE_RECOGNITION_AVAILABLE = false ->
      p1 <> "" -> p2 <> "" ->
      (exists image1, cv2_imread p1 = Some image1 /\ acceptable image1) ->
      (exists image2, cv2_imread p2 = Some image2 /\ acceptable image2) ->
      Service.verify_identity Routes.face_verification_service p1 p2 details
        = (log, Returned record) ->
      exists log' e,
        Routes.verify_identity (request p1 p2 details) = (log', Returned (server_error e))
        /\ Routes.status (server_error e) = 500%Z
        /\ Routes.body (server_error e) !! "error_code" = Some (VStr "VERIFICATION_EXCEPTION")
        /\ (forall d, details = VDict d -> e = "'face_distance'")).
Proof.
  intros Hok. split; [|split].
  - intros fb Hrun.
    destruct (Fallback_verify_success_inv fb p1 p2 details log record Hrun Hok)
      as (image1 & rect1 & image2 & rect2 & _ & ->).
    destruct (basic_record_shape p1 p2 details image1 rect1 image2 rect2) as [Hs Hd].
    split; [by rewrite Hs|]. split; [exact Hd|].
    unfold getitem. by rewrite Hd.
  - intros self Hav Hrun.
    destruct (Service_verify_success_inv self p1 p2 details log record Hav Hrun Hok)
      as (e1 & loc1 & e2 & loc2 & _ & ->).
    destruct (embedding_record_shape (Service.tolerance self) p1 p2 details e1 loc1 e2 loc2)
      as [Hd _].
    by rewrite Hd.
  - intros Hav Hp1 Hp2 (image1 & Him1 & Hacc1) (image2 & Him2 & Hacc2) Hrun.
    unfold Routes.face_verification_service in Hrun.
    rewrite (Service_verify_dispatch Hav) in Hrun.
    destruct (Fallback_verify_success_inv _ p1 p2 details log record Hrun Hok)
      as (face1 & rect1 & face2 & rect2 & Hs & _).
    destruct (route_fails_on_fallback_record p1 p2 details image1 image2
                face1 rect1 face2 rect2 Hav Hp1 Hp2
                (validate_acceptable _ _ _ Him1 Hacc1)
                (validate_acceptable _ _ _ Him2 Hacc2) Hs)
      as (log' & e & Hroute & He).
    exists log', e. split; [exact Hroute|]. split; [reflexivity|].
    split; [unfold server_error; simpl; by rewrite lookup_dict|exact He].
Qed.
End Shapes.

Lemma basic_record_success `{Runtime} p1 p2 details image1 rect1 image2 rect2 :
  basic_verification_record p1 p2 details image1 rect1 image2 rect2 !! "success"
  = Some (VBool true).
Proof.
  unfold basic_verification_record.
  rewrite lookup_insert_ne by done. by rewrite lookup_dict.
Qed.

Lemma Sample_camera_acceptable : acceptable Sample.camera_picture.
Proof. unfold acceptable. cbn. repeat split; first [lia | lra]. Qed.

Lemma Sample_id_card_acceptable : acceptable Sample.id_card_picture.
Proof. unfold acceptable. cbn. repeat split; first [lia | lra]. Qed.

Lemma Sample_verify_basic :
  @Service.verify_identity (Sample.runtime false)
    (@Routes.face_verification_service (Sample.runtime false))
    "camera.jpg" "id_card.jpg" Sample.no_details
  = ([Entered REPRESENTATION_EXTRACTION "camera.jpg"; Entered FACE_DETECTION "camera.jpg";
      Entered REPRESENTATION_EXTRACTION "id_card.jpg"; Entered FACE_DETECTION "id_card.jpg";
      Entered COMPARISON "camera.jpg"; Entered COMPARISON "id_card.jpg"],
     Returned (@basic_verification_record (Sample.runtime false)
                 "camera.jpg" "id_card.jpg" Sample.no_details
                 Sample.camera_picture Sample.camera_face
                 Sample.id_card_picture Sample.id_card_face)).
Proof.
  unfold Routes.face_verification_service.
  rewrite (@Service_verify_dispatch (Sample.runtime false) eq_refl).
  apply Fallback_verify_scored. exact Sample_scorable.
Qed.

(** The sample pair without the backend: the handler answers 500 with the
    text of the [KeyError]. *)
Lemma handler_fails_on_sample_fallback_record :
  exists log',
    @Routes.verify_identity (Sample.runtime false)
      (request "camera.jpg" "id_card.jpg" Sample.no_details)
    = (log', Returned (@server_error "'face_distance'")).
Proof.
  destruct (proj2 (proj2 (@fallback_record_has_no_face_distance (Sample.runtime false)
                            "camera.jpg" "id_card.jpg" Sample.no_details _ _
                            (@basic_record_success (Sample.runtime false) _ _ _ _ _ _ _)))
              eq_refl ltac:(discriminate) ltac:(discriminate)
              (ex_intro _ Sample.camera_picture (conj eq_refl Sample_camera_acceptable))
              (ex_intro _ Sample.id_card_picture (conj eq_refl Sample_id_card_acceptable))
              Sample_verify_basic)
    as (log' & e & Hroute & _ & _ & He).
  exists log'. rewrite Hroute. by rewrite (He _ eq_refl).
Defined.

(** * Further properties *)

(** ** Error codes *)

Section Codes.
Context `{Runtime}.

Lemma Fallback_extract_codes (self : Fallback.FaceVerificationServiceFallback) p :
  (exists log message code,
     Fallback.extract_face_features self p = (log, Returned (failure message code))
     /\ code ∈ fallback_extraction_codes)
  \/ (exists image rect,
        cv2_imread p = Some image /\ detectMultiScale image = [rect]
        /\ height_of rect <> 0%Z
        /\ Fallback.extract_face_features self p =
           ([Entered REPRESENTATION_EXTRACTION p; Entered FACE_DETECTION p],
            Returned (features_report image rect))).
Proof.
  destruct (path_exists p) eqn:Hex.
  2: { left. do 3 eexists. split; [by apply Fallback_extract_missing|].
       by constructor. }
  destruct (cv2_imread p) as [image|] eqn:Him.
  2: { left. do 3 eexists. split; [by apply Fallback_extract_undecoded|].
       by do 2 constructor. }
  destruct (detectMultiScale image) as [|rect [|rect' rest]] eqn:Hfaces.
  - left. do 3 eexists. split; [by eapply Fallback_extract_no_face|].
    by do 3 constructor.
  - destruct (decide (height_of rect = 0%Z)) as [Hz|Hnz].
    + left. destruct rect as [[[x y] w] h]. simpl in Hz. subst h.
      do 3 eexists. split; [by eapply Fallback_extract_flat|].
      by do 5 constructor.
    + right. exists image, rect. repeat split; try done.
      by apply Fallback_extract_one.
  - left. do 3 eexists. split.
    + eapply Fallback_extract_multiple; [done|]. rewrite Hfaces. simpl. lia.
    + by do 4 constructor.
Qed.

Lemma Service_extract_codes (self : Service.FaceVerificationService) p :
  FACE_RECOGNITION_AVAILABLE = true ->
  (exists log message code,
     Service.extract_face_encoding self p = (log, Returned (failure message code))
     /\ code ∈ embedding_extraction_codes)
  \/ (exists encoding location, encodable p encoding location).
Proof.
  intros Hav.
  destruct (files !! p) as [f|] eqn:Hf.
  2: { left. do 3 eexists. split.
       - apply Service_extract_missing; [done|].
         unfold path_exists. rewrite Hf. apply bool_decide_eq_false. by intros [? ?].
       - by constructor. }
  destruct (load_image_file f) as [image|e] eqn:Hload.
  2: { left. do 3 eexists. split; [by eapply Service_extract_unloadable|].
       by do 2 constructor. }
  destruct (face_locations image) as [|location [|location' rest]] eqn:Hlocs.
  - left. do 3 eexists. split; [by eapply Service_extract_no_face|].
    by do 3 constructor.
  - destruct (face_encodings image) as [[|encoding encodings]|e] eqn:Henc.
    + left. do 3 eexists. split; [by eapply Service_extract_no_encoding|].
      by do 5 constructor.
    + right. exists encoding, location. by exists f, image, encodings.
    + left. do 3 eexists. split.
      * eapply Service_extract_unencodable; try done. by rewrite Hlocs.
      * by do 2 constructor.
  - destruct (face_encodings image) as [encodings|e] eqn:Henc.
    + left. do 3 eexists. split.
      * eapply Service_extract_multiple; try done. rewrite Hlocs. simpl. lia.
      * by do 4 constructor.
    + left. do 3 eexists. split.
      * eapply Service_extract_unencodable; try done. by rewrite Hlocs.
      * by do 2 constructor.
Qed.

Lemma camera_code_listed codes c :
  c ∈ codes -> "CAMERA_IMAGE_" +:+ c ∈ comparison_codes codes.
Proof.
  intros Hc. unfold comparison_codes. apply elem_of_cons. right.
  apply elem_of_app. left.
  by apply (list_elem_of_fmap_2 (fun c => "CAMERA_IMAGE_" +:+ c)).
Qed.

Lemma id_card_code_listed codes c :
  c ∈ codes -> "ID_CARD_IMAGE_" +:+ c ∈ comparison_codes codes.
Proof.
  intros Hc. unfold comparison_codes. apply elem_of_cons. right.
  apply elem_of_app. right.
  by apply (list_elem_of_fmap_2 (fun c => "ID_CARD_IMAGE_" +:+ c)).
Qed.

Lemma comparison_error_listed codes : "COMPARISON_ERROR" ∈ comparison_codes codes.
Proof. unfold comparison_codes. by constructor. Qed.

Lemma Fallback_compare_codes (self : Fallback.FaceVerificationServiceFallback) p1 p2 :
  (exists log message code,
     Fallback.compare_faces_basic self p1 p2 = (log, Returned (failure message code))
     /\ code ∈ comparison_codes fallback_extraction_codes)
  \/ (exists image1 rect1 image2 rect2,
        scorable p1 p2 image1 rect1 image2 rect2).
Proof.
  destruct (Fallback_extract_codes self p1)
    as [(log1 & m1 & c1 & H1 & Hc1) | (image1 & rect1 & Him1 & Hf1 & Hh1 & H1)].
  { destruct (Fallback_extract_cases self p2)
      as [(log2 & m2 & c2 & H2) | (image2 & rect2 & _ & _ & _ & H2)];
      left; do 3 eexists;
      (split; [by eapply Fallback_compare_camera_failed|by apply camera_code_listed]). }
  destruct (Fallback_extract_codes self p2)
    as [(log2 & m2 & c2 & H2 & Hc2) | (image2 & rect2 & Him2 & Hf2 & Hh2 & H2)].
  { left. do 3 eexists.
    split; [by eapply Fallback_compare_id_card_failed|by apply id_card_code_listed]. }
  destruct (decide (length (histogram_of image1 rect1) = length (histogram_of image2 rect2)))
    as [Hlen|Hlen].
  2: { left. do 3 eexists.
       split; [by eapply Fallback_compare_sizes_differ|apply comparison_error_listed]. }
  destruct (decide (Rmax (area_of rect1) (area_of rect2) = 0)) as [Hz|Hnz].
  { left. do 3 eexists.
    split; [by eapply Fallback_compare_no_area|apply comparison_error_listed]. }
  right. exists image1, rect1, image2, rect2. by repeat split.
Qed.

Lemma Service_compare_codes (self : Service.FaceVerificationService) p1 p2 :
  FACE_RECOGNITION_AVAILABLE = true ->
  (exists log message code,
     Service.compare_faces self p1 p2 = (log, Returned (failure message code))
     /\ code ∈ comparison_codes embedding_extraction_codes)
  \/ (exists encoding1 location1 encoding2 location2,
        comparable p1 p2 encoding1 location1 encoding2 location2).
Proof.
  intros Hav.
  destruct (Service_extract_codes self p1 Hav)
    as [(log1 & m1 & c1 & H1 & Hc1) | (e1 & l1 & He1)].
  { destruct (Service_extract_cases Hav self p2)
      as [(log2 & m2 & c2 & H2) | (e2 & l2 & He2)].
    - left. do 3 eexists.
      split; [by eapply Service_compare_camera_failed|by apply camera_code_listed].
    - left. do 3 eexists. split; [|by apply camera_code_listed].
      eapply Service_compare_camera_failed; try done.
      by apply Service_extract_one. }
  destruct (Service_extract_codes self p2 Hav)
    as [(log2 & m2 & c2 & H2 & Hc2) | (e2 & l2 & He2)].
  { left. do 3 eexists. split; [|by apply id_card_code_listed].
    eapply Service_compare_id_card_failed; try done. by apply Service_extract_one. }
  destruct (decide (length e1 = length e2)) as [Hlen|Hlen].
  - right. by exists e1, l1, e2, l2.
  - left. do 3 eexists. split; [|apply comparison_error_listed].
    eapply Service_compare_mismatched; try done; by apply Service_extract_one.
Qed.

(** Every call of [verify_identity] on a service built by [__init__]
    ends in one of three records. *)
Lemma Service_verify_cases tolerance model p1 p2 details :
  let self := Service.__init__ tolerance model in
  (exists log message code,
     Service.verify_identity self p1 p2 details
     = (log, Returned (failed_verification (VStr message) (VStr code) details))
     /\ code ∈ comparison_codes extraction_codes)
  \/ (FACE_RECOGNITION_AVAILABLE = true
      /\ exists encoding1 location1 encoding2 location2,
           comparable p1 p2 encoding1 location1 encoding2 location2
           /\ Service.verify_identity self p1 p2 details
              = (scored_stages p1 p2,
                 Returned (embedding_verification_record (Service.tolerance self) p1 p2
                             details encoding1 location1 encoding2 location2)))
  \/ (FACE_RECOGNITION_AVAILABLE = false
      /\ exists image1 rect1 image2 rect2,
           scorable p1 p2 image1 rect1 image2 rect2
           /\ Service.verify_identity self p1 p2 details
              = (scored_stages p1 p2,
                 Returned (basic_verification_record p1 p2 details
                             image1 rect1 image2 rect2))).
Proof.
  intros self. unfold extraction_codes.
  destruct FACE_RECOGNITION_AVAILABLE eqn:Hav.
  - destruct (Service_compare_codes self p1 p2 Hav)
      as [(log & m & c & Hc & Hin) | (e1 & l1 & e2 & l2 & Hcmp)].
    + left. exists log, m, c. split; [by apply Service_verify_failed|done].
    + right. left. split; [done|]. exists e1, l1, e2, l2. split; [done|].
      by apply Service_verify_scored.
  - unfold self. rewrite (Service_verify_dispatch Hav).
    destruct (Fallback_compare_codes
                (Fallback.__init__ (Some (default 0.6 tolerance)) (Some (default "hog" model)))
                p1 p2)
      as [(log & m & c & Hc & Hin) | (i1 & r1 & i2 & r2 & Hs)].
    + left. exists log, m, c. split; [by apply Fallback_verify_failed|done].
    + right. right. split; [done|]. exists i1, r1, i2, r2. split; [done|].
      by apply Fallback_verify_scored.
Qed.

End Codes.

(** ** Rounding is monotone *)




Lemma py_round_integer (z : Z) (n : nat) : py_round (IZR z) n = IZR z.
Proof.
  pose proof (pow10_pos n) as Hp.
  assert (Hpow : 10 ^ n = IZR (10 ^ Z.of_nat n)).
  { rewrite <- pow_IZR. reflexivity. }
  rewrite (py_round_near (z * 10 ^ Z.of_nat n) (IZR z) n).
  - rewrite mult_IZR, <- Hpow. field. lra.
  - rewrite mult_IZR, <- Hpow. lra.
Qed.

(** ** Fields of the records *)

Section Fields.
Context `{Runtime}.

Lemma embedding_record_fields tolerance p1 p2 details e1 l1 e2 l2 :
  let record := embedding_verification_record tolerance p1 p2 details e1 l1 e2 l2 in
  let is_match := bool_decide (euclidean e1 e2 <= tolerance) in
  record !! "success" = Some (VBool true)
  /\ record !! "result" = Some (VStr (verdict is_match))
  /\ record !! "is_match" = Some (VBool is_match)
  /\ record !! "confidence" = Some (VFloat (embedding_confidence e1 e2))
  /\ record !! "recommendation"
     = Some (VStr (embedding_tier (embedding_confidence e1 e2)))
  /\ record !! "student_details" = Some (or_empty details)
  /\ record !! "error_code" = None
  /\ (exists m, record !! "message" = Some (VStr m))
  /\ (exists vd, record !! "verification_details" = Some (VDict vd)
                 /\ vd !! "tolerance_used" = Some (VFloat tolerance)).
Proof.
  unfold embedding_verification_record, embedding_comparison_report, embedding_tier, verdict.
  rewrite lookup_insert_eq, !lookup_insert_ne by done. rewrite !lookup_dict. simpl.
  rewrite ?lookup_dict. simpl.
  repeat split; try reflexivity; [by eexists|].
  eexists. split; [reflexivity|]. by rewrite lookup_dict.
Qed.

Lemma basic_record_fields p1 p2 details image1 rect1 image2 rect2 :
  let record := basic_verification_record p1 p2 details image1 rect1 image2 rect2 in
  let is_match :=
    bool_decide (heuristic_similarity image1 rect1 image2 rect2 >= 0.4) in
  record !! "success" = Some (VBool true)
  /\ record !! "result" = Some (VStr (verdict is_match))
  /\ record !! "is_match" = Some (VBool is_match)
  /\ record !! "confidence" = Some (VFloat (basic_confidence image1 rect1 image2 rect2))
  /\ record !! "recommendation"
     = Some (VStr (basic_tier (basic_confidence image1 rect1 image2 rect2)))
  /\ record !! "student_details" = Some (or_empty details)
  /\ record !! "error_code" = None
  /\ (exists m, record !! "message" = Some (VStr m))
  /\ (exists vd, record !! "verification_details" = Some (VDict vd)
                 /\ vd !! "tolerance_used" = Some (VFloat 0.4)).
Proof.
  unfold basic_verification_record, basic_comparison_report, basic_tier, verdict.
  rewrite lookup_insert_eq, !lookup_insert_ne by done. rewrite !lookup_dict. simpl.
  rewrite ?lookup_dict. simpl.
  repeat split; try reflexivity; [by eexists|].
  eexists. split; [reflexivity|]. by rewrite lookup_dict.
Qed.

Lemma failed_verification_fields message code details :
  let record := failed_verification (VStr message) (VStr code) details in
  record !! "success" = Some (VBool false)
  /\ record !! "result" = Some (VStr "Verification Failed")
  /\ record !! "confidence" = Some (VInt 0)
  /\ record !! "message" = Some (VStr message)
  /\ record !! "error_code" = Some (VStr code)
  /\ record !! "student_details" = Some (or_empty details)
  /\ record !! "is_match" = None
  /\ record !! "recommendation" = None.
Proof. unfold failed_verification. by rewrite !lookup_dict. Qed.

End Fields.

(** ** The contract of [verify_identity] *)

Lemma not_listed (code : string) (codes : list string) :
  bool_decide (code ∈ codes) = false -> code ∉ codes.
Proof. apply bool_decide_eq_false. Qed.

Section Contract.
Context `{Runtime}.

(** [verify_identity] never raises on a service built by [__init__]:
    whatever the two paths and the details, it returns a record that
    echoes the student details (an empty dictionary for a falsy value)
    and carries a message.  The record is either a success with a
    decision, the matching verdict, a confidence, a recommendation and no
    error code, or a failure with the result "Verification Failed",
    confidence 0 and an error code, and with neither decision nor
    recommendation. *)
Theorem verify_identity_always_reports (tolerance : option R) (model : option string)
    (p1 p2 : string) (details : Value) :
  exists log record,
    Service.verify_identity (Service.__init__ tolerance model) p1 p2 details
    = (log, Returned record)
    /\ record !! "student_details" = Some (or_empty details)
    /\ (exists message, record !! "message" = Some (VStr message))
    /\ ((record !! "success" = Some (VBool true)
         /\ (exists is_match,
               record !! "is_match" = Some (VBool is_match)
               /\ record !! "result" = Some (VStr (verdict is_match)))
         /\ (exists confidence, record !! "confidence" = Some (VFloat confidence))
         /\ is_Some (record !! "recommendation")
         /\ record !! "error_code" = None)
        \/ (record !! "success" = Some (VBool false)
            /\ record !! "result" = Some (VStr "Verification Failed")
            /\ record !! "confidence" = Some (VInt 0)
            /\ (exists code, record !! "error_code" = Some (VStr code))
            /\ record !! "is_match" = None
            /\ record !! "recommendation" = None)).
Proof.
  destruct (Service_verify_cases tolerance model p1 p2 details)
    as [(log & m & c & Hrun & _)
       | [(_ & e1 & l1 & e2 & l2 & _ & Hrun) | (_ & i1 & r1 & i2 & r2 & _ & Hrun)]];
    eexists _, _; (split; [exact Hrun|]).
  - destruct (failed_verification_fields m c details)
      as (Hs & Hr & Hc & Hm & He & Hd & Hi & Hrec).
    split; [done|]. split; [by eexists|]. right. repeat split; try done. by eexists.
  - destruct (embedding_record_fields
                (Service.tolerance (Service.__init__ tolerance model))
                p1 p2 details e1 l1 e2 l2)
      as (Hs & Hr & Hi & Hc & Hrec & Hd & He & Hm & _).
    split; [done|]. split; [done|]. left.
    repeat split; try done; by eexists.
  - destruct (basic_record_fields p1 p2 details i1 r1 i2 r2)
      as (Hs & Hr & Hi & Hc & Hrec & Hd & He & Hm & _).
    split; [done|]. split; [done|]. left.
    repeat split; try done; by eexists.
Qed.

(** The error code of a verification record is always one of the
    comparison's codes: COMPARISON_ERROR, or an extraction code of the
    backend in use prefixed with CAMERA_IMAGE_ or ID_CARD_IMAGE_.  The
    code VERIFICATION_ERROR of [verify_identity]'s own handler is never
    reported; without the embedding backend no code ends in
    NO_FACE_DETECTED, and with it none ends in IMAGE_READ_ERROR. *)
Theorem verify_identity_error_codes (tolerance : option R) (model : option string)
    (p1 p2 : string) (details : Value) (log : list Event) (record : Dict) (code : string) :
  Service.verify_identity (Service.__init__ tolerance model) p1 p2 details
  = (log, Returned record) ->
  record !! "error_code" = Some (VStr code) ->
  code ∈ comparison_codes extraction_codes
  /\ code <> "VERIFICATION_ERROR"
  /\ (FACE_RECOGNITION_AVAILABLE = false ->
      code <> "CAMERA_IMAGE_NO_FACE_DETECTED" /\ code <> "ID_CARD_IMAGE_NO_FACE_DETECTED")
  /\ (FACE_RECOGNITION_AVAILABLE = true ->
      code <> "CAMERA_IMAGE_IMAGE_READ_ERROR" /\ code <> "ID_CARD_IMAGE_IMAGE_READ_ERROR").
Proof.
  intros Hrun Hcode.
  assert (Hin : code ∈ comparison_codes extraction_codes).
  { destruct (Service_verify_cases tolerance model p1 p2 details)
      as [(log' & m & c & Hrun' & Hin)
         | [(_ & e1 & l1 & e2 & l2 & _ & Hrun') | (_ & i1 & r1 & i2 & r2 & _ & Hrun')]];
      rewrite Hrun' in Hrun; injection Hrun as _ <-.
    - destruct (failed_verification_fields m c details) as (_ & _ & _ & _ & He & _).
      rewrite He in Hcode. by injection Hcode as <-.
    - destruct (embedding_record_fields
                  (Service.tolerance (Service.__init__ tolerance model))
                  p1 p2 details e1 l1 e2 l2) as (_ & _ & _ & _ & _ & _ & He & _).
      assert (Hn : Some (VStr code) = None) by (rewrite <- Hcode; exact He).
      discriminate.
    - destruct (basic_record_fields p1 p2 details i1 r1 i2 r2)
        as (_ & _ & _ & _ & _ & _ & He & _).
      assert (Hn : Some (VStr code) = None) by (rewrite <- Hcode; exact He).
      discriminate. }
  split; [done|]. revert Hin. unfold extraction_codes.
  destruct FACE_RECOGNITION_AVAILABLE; intros Hin.
  - split; [|split; [discriminate|intros _; split]];
      intros ->; revert Hin; apply not_listed; vm_compute; reflexivity.
  - split; [|split; [intros _; split|discriminate]];
      intros ->; revert Hin; apply not_listed; vm_compute; reflexivity.
Qed.

End Contract.

(** ** Scores of an image against itself *)

Lemma sum_squares_self (a : list R) :
  sum_list (zip_with (fun x y => (x - y) * (x - y)) a a) = 0.
Proof.
  induction a as [|x a IH]; [reflexivity|].
  cbn [zip_with]. rewrite sum_list_cons, IH. lra.
Qed.

Lemma euclidean_self (a : list R) : euclidean a a = 0.
Proof. unfold euclidean. rewrite sum_squares_self. apply sqrt_0. Qed.

Lemma sum_shifted_squares (h : list R) (x : R) :
  0 <= sum_list (zip_with Rmult h h) - 2 * x * sum_list h + INR (length h) * (x * x).
Proof.
  induction h as [|a h IH].
  - simpl. lra.
  - cbn [zip_with length]. rewrite !sum_list_cons, S_INR.
    pose proof (Rle_0_sqr (a - x)) as Hsq. unfold Rsqr in Hsq. lra.
Qed.

Lemma square_of_sum (h : list R) :
  sum_list h * sum_list h <= INR (length h) * sum_list (zip_with Rmult h h).
Proof.
  induction h as [|a h IH].
  - simpl. lra.
  - cbn [zip_with length]. rewrite !sum_list_cons, S_INR.
    pose proof (sum_shifted_squares h a). lra.
Qed.

Lemma variance_nonneg (h : list R) :
  0 <= sum_list (zip_with Rmult h h) - sum_list h * sum_list h * (1 / INR (length h)).
Proof.
  destruct h as [|a h].
  - simpl. lra.
  - pose proof (square_of_sum (a :: h)) as Hsq.
    assert (Hn : 0 < INR (length (a :: h))) by (apply lt_0_INR; simpl; lia).
    set (n := INR (length (a :: h))) in *.
    set (S := sum_list (a :: h)) in *.
    set (Q := sum_list (zip_with Rmult (a :: h) (a :: h))) in *.
    assert (Heq : Q - S * S * (1 / n) = (n * Q - S * S) * / n) by (field; lra).
    rewrite Heq. apply Rmult_le_pos; [lra|]. left. by apply Rinv_0_lt_compat.
Qed.

Lemma correlation_self (h : list R) : correlation h h = 1.
Proof.
  unfold correlation. pose proof (variance_nonneg h) as Hv.
  set (v := sum_list (zip_with Rmult h h) - sum_list h * sum_list h * (1 / INR (length h))) in *.
  case_decide as Hbig; [|reflexivity].
  assert (Hnz : v <> 0).
  { intros Hz. rewrite Hz, Rmult_0_l, Rabs_R0 in Hbig.
    pose proof DBL_EPSILON_pos. lra. }
  change (v * v) with (Rsqr v). rewrite sqrt_Rsqr by done. by field.
Qed.

Lemma heuristic_similarity_self image rect :
  area_of rect <> 0 -> heuristic_similarity image rect image rect = 1.
Proof.
  intros Ha. unfold heuristic_similarity, weighted_sum, intensity_similarity,
    ratio_similarity, size_similarity.
  rewrite correlation_self, !Rminus_diag, Rabs_R0.
  rewrite (Rmin_left (area_of rect)), (Rmax_left (area_of rect)) by lra.
  rewrite (Rmax_right 0 (1 - 0 / 255.0)) by lra.
  rewrite (Rmax_right 0 (1 - 0)) by lra.
  replace (area_of rect / area_of rect) with 1 by (by field). lra.
Qed.

Lemma basic_confidence_self image rect :
  area_of rect <> 0 -> basic_confidence image rect image rect = 100.
Proof.
  intros Ha. unfold basic_confidence, clamp. rewrite heuristic_similarity_self by done.
  rewrite Rmin_left, Rmax_right by lra.
  replace (1 * 100) with (IZR 100) by lra. apply py_round_integer.
Qed.

Lemma embedding_confidence_self e : embedding_confidence e e = 100.
Proof.
  unfold embedding_confidence. rewrite euclidean_self, Rmax_right by lra.
  replace ((1 - 0) * 100) with (IZR 100) by lra. apply py_round_integer.
Qed.

Lemma area_height rect : area_of rect <> 0 -> height_of rect <> 0%Z.
Proof.
  destruct rect as [[[x y] w] h]. unfold area_of. simpl. intros Ha ->.
  apply Ha. by rewrite Z.mul_0_r.
Qed.

Section Scoring.
Context `{Runtime}.

(** Without the embedding backend the service is a proxy of the
    fallback service it built: detection, extraction, comparison and
    verification are the fallback's, the tolerance and the model given to
    [__init__] change no result, and a successful comparison reports the
    fixed threshold 0.4 as tolerance_used. *)
Theorem degraded_mode_ignores_tolerance (t1 t2 : option R) (m1 m2 : option string)
    (p1 p2 : string) (details : Value) :
  FACE_RECOGNITION_AVAILABLE = false ->
  let self1 := Service.__init__ t1 m1 in
  let self2 := Service.__init__ t2 m2 in
  let fb := Fallback.__init__ (Some (default 0.6 t1)) (Some (default "hog" m1)) in
  Service.fallback_service self1 = Some fb
  /\ Service.detect_faces_dlib self1 p1 = Fallback.detect_faces_opencv fb p1
  /\ Service.extract_face_encoding self1 p1 = Fallback.extract_face_features fb p1
  /\ Service.compare_faces self1 p1 p2 = Fallback.compare_faces_basic fb p1 p2
  /\ Service.verify_identity self1 p1 p2 details = Fallback.verify_identity fb p1 p2 details
  /\ Service.extract_face_encoding self1 p1 = Service.extract_face_encoding self2 p1
  /\ Service.compare_faces self1 p1 p2 = Service.compare_faces self2 p1 p2
  /\ Service.verify_identity self1 p1 p2 details
     = Service.verify_identity self2 p1 p2 details
  /\ (forall log report,
        Service.compare_faces self1 p1 p2 = (log, Returned report) ->
        report !! "success" = Some (VBool true) ->
        report !! "tolerance_used" = Some (VFloat 0.4)).
Proof.
  intros Hav self1 self2 fb. unfold self1, self2, fb.
  rewrite !(Service_extract_dispatch Hav), !(Service_compare_dispatch Hav),
    !(Service_verify_dispatch Hav), (Service_init_fallback Hav).
  split; [reflexivity|]. split.
  { unfold Service.detect_faces_dlib. rewrite Hav. reflexivity. }
  do 6 (split; [reflexivity|]).
  intros log report Hrun Hok.
  destruct (Fallback_compare_success_inv _ _ _ _ _ Hrun Hok)
    as (i1 & r1 & i2 & r2 & _ & ->).
  unfold basic_comparison_report. by rewrite lookup_dict.
Qed.


(** Decision and recommendation of a successful verification agree.  A
    non-match has confidence at most 50 (embedding variant, tolerance at
    least 0.5) or at most 40 (heuristic variant) and carries the lowest
    recommendation; a match has confidence at least 40 (embedding
    variant with a tolerance of at most 0.6, heuristic variant always). *)
Theorem decision_agrees_with_recommendation (p1 p2 : string) (details : Value)
    (log : list Event) (record : Dict) :
  record !! "success" = Some (VBool true) ->
  (forall self : Service.FaceVerificationService,
     FACE_RECOGNITION_AVAILABLE = true ->
     Service.verify_identity self p1 p2 details = (log, Returned record) ->
     exists is_match c,
       record !! "is_match" = Some (VBool is_match)
       /\ record !! "result" = Some (VStr (verdict is_match))
       /\ record !! "confidence" = Some (VFloat c)
       /\ (is_match = false -> 0.5 <= Service.tolerance self ->
           c <= 50
           /\ record !! "recommendation"
              = Some (VStr "Low confidence - manual review recommended"))
       /\ (is_match = true -> Service.tolerance self <= 0.6 -> 40 <= c))
  /\ (forall fb : Fallback.FaceVerificationServiceFallback,
        Fallback.verify_identity fb p1 p2 details = (log, Returned record) ->
        exists is_match c,
          record !! "is_match" = Some (VBool is_match)
          /\ record !! "result" = Some (VStr (verdict is_match))
          /\ record !! "confidence" = Some (VFloat c)
          /\ (is_match = false ->
              c <= 40
              /\ record !! "recommendation"
                 = Some (VStr "Very low confidence - manual review required"))
          /\ (is_match = true -> 40 <= c)).
Proof.
  intros Hok. split.
  - intros self Hav Hrun.
    destruct (Service_verify_success_inv self p1 p2 details log record Hav Hrun Hok)
      as (e1 & l1 & e2 & l2 & _ & ->).
    destruct (embedding_record_fields (Service.tolerance self) p1 p2 details e1 l1 e2 l2)
      as (_ & Hr & Hi & Hc & Hrec & _).
    eexists _, _. split; [exact Hi|]. split; [exact Hr|]. split; [exact Hc|].
    pose proof (euclidean_nonneg e1 e2) as Hd. split.
    + intros Hm Ht. apply bool_decide_eq_false in Hm.
      assert (Hc50 : embedding_confidence e1 e2 <= 50).
      { unfold embedding_confidence. apply (py_round_bounds 0 50).
        split; [apply Rmax_l|]. apply Rmax_lub; lra. }
      split; [done|]. rewrite Hrec. unfold embedding_tier.
      rewrite !decide_False by lra. reflexivity.
    + intros Hm Ht. apply bool_decide_eq_true in Hm.
      unfold embedding_confidence. apply (py_round_bounds 40 100).
      split; [etrans; [|apply Rmax_r]; lra|apply Rmax_lub; lra].
  - intros fb Hrun.
    destruct (Fallback_verify_success_inv fb p1 p2 details log record Hrun Hok)
      as (i1 & r1 & i2 & r2 & _ & ->).
    destruct (basic_record_fields p1 p2 details i1 r1 i2 r2)
      as (_ & Hr & Hi & Hc & Hrec & _).
    eexists _, _. split; [exact Hi|]. split; [exact Hr|]. split; [exact Hc|].
    split.
    + intros Hm. apply bool_decide_eq_false in Hm.
      assert (Hc40 : basic_confidence i1 r1 i2 r2 <= 40).
      { unfold basic_confidence, clamp. apply (py_round_bounds 0 40).
        split; [apply Rmax_l|]. apply Rmax_lub; [lra|].
        etrans; [apply Rmin_r|]. lra. }
      split; [done|]. rewrite Hrec. unfold basic_tier.
      rewrite !decide_False by lra. reflexivity.
    + intros Hm. apply bool_decide_eq_true in Hm.
      unfold basic_confidence, clamp. apply (py_round_bounds 40 100).
      split; [|apply Rmax_lub; [lra|apply Rmin_l]].
      etrans; [|apply Rmax_r]. apply Rmin_glb; lra.
Qed.

(** Verifying an image against itself.  With one encodable face and a
    tolerance that is not negative, the embedding variant reports
    Verified, distance 0, confidence 100 and "High confidence match".
    The heuristic variant, for one detected face of non-zero area,
    reports Verified, similarity 1 and confidence 100, with its highest
    recommendation, "Moderate confidence match (basic method)". *)
Theorem self_comparison_is_a_perfect_match (tolerance : option R) (model : option string)
    (p : string) (details : Value) :
  let self := Service.__init__ tolerance model in
  (FACE_RECOGNITION_AVAILABLE = true ->
   forall encoding location,
     encodable p encoding location -> 0 <= Service.tolerance self ->
     exists log record,
       Service.verify_identity self p p details = (log, Returned record)
       /\ record !! "result" = Some (VStr "Verified")
       /\ record !! "is_match" = Some (VBool true)
       /\ record !! "face_distance" = Some (VFloat 0)
       /\ record !! "confidence" = Some (VFloat 100)
       /\ record !! "recommendation" = Some (VStr "High confidence match"))
  /\ (FACE_RECOGNITION_AVAILABLE = false ->
      forall image rect,
        cv2_imread p = Some image -> detectMultiScale image = [rect] ->
        area_of rect <> 0 ->
        exists log record,
          Service.verify_identity self p p details = (log, Returned record)
          /\ record !! "result" = Some (VStr "Verified")
          /\ record !! "is_match" = Some (VBool true)
          /\ record !! "similarity_score" = Some (VFloat 1)
          /\ record !! "confidence" = Some (VFloat 100)
          /\ record !! "recommendation"
             = Some (VStr "Moderate confidence match (basic method)")).
Proof.
  intros self. split.
  - intros Hav encoding location Henc Htol.
    assert (Hcmp : comparable p p encoding location encoding location) by done.
    eexists _, _. split; [by apply Service_verify_scored|].
    destruct (embedding_record_fields (Service.tolerance self) p p details
                encoding location encoding location)
      as (_ & Hr & Hi & Hc & Hrec & _).
    destruct (embedding_record_shape (Service.tolerance self) p p details
                encoding location encoding location) as [Hd _].
    rewrite Hr, Hi, Hc, Hrec, Hd, embedding_confidence_self, euclidean_self.
    rewrite bool_decide_eq_true_2 by done.
    unfold embedding_tier. rewrite decide_True by lra.
    replace 0 with (IZR 0) at 1 by reflexivity. rewrite py_round_integer.
    by repeat split.
  - intros Hav image rect Him Hfaces Ha.
    assert (Hs : scorable p p image rect image rect).
    { pose proof (area_height rect Ha).
      repeat split; try done. by rewrite Rmax_left by lra. }
    unfold self. rewrite (Service_verify_dispatch Hav).
    eexists _, _. split; [by apply Fallback_verify_scored|].
    destruct (basic_record_fields p p details image rect image rect)
      as (_ & Hr & Hi & Hc & Hrec & _).
    destruct (basic_record_shape p p details image rect image rect) as [Hd _].
    rewrite Hr, Hi, Hc, Hrec, Hd, basic_confidence_self, heuristic_similarity_self by done.
    rewrite bool_decide_eq_true_2 by lra.
    unfold basic_tier. rewrite decide_True by lra.
    replace 1 with (IZR 1) at 1 by reflexivity. rewrite py_round_integer.
    by repeat split.
Qed.

End Scoring.

(** ** The scores on the sample files *)

Lemma Sample_verify_empty :
  @Service.verify_identity (Sample.runtime true) Sample.embedding_service
    "camera.jpg" "empty.jpg" Sample.no_details
  = ([Entered REPRESENTATION_EXTRACTION "camera.jpg"; Entered FACE_DETECTION "camera.jpg";
      Entered REPRESENTATION_EXTRACTION "empty.jpg"; Entered FACE_DETECTION "empty.jpg"],
     Returned (@failed_verification
                 (VStr "ID card image: No face detected in image")
                 (VStr "ID_CARD_IMAGE_NO_FACE_DETECTED") Sample.no_details)).
Proof.
  apply (@Service_verify_failed (Sample.runtime true) eq_refl).
  exact (@Service_compare_id_card_failed (Sample.runtime true) eq_refl _ _ _ _ _ _ _ _ _
           Sample_extract_camera Sample_extract_empty).
Qed.

(** On the sample files with the backend: the code reported for the ID
    card picture without a face is a listed one. *)
Lemma sample_error_code_is_listed :
  "ID_CARD_IMAGE_NO_FACE_DETECTED"
    ∈ comparison_codes (@extraction_codes (Sample.runtime true))
  /\ "ID_CARD_IMAGE_NO_FACE_DETECTED" <> "VERIFICATION_ERROR".
Proof.
  destruct (@verify_identity_error_codes (Sample.runtime true) None None
              "camera.jpg" "empty.jpg" Sample.no_details _ _
              "ID_CARD_IMAGE_NO_FACE_DETECTED" Sample_verify_empty)
    as (Hin & Hne & _).
  - unfold failed_verification. by rewrite lookup_dict.
  - by split.
Defined.

(** On the sample files without the backend: a tolerance of 0.9 and the
    model "cnn" give the record of the defaults. *)
Lemma sample_degraded_service_ignores_tolerance :
  @Service.verify_identity (Sample.runtime false)
    (@Service.__init__ (Sample.runtime false) None None)
    "camera.jpg" "id_card.jpg" Sample.no_details
  = @Service.verify_identity (Sample.runtime false)
      (@Service.__init__ (Sample.runtime false) (Some 0.9) (Some "cnn"))
      "camera.jpg" "id_card.jpg" Sample.no_details.
Proof.
  exact (proj1 (proj2 (proj2 (proj2 (proj2 (proj2 (proj2 (proj2
           (@degraded_mode_ignores_tolerance (Sample.runtime false)
              None (Some 0.9) None (Some "cnn")
              "camera.jpg" "id_card.jpg" Sample.no_details eq_refl))))))))).
Defined.




(** On the sample pair with the backend: the record's decision and
    confidence agree. *)
Lemma sample_match_is_confident :
  exists is_match c,
    @embedding_verification_record (Sample.runtime true) 0.6
      "camera.jpg" "id_card.jpg" Sample.no_details
      Sample.camera_encoding Sample.camera_location
      Sample.id_card_encoding Sample.id_card_location !! "is_match"
    = Some (VBool is_match)
    /\ @embedding_verification_record (Sample.runtime true) 0.6
         "camera.jpg" "id_card.jpg" Sample.no_details
         Sample.camera_encoding Sample.camera_location
         Sample.id_card_encoding Sample.id_card_location !! "confidence"
       = Some (VFloat c)
    /\ (is_match = true -> 40 <= c).
Proof.
  destruct (proj1 (@decision_agrees_with_recommendation (Sample.runtime true)
                     "camera.jpg" "id_card.jpg" Sample.no_details _ _
                     (@embedding_record_success (Sample.runtime true) _ _ _ _ _ _ _ _))
              Sample.embedding_service eq_refl Sample_verify)
    as (b & c & Hb & _ & Hc & _ & Hhigh).
  exists b, c. split; [exact Hb|]. split; [exact Hc|].
  intros Hm. apply Hhigh; [exact Hm|]. simpl. lra.
Defined.

(** The sample camera picture against itself, with the backend. *)
Lemma sample_self_comparison_is_perfect :
  exists log record,
    @Service.verify_identity (Sample.runtime true) Sample.embedding_service
      "camera.jpg" "camera.jpg" Sample.no_details = (log, Returned record)
    /\ record !! "result" = Some (VStr "Verified")
    /\ record !! "confidence" = Some (VFloat 100).
Proof.
  destruct (proj1 (@self_comparison_is_a_perfect_match (Sample.runtime true)
                     None None "camera.jpg" Sample.no_details)
              eq_refl _ _ Sample_camera_encodable)
    as (log & record & Hrun & Hr & _ & _ & Hc & _).
  - simpl. lra.
  - by exists log, record.
Defined.

(** ** File names *)

Lemma occurs_app (c : ascii) (a b : string) : occurs c (a +:+ String c b) = true.
Proof.
  induction a as [|c' a IH]; simpl.
  - by rewrite Ascii.eqb_refl.
  - rewrite IH. apply orb_true_r.
Qed.

Lemma rpartition_none (sep : ascii) (s : string) :
  occurs sep s = false -> rpartition sep s = None.
Proof.
  induction s as [|c s IH]; simpl; [done|].
  intros [Hc Hs]%orb_false_elim. by rewrite IH, Hc.
Qed.

Lemma rpartition_some (sep : ascii) (s : string) :
  occurs sep s = true ->
  exists before after,
    rpartition sep s = Some (before, after)
    /\ s = before +:+ String sep after /\ occurs sep after = false.
Proof.
  induction s as [|c s IH]; simpl; [done|].
  destruct (occurs sep s) eqn:Hs.
  - intros _. destruct (IH eq_refl) as (before & after & -> & -> & Hafter).
    by exists (String c before), after.
  - rewrite orb_false_r. intros Hc. rewrite (rpartition_none _ _ Hs), Hc.
    apply Ascii.eqb_eq in Hc as ->. by exists EmptyString, s.
Qed.

Lemma rpartition_app (sep : ascii) (before after : string) :
  occurs sep after = false ->
  rpartition sep (before +:+ String sep after) = Some (before, after).
Proof.
  intros Hafter. induction before as [|c before IH]; simpl.
  - by rewrite (rpartition_none _ _ Hafter), Ascii.eqb_refl.
  - by rewrite IH.
Qed.

Lemma lower_pdf_has_no_dot (extension : string) :
  lower extension = "pdf" -> occurs "."%char extension = false.
Proof.
  destruct extension as [|c1 [|c2 [|c3 [|c4 rest]]]]; try discriminate.
  simpl. intros [= H1 H2 H3].
  rewrite orb_false_r.
  destruct (Ascii.eqb_spec c1 "."%char) as [->|_]; [discriminate|].
  destruct (Ascii.eqb_spec c2 "."%char) as [->|_]; [discriminate|].
  destruct (Ascii.eqb_spec c3 "."%char) as [->|_]; [discriminate|].
  reflexivity.
Qed.

(** [Config.allowed_file] never raises, and accepts exactly the names of
    the form stem.extension whose extension is "pdf" up to letter case;
    the stem may be empty or contain dots, the extension holds none. *)
Theorem allowed_file_accepts_exactly_pdf (filename : string) :
  exists allowed,
    Config.allowed_file filename = ret allowed
    /\ (allowed = true <->
        exists stem extension,
          filename = stem +:+ "." +:+ extension /\ lower extension = "pdf").
Proof.
  unfold Config.allowed_file.
  destruct (occurs "."%char filename) eqn:Hdot.
  - destruct (rpartition_some _ _ Hdot) as (before & after & Hsplit & -> & Hafter).
    unfold rsplit1. rewrite Hsplit. simpl.
    eexists. split; [reflexivity|].
    rewrite bool_decide_eq_true. unfold Config.ALLOWED_EXTENSIONS.
    rewrite list_elem_of_singleton. split.
    + intros Hpdf. by exists before, after.
    + intros (stem & extension & Heq & Hpdf).
      change (stem +:+ "." +:+ extension) with (stem +:+ String "."%char extension) in Heq.
      rewrite Heq, rpartition_app in Hsplit by by apply lower_pdf_has_no_dot.
      by injection Hsplit as _ <-.
  - exists false. split; [reflexivity|]. split; [done|].
    intros (stem & extension & -> & _).
    change (stem +:+ "." +:+ extension) with (stem +:+ String "."%char extension) in Hdot.
    by rewrite occurs_app in Hdot.
Qed.

(** ** Postconditions *)

Lemma returns_ret {A} (P : A -> Prop) (a : A) : P a -> returns P (ret a).
Proof. done. Qed.

Lemma returns_raise {A} (P : A -> Prop) (msg : string) : returns P (raise msg).
Proof. done. Qed.

Lemma returns_any {A} (P : A -> Prop) (m : Py A) : (forall a, P a) -> returns P m.
Proof. intros HP. unfold returns. by destruct (outcome m). Qed.

Lemma returns_bind {A B} (Q : B -> Prop) (m : Py A) (k : A -> Py B) :
  returns (fun a => returns Q (k a)) m -> returns Q (m ≫= k).
Proof.
  destruct m as [log [a|msg]]; [|done].
  unfold returns. simpl. by destruct (k a).
Qed.

Lemma returns_try {A} (P : A -> Prop) (body : Py A) (handler : string -> Py A) :
  returns P body ->
  (forall e, exists log a, handler e = (log, Returned a) /\ P a) ->
  exists log a, try_except body handler = (log, Returned a) /\ P a.
Proof.
  destruct body as [log [a|msg]]; intros Hbody Hhandler.
  - by exists log, a.
  - destruct (Hhandler msg) as (log' & a & Hrun & Ha).
    exists (log ++ log')%list, a. simpl. by rewrite Hrun.
Qed.

Section Answers.
Context `{Runtime}.

(** Both handlers always answer.  For any request body, [/verify] and
    [/compare-faces] return a response, no exception escapes; the
    response is either a success with status 200, a message, a data
    payload and no error code, or an error with status 400 or 500, a
    message and an error code. *)
Theorem handlers_always_answer (data : Value) :
  (exists log response,
     Routes.verify_identity data = (log, Returned response) /\ well_formed response)
  /\ (exists log response,
        Routes.compare_faces_only data = (log, Returned response)
        /\ well_formed response).
Proof.
  split;
    (apply returns_try;
     [ repeat match goal with
         | |- returns _ (ret _) =>
             apply returns_ret; unfold well_formed;
             cbn [Routes.status Routes.body]; rewrite !lookup_dict; simpl;
             first [ left; repeat split; by eauto | right; repeat split; by eauto ]
         | |- returns _ (raise _) => exact I
         | |- returns _ (let _ := _ in _) => cbv zeta
         | |- returns _ (if ?b then _ else _) => destruct b
         | |- returns _ (mbind _ _) => apply returns_bind, returns_any; intros ?
         end
     | intros e; eexists _, _; split; [reflexivity|];
       unfold well_formed; cbn [Routes.status Routes.body]; rewrite !lookup_dict; simpl;
       right; repeat split; by eauto ]).
Qed.

End Answers.

(** ** The validation ladders of the handlers *)

Lemma truthy_path (s : string) : truthy (VStr s) = true -> s <> "".
Proof. simpl. intros Hs ->. done. Qed.

Lemma path_truthy (s : string) : s <> "" -> truthy (VStr s) = true.
Proof. simpl. intros Hs. by rewrite (proj2 (String.eqb_neq _ _)). Qed.

Section Ladders.
Context `{Runtime}.

(** The validation ladder of [/verify].  A missing or empty body is
    refused with 400 NO_DATA, and a body that is not an object ends in
    500 VERIFICATION_EXCEPTION.  Then, in this order, each with status
    400: a missing or empty camera_image_path (MISSING_CAMERA_IMAGE), a
    missing or empty id_card_image_path (MISSING_ID_CARD_IMAGE), a
    camera path that does not exist (CAMERA_IMAGE_NOT_FOUND), an ID card
    path that does not exist (ID_CARD_IMAGE_NOT_FOUND).  No pipeline
    stage is entered before these answers. *)
Theorem verify_route_validates_its_input :
  (forall data, truthy data = false ->
     Routes.verify_identity data
     = ret (error_response 400 "No JSON data provided" "NO_DATA"))
  /\ (forall data, truthy data = true -> (forall d, data <> VDict d) ->
        exists e,
          Routes.verify_identity data
          = ret (error_response 500 ("Identity verification failed: " +:+ e)
                   "VERIFICATION_EXCEPTION"))
  /\ (forall d, truthy (VDict d) = true ->
        let camera := get d "camera_image_path" VNone in
        let id_card := get d "id_card_image_path" VNone in
        (truthy camera = false ->
         Routes.verify_identity (VDict d)
         = ret (error_response 400 "camera_image_path is required" "MISSING_CAMERA_IMAGE"))
        /\ (truthy camera = true -> truthy id_card = false ->
            Routes.verify_identity (VDict d)
            = ret (error_response 400 "id_card_image_path is required"
                     "MISSING_ID_CARD_IMAGE"))
        /\ (forall cam,
              camera = VStr cam -> cam <> "" -> truthy id_card = true ->
              path_exists cam = false ->
              Routes.verify_identity (VDict d)
              = ret (error_response 400 ("Camera image not found: " +:+ cam)
                       "CAMERA_IMAGE_NOT_FOUND"))
        /\ (forall cam doc,
              camera = VStr cam -> cam <> "" -> id_card = VStr doc -> doc <> "" ->
              path_exists cam = true -> path_exists doc = false ->
              Routes.verify_identity (VDict d)
              = ret (error_response 400 ("ID card image not found: " +:+ doc)
                       "ID_CARD_IMAGE_NOT_FOUND"))).
Proof.
  split; [|split].
  - intros data Hdata. unfold Routes.verify_identity. by rewrite Hdata.
  - intros data Hdata Hshape. unfold Routes.verify_identity. rewrite Hdata.
    destruct data; try (by eexists). by destruct (Hshape d).
  - intros d Hd camera id_card. unfold Routes.verify_identity. rewrite Hd.
    cbn [negb Routes.get_method]. fold camera id_card.
    repeat split.
    + intros Hcam. simpl. by rewrite Hcam.
    + intros Hcam Hdoc. simpl. by rewrite Hcam, Hdoc.
    + intros cam Hcamera Hcam Hdoc Hmissing. simpl.
      rewrite Hdoc, Hcamera, (path_truthy cam Hcam). simpl. by rewrite Hmissing.
    + intros cam doc Hcamera Hcam Hid Hdoc Hex Hmissing. simpl.
      rewrite Hcamera, Hid, (path_truthy cam Hcam), (path_truthy doc Hdoc). simpl.
      by rewrite Hex, Hmissing.
Qed.

(** The validation ladder of [/compare-faces].  A missing or empty body
    is refused with 400 NO_DATA, and a body that is not an object ends in
    500 COMPARISON_EXCEPTION.  Then, each with status 400: one of the two
    paths missing or empty (MISSING_IMAGE_PATHS, one code for both), a
    first path that does not exist (IMAGE1_NOT_FOUND), a second path that
    does not exist (IMAGE2_NOT_FOUND).  No pipeline stage is entered
    before these answers. *)
Theorem compare_route_validates_its_input :
  (forall data, truthy data = false ->
     Routes.compare_faces_only data
     = ret (error_response 400 "No JSON data provided" "NO_DATA"))
  /\ (forall data, truthy data = true -> (forall d, data <> VDict d) ->
        exists e,
          Routes.compare_faces_only data
          = ret (error_response 500 ("Face comparison failed: " +:+ e)
                   "COMPARISON_EXCEPTION"))
  /\ (forall d, truthy (VDict d) = true ->
        let image1 := get d "image1_path" VNone in
        let image2 := get d "image2_path" VNone in
        (truthy image1 = false \/ truthy image2 = false ->
         Routes.compare_faces_only (VDict d)
         = ret (error_response 400 "Both image1_path and image2_path are required"
                  "MISSING_IMAGE_PATHS"))
        /\ (forall p1,
              image1 = VStr p1 -> p1 <> "" -> truthy image2 = true ->
              path_exists p1 = false ->
              Routes.compare_faces_only (VDict d)
              = ret (error_response 400 ("First image not found: " +:+ p1)
                       "IMAGE1_NOT_FOUND"))
        /\ (forall p1 p2,
              image1 = VStr p1 -> p1 <> "" -> image2 = VStr p2 -> p2 <> "" ->
              path_exists p1 = true -> path_exists p2 = false ->
              Routes.compare_faces_only (VDict d)
              = ret (error_response 400 ("Second image not found: " +:+ p2)
                       "IMAGE2_NOT_FOUND"))).
Proof.
  split; [|split].
  - intros data Hdata. unfold Routes.compare_faces_only. by rewrite Hdata.
  - intros data Hdata Hshape. unfold Routes.compare_faces_only. rewrite Hdata.
    destruct data; try (by eexists). by destruct (Hshape d).
  - intros d Hd image1 image2. unfold Routes.compare_faces_only. rewrite Hd.
    cbn [negb Routes.get_method]. fold image1 image2.
    repeat split.
    + intros [H1|H2]; simpl.
      * by rewrite H1.
      * rewrite H2. by rewrite orb_true_r.
    + intros p1 Him1 Hp1 H2 Hmissing. simpl.
      rewrite H2, Him1, (path_truthy p1 Hp1). simpl. by rewrite Hmissing.
    + intros p1 p2 Him1 Hp1 Him2 Hp2 Hex Hmissing. simpl.
      rewrite Him1, Him2, (path_truthy p1 Hp1), (path_truthy p2 Hp2). simpl.
      by rewrite Hex, Hmissing.
Qed.

End Ladders.

(** ** What [/verify] answers *)


Lemma getitem_missing (d : Dict) (k : string) :
  d !! k = None -> getitem d k = raise ("'" +:+ k +:+ "'").
Proof. unfold getitem. by intros ->. Qed.

Lemma getitem_present (d : Dict) (k : string) (v : Value) :
  d !! k = Some v -> getitem d k = ret v.
Proof. unfold getitem. by intros ->. Qed.

Section Outcomes.
Context `{Runtime}.

(** The handler up to the verification, on a request that names two
    acceptable pictures. *)
Lemma route_reaches_verification cam doc details image1 image2 log record :
  cam <> "" -> doc <> "" ->
  cv2_imread cam = Some image1 -> acceptable image1 ->
  cv2_imread doc = Some image2 -> acceptable image2 ->
  Service.verify_identity Routes.face_verification_service cam doc details
  = (log, Returned record) ->
  record !! "success" = Some (VBool false) ->
  forall message, record !! "message" = Some message ->
  Routes.verify_identity (request cam doc details)
  = (Entered QUALITY_CHECK cam :: Entered QUALITY_CHECK doc :: log,
     Returned
       {| Routes.body :=
            dict [("status", VStr "error");
                  ("message", message);
                  ("error_code", get record "error_code" VNone);
                  ("data", VDict (dict [("result", VStr "Verification Failed");
                                        ("confidence", VStr "0%");
                                        ("student_details", details)]))];
          Routes.status := 400 |}).
Proof.
  intros Hcam Hdoc Him1 Hok1 Him2 Hok2 Hrun Hfail message Hmessage.
  unfold Routes.verify_identity. rewrite request_truthy. simpl.
  rewrite !get_dict. simpl.
  rewrite !(proj2 (String.eqb_neq _ _)) by done. simpl.
  rewrite (cv2_imread_exists _ _ Him1), (cv2_imread_exists _ _ Him2). simpl.
  rewrite (validate_acceptable _ _ _ Him1 Hok1). simpl.
  rewrite (validate_acceptable _ _ _ Him2 Hok2). simpl.
  unfold quality_pass. rewrite !getitem_dict. simpl.
  rewrite Hrun. simpl.
  rewrite (getitem_present _ _ _ Hfail). simpl.
  rewrite (getitem_present _ _ _ Hmessage). simpl. by rewrite app_nil_r.
Qed.

(** A failed verification reaches the client of [/verify] as it is.
    When both images pass the quality gate and [verify_identity] reports
    a failure, the handler answers 400 with the record's message and
    error code, which is one of the comparison's codes, with the result
    "Verification Failed", the confidence "0%" and the student details
    as they were sent; its stages are the two quality checks followed by
    those of the verification. *)
Theorem verify_route_reports_failed_verification (cam doc : string) (details : Value)
    (image1 image2 : CvImage) (log : list Event) (record : Dict) :
  cam <> "" -> doc <> "" ->
  cv2_imread cam = Some image1 -> acceptable image1 ->
  cv2_imread doc = Some image2 -> acceptable image2 ->
  Service.verify_identity Routes.face_verification_service cam doc details
  = (log, Returned record) ->
  record !! "success" = Some (VBool false) ->
  exists response message code data,
    Routes.verify_identity (request cam doc details)
    = (Entered QUALITY_CHECK cam :: Entered QUALITY_CHECK doc :: log, Returned response)
    /\ Routes.status response = 400%Z
    /\ Routes.body response !! "status" = Some (VStr "error")
    /\ record !! "message" = Some (VStr message)
    /\ Routes.body response !! "message" = Some (VStr message)
    /\ record !! "error_code" = Some (VStr code)
    /\ Routes.body response !! "error_code" = Some (VStr code)
    /\ code ∈ comparison_codes extraction_codes
    /\ Routes.body response !! "data" = Some (VDict data)
    /\ data !! "result" = Some (VStr "Verification Failed")
    /\ data !! "confidence" = Some (VStr "0%")
    /\ data !! "student_details" = Some details.
Proof.
  intros Hcam Hdoc Him1 Hok1 Him2 Hok2 Hrun Hfail.
  destruct (Service_verify_cases (Some Config.FACE_RECOGNITION_TOLERANCE)
              (Some Config.FACE_DETECTION_MODEL) cam doc details)
    as [(log' & m & c & Hrun' & Hin)
       | [(_ & e1 & l1 & e2 & l2 & _ & Hrun') | (_ & i1 & r1 & i2 & r2 & _ & Hrun')]];
    unfold Routes.face_verification_service in Hrun;
    rewrite Hrun' in Hrun; injection Hrun as <- <-.
  - destruct (failed_verification_fields m c details)
      as (_ & _ & _ & Hm & Hc & _).
    eexists _, m, c, _. split.
    { eapply route_reaches_verification; try done. }
    cbn [Routes.status Routes.body]. rewrite !lookup_dict. simpl.
    unfold get. rewrite Hc.
    split; [reflexivity|]. split; [reflexivity|]. split; [exact Hm|].
    split; [reflexivity|]. split; [reflexivity|]. split; [reflexivity|].
    split; [exact Hin|]. split; [reflexivity|].
    rewrite ?lookup_dict. by repeat split.
  - pose proof (embedding_record_success
                  (Service.tolerance (Service.__init__ (Some Config.FACE_RECOGNITION_TOLERANCE)
                                        (Some Config.FACE_DETECTION_MODEL)))
                  cam doc details e1 l1 e2 l2) as Hs.
    assert (Hn : Some (VBool true) = Some (VBool false)) by (rewrite <- Hfail; symmetry; exact Hs).
    discriminate.
  - pose proof (basic_record_success cam doc details i1 r1 i2 r2) as Hs.
    assert (Hn : Some (VBool true) = Some (VBool false)) by (rewrite <- Hfail; symmetry; exact Hs).
    discriminate.
Qed.


End Outcomes.

(** ** What [/compare-faces] answers *)

Lemma returns_weaken {A} (P Q : A -> Prop) (m : Py A) :
  returns P m -> (forall a, P a -> Q a) -> returns Q m.
Proof. unfold returns. destruct (outcome m); auto. Qed.

Section CompareRoute.
Context `{Runtime}.


End CompareRoute.

(** ** The handlers without the backend *)

Section Degraded.
Context `{Runtime}.
Hypothesis unavailable : FACE_RECOGNITION_AVAILABLE = false.

Lemma degraded_compare_lacks_distance p1 p2 :
  returns (fun report : Dict => report !! "face_distance" = None)
    (Service.compare_faces Routes.face_verification_service p1 p2).
Proof.
  unfold Routes.face_verification_service.
  rewrite (Service_compare_dispatch unavailable).
  destruct (Fallback_compare_codes
              (Fallback.__init__ (Some (default 0.6 (Some Config.FACE_RECOGNITION_TOLERANCE)))
                 (Some (default "hog" (Some Config.FACE_DETECTION_MODEL)))) p1 p2)
    as [(log & m & c & -> & _) | (i1 & r1 & i2 & r2 & Hs)].
  - unfold returns, failure. simpl. by rewrite lookup_dict.
  - rewrite (Fallback_compare_of_scorable _ _ _ _ _ _ _ Hs).
    unfold returns, basic_comparison_report. simpl. by rewrite lookup_dict.
Qed.

Lemma degraded_verify_lacks_distance p1 p2 details :
  returns (fun record : Dict => record !! "face_distance" = None)
    (Service.verify_identity Routes.face_verification_service p1 p2 details).
Proof.
  destruct (Service_verify_cases (Some Config.FACE_RECOGNITION_TOLERANCE)
              (Some Config.FACE_DETECTION_MODEL) p1 p2 details)
    as [(log & m & c & Hrun & _)
       | [(Hav & _) | (_ & i1 & r1 & i2 & r2 & _ & Hrun)]].
  - unfold Routes.face_verification_service. rewrite Hrun.
    unfold returns, failed_verification. simpl. by rewrite lookup_dict.
  - congruence.
  - unfold Routes.face_verification_service. rewrite Hrun.
    unfold returns. simpl. apply basic_record_shape.
Qed.

End Degraded.

Section Never.
Context `{Runtime}.

(** Without the embedding backend neither [/verify] nor [/compare-faces]
    ever answers 200: whatever the request, the response is an error
    with status 400 or 500. *)
Theorem degraded_routes_never_succeed (data : Value) :
  FACE_RECOGNITION_AVAILABLE = false ->
  (exists log response,
     Routes.verify_identity data = (log, Returned response)
     /\ (Routes.status response = 400%Z \/ Routes.status response = 500%Z)
     /\ Routes.body response !! "status" = Some (VStr "error"))
  /\ (exists log response,
        Routes.compare_faces_only data = (log, Returned response)
        /\ (Routes.status response = 400%Z \/ Routes.status response = 500%Z)
        /\ Routes.body response !! "status" = Some (VStr "error")).
Proof.
  intros unavailable.
  pose proof (degraded_verify_lacks_distance unavailable) as Hverify.
  pose proof (degraded_compare_lacks_distance unavailable) as Hcompare.
  split;
    (apply (returns_try (fun response =>
              (Routes.status response = 400%Z \/ Routes.status response = 500%Z)
              /\ Routes.body response !! "status" = Some (VStr "error")));
     [ repeat match goal with
         | |- returns _ (ret _) =>
             apply returns_ret;
             cbn [Routes.status Routes.body]; rewrite ?lookup_dict; simpl;
             split; [first [by left | by right] | reflexivity]
         | |- returns _ (raise _) => exact I
         | |- returns _ (let _ := _ in _) => cbv zeta
         | |- returns _ (if ?b then _ else _) => destruct b
         | Hnone : ?r !! "face_distance" = None
           |- returns _ (mbind _ (getitem ?r "face_distance")) =>
             rewrite (getitem_missing r "face_distance" Hnone); exact I
         | |- returns _ (mbind _ (Service.verify_identity _ _ _ _)) =>
             apply returns_bind;
             eapply returns_weaken; [apply Hverify|];
             let Hnone := fresh "Hnone" in intros ? Hnone; cbv beta in Hnone; cbv beta
         | |- returns _ (mbind _ (Service.compare_faces _ _ _)) =>
             apply returns_bind;
             eapply returns_weaken; [apply Hcompare|];
             let Hnone := fresh "Hnone" in intros ? Hnone; cbv beta in Hnone; cbv beta
         | |- returns _ (mbind _ _) => apply returns_bind, returns_any; intros ?
         end
     | intros e; eexists _, _; split; [reflexivity|];
       cbn [Routes.status Routes.body]; rewrite ?lookup_dict; simpl;
       split; [by right | reflexivity] ]).
Qed.

End Never.

(** ** The handlers on the sample files *)

Lemma Sample_empty_acceptable : acceptable Sample.empty_picture.
Proof. unfold acceptable. cbn. repeat split; first [lia | lra]. Qed.

(** The sample camera picture against the picture without a face: the
    handler answers 400. *)
Lemma sample_route_reports_missing_face :
  exists log response,
    @Routes.verify_identity (Sample.runtime true)
      (request "camera.jpg" "empty.jpg" Sample.no_details)
    = (log, Returned response)
    /\ Routes.status response = 400%Z
    /\ Routes.body response !! "status" = Some (VStr "error").
Proof.
  destruct (@verify_route_reports_failed_verification (Sample.runtime true)
              "camera.jpg" "empty.jpg" Sample.no_details
              Sample.camera_picture Sample.empty_picture _ _
              ltac:(discriminate) ltac:(discriminate)
              eq_refl Sample_camera_acceptable eq_refl Sample_empty_acceptable
              Sample_verify_empty)
    as (response & message & code & data & Hrun & Hstatus & Herror & _).
  - unfold failed_verification. by rewrite lookup_dict.
  - eexists _, response. split; [exact Hrun|]. split; [exact Hstatus|exact Herror].
Defined.



(** The sample pair without the backend: [/verify] answers with an
    error. *)
Lemma sample_request_is_refused_without_backend :
  exists log response,
    @Routes.verify_identity (Sample.runtime false)
      (request "camera.jpg" "id_card.jpg" Sample.no_details)
    = (log, Returned response)
    /\ (Routes.status response = 400%Z \/ Routes.status response = 500%Z).
Proof.
  destruct (proj1 (@degraded_routes_never_succeed (Sample.runtime false)
                     (request "camera.jpg" "id_card.jpg" Sample.no_details) eq_refl))
    as (log & response & Hrun & Hstatus & _).
  exists log, response. split; [exact Hrun|exact Hstatus].
Defined.

(** ** Detection and extraction *)

Lemma returned_inj {A} (log log' : list Event) (a a' : A) :
  (log, Returned a) = (log', Returned a') -> log = log' /\ a = a'.
Proof. by intros [= -> ->]. Qed.

Section Detection.
Context `{Runtime}.

(** The face locator [detect_faces_dlib] never raises and logs one
    detection stage, and a successful report counts its faces:
    face_count is the length of the list under faces, which holds the
    locations the library returned.  With the backend every failure is a
    DLIB_DETECTION_ERROR, a missing file included, and an image without
    a face is a success with face_count 0.  Without it the locator is
    the OpenCV one: it fails with IMAGE_READ_ERROR on a file that does
    not decode and with OPENCV_DETECTION_ERROR when nothing is detected,
    so its successes hold at least one face. *)
Theorem detection_counts_its_faces (self : Service.FaceVerificationService) (p : string) :
  exists report,
    Service.detect_faces_dlib self p = ([Entered FACE_DETECTION p], Returned report)
    /\ ((exists code,
           report !! "success" = Some (VBool false)
           /\ report !! "error_code" = Some (VStr code)
           /\ report !! "faces" = None
           /\ (FACE_RECOGNITION_AVAILABLE = true -> code = "DLIB_DETECTION_ERROR")
           /\ (FACE_RECOGNITION_AVAILABLE = false ->
               (cv2_imread p = None /\ code = "IMAGE_READ_ERROR")
               \/ (exists image, cv2_imread p = Some image /\ detectMultiScale image = []
                                 /\ code = "OPENCV_DETECTION_ERROR")))
        \/ (exists faces,
              report !! "success" = Some (VBool true)
              /\ report !! "faces" = Some (VList (rect_value <$> faces))
              /\ report !! "face_count" = Some (VInt (Z.of_nat (length faces)))
              /\ (FACE_RECOGNITION_AVAILABLE = true ->
                  exists f image, files !! p = Some f /\ load_image_file f = Returned image
                                  /\ faces = face_locations image)
              /\ (FACE_RECOGNITION_AVAILABLE = false ->
                  exists image, cv2_imread p = Some image /\ faces = detectMultiScale image
                                /\ faces <> []))).
Proof.
  unfold Service.detect_faces_dlib.
  destruct FACE_RECOGNITION_AVAILABLE eqn:Hav; cbn [negb].
  - unfold fr_load_image_file.
    destruct (files !! p) as [f|] eqn:Hf.
    2: { eexists. split; [reflexivity|]. left. eexists.
         rewrite !lookup_dict. simpl. repeat split; done. }
    destruct (load_image_file f) as [image|e] eqn:Hload.
    2: { simpl. eexists. split; [reflexivity|]. left. eexists.
         rewrite !lookup_dict. simpl. repeat split; done. }
    simpl. simpl.
    destruct (face_locations image) as [|location locations] eqn:Hlocs.
    + simpl. eexists. split; [reflexivity|]. right. exists [].
      rewrite !lookup_dict. simpl. repeat split; try done.
      intros _. exists f, image. by rewrite Hlocs.
    + rewrite decide_False by (simpl; lia).
      destruct (face_encodings image) as [encodings|e] eqn:Henc.
      * simpl. eexists. split; [reflexivity|]. right. exists (location :: locations).
        rewrite !lookup_dict. simpl. repeat split; try done.
        intros _. exists f, image. by rewrite Hlocs.
      * simpl. eexists. split; [reflexivity|]. left. eexists.
        rewrite !lookup_dict. simpl. repeat split; done.
  - unfold Service.detect_faces_opencv.
    destruct (cv2_imread p) as [image|] eqn:Him.
    2: { eexists. split; [reflexivity|]. left. eexists.
         rewrite !lookup_dict. simpl. repeat split; try done. intros _. by left. }
    destruct (detectMultiScale image) as [|rect rects] eqn:Hfaces.
    + simpl. eexists. split; [reflexivity|]. left. eexists.
      rewrite !lookup_dict. simpl. repeat split; try done.
      intros _. right. by exists image.
    + simpl. eexists. split; [reflexivity|]. right.
      exists (rect :: rects).
      rewrite !lookup_dict. simpl. repeat split; try done.
      intros _. exists image. by rewrite Hfaces.
Qed.

(** Extraction succeeds on exactly one face.  [extract_face_encoding]
    never raises and reports a success, or a failure with an error code.
    With the backend it succeeds exactly when the file loads, one face
    is located and an encoding is computed, and it returns the first
    encoding with that location.  Without the backend it succeeds
    exactly when the file decodes and one face, of non-zero height, is
    detected, and it returns the features of that region. *)
Theorem extraction_succeeds_on_exactly_one_face (tolerance : option R)
    (model : option string) (p : string) :
  exists log report,
    Service.extract_face_encoding (Service.__init__ tolerance model) p
    = (log, Returned report)
    /\ (report !! "success" = Some (VBool true)
        \/ (report !! "success" = Some (VBool false)
            /\ exists code, report !! "error_code" = Some (VStr code)))
    /\ (FACE_RECOGNITION_AVAILABLE = true ->
        (report !! "success" = Some (VBool true)
         <-> exists encoding location, encodable p encoding location)
        /\ (forall encoding location,
              encodable p encoding location ->
              report !! "encoding" = Some (VList (VFloat <$> encoding))
              /\ report !! "face_location" = Some (rect_value location)))
    /\ (FACE_RECOGNITION_AVAILABLE = false ->
        (report !! "success" = Some (VBool true)
         <-> exists image rect,
               cv2_imread p = Some image /\ detectMultiScale image = [rect]
               /\ height_of rect <> 0%Z)
        /\ (forall image rect,
              cv2_imread p = Some image -> detectMultiScale image = [rect] ->
              height_of rect <> 0%Z ->
              report !! "features" = Some (VDict (features_of image rect))
              /\ report !! "face_location" = Some (rect_value rect))).
Proof.
  destruct FACE_RECOGNITION_AVAILABLE eqn:Hav.
  - destruct (Service_extract_cases Hav (Service.__init__ tolerance model) p)
      as [(log & m & c & Hrun) | (e & l & He)].
    + exists log, (failure m c). split; [exact Hrun|].
      unfold failure. rewrite !lookup_dict. simpl.
      split; [right; split; [done|by eexists]|].
      split; [|discriminate]. intros _. split.
      * split; [discriminate|]. intros (e & l & He).
        rewrite (Service_extract_one Hav _ _ _ _ He) in Hrun. apply returned_inj in Hrun as [_ Hr].
        apply (f_equal (fun d : Dict => d !! "success")) in Hr.
        unfold encoding_report in Hr. by rewrite !lookup_dict in Hr.
      * intros e l He.
        rewrite (Service_extract_one Hav _ _ _ _ He) in Hrun. apply returned_inj in Hrun as [_ Hr].
        apply (f_equal (fun d : Dict => d !! "success")) in Hr.
        unfold encoding_report in Hr. by rewrite !lookup_dict in Hr.
    + eexists _, _. split; [exact (Service_extract_one Hav _ _ _ _ He)|].
      unfold encoding_report. rewrite !lookup_dict. simpl.
      split; [by left|]. split; [|discriminate]. intros _. split.
      * split; [|done]. intros _. by exists e, l.
      * intros e' l' (f' & image' & rest' & Hf' & Hload' & Hlocs' & Henc').
        destruct He as (f & image & rest & Hf & Hload & Hlocs & Henc).
        rewrite Hf in Hf'. injection Hf' as <-.
        rewrite Hload in Hload'. injection Hload' as <-.
        rewrite Hlocs in Hlocs'. injection Hlocs' as <-.
        rewrite Henc in Henc'. by injection Henc' as <- _.
  - rewrite (Service_extract_dispatch Hav).
    set (fb := Fallback.__init__ _ _).
    destruct (Fallback_extract_cases fb p)
      as [(log & m & c & Hrun) | (image & rect & Him & Hfaces & Hh & Hrun)].
    + exists log, (failure m c). split; [exact Hrun|].
      unfold failure. rewrite !lookup_dict. simpl.
      split; [right; split; [done|by eexists]|].
      split; [discriminate|]. intros _. split.
      * split; [discriminate|]. intros (image & rect & Him & Hfaces & Hh).
        rewrite (Fallback_extract_one fb _ _ _ Him Hfaces Hh) in Hrun.
        apply returned_inj in Hrun as [_ Hr].
        apply (f_equal (fun d : Dict => d !! "success")) in Hr.
        unfold features_report in Hr. by rewrite !lookup_dict in Hr.
      * intros image rect Him Hfaces Hh.
        rewrite (Fallback_extract_one fb _ _ _ Him Hfaces Hh) in Hrun.
        apply returned_inj in Hrun as [_ Hr].
        apply (f_equal (fun d : Dict => d !! "success")) in Hr.
        unfold features_report in Hr. by rewrite !lookup_dict in Hr.
    + eexists _, _. split; [exact Hrun|].
      unfold features_report. rewrite !lookup_dict. simpl.
      split; [by left|]. split; [discriminate|]. intros _. split.
      * split; [|done]. intros _. by exists image, rect.
      * intros image' rect' Him' Hfaces' _.
        rewrite Him in Him'. injection Him' as <-.
        rewrite Hfaces in Hfaces'. by injection Hfaces' as <-.
Qed.

End Detection.

(** ** The order of the stages *)

Lemma failure_success message code : failure message code !! "success" = Some (VBool false).
Proof. unfold failure. by rewrite lookup_dict. Qed.

Lemma encoding_report_succeeds encoding location :
  encoding_report encoding location !! "success" = Some (VBool true).
Proof. unfold encoding_report. by rewrite lookup_dict. Qed.

Lemma features_report_succeeds image rect :
  features_report image rect !! "success" = Some (VBool true).
Proof. unfold features_report. by rewrite lookup_dict. Qed.

Lemma staged_camera_failed p1 p2 (extract1 extract2 compare verify : Py Dict)
    log1 report1 log2 report2 compared verified :
  extract1 = (log1, Returned report1) ->
  report1 !! "success" = Some (VBool false) ->
  extract2 = (log2, Returned report2) ->
  compare = ((log1 ++ log2)%list, Returned compared) ->
  verify = ((log1 ++ log2)%list, Returned verified) ->
  staged p1 p2 extract1 extract2 compare verify.
Proof.
  intros E1 Hko E2 -> ->. exists log1, report1, log2, report2, [].
  rewrite app_nil_r. repeat split; try done.
  intros Hok. rewrite Hko in Hok. discriminate.
Qed.

Lemma staged_id_card_failed p1 p2 (extract1 extract2 compare verify : Py Dict)
    log1 report1 log2 report2 compared verified :
  extract1 = (log1, Returned report1) ->
  extract2 = (log2, Returned report2) ->
  report2 !! "success" = Some (VBool false) ->
  compare = ((log1 ++ log2)%list, Returned compared) ->
  verify = ((log1 ++ log2)%list, Returned verified) ->
  staged p1 p2 extract1 extract2 compare verify.
Proof.
  intros E1 E2 Hko -> ->. exists log1, report1, log2, report2, [].
  rewrite app_nil_r. repeat split; try done.
  intros _ Hok. rewrite Hko in Hok. discriminate.
Qed.

Lemma staged_compared p1 p2 (extract1 extract2 compare verify : Py Dict)
    log1 report1 log2 report2 compared verified :
  extract1 = (log1, Returned report1) ->
  report1 !! "success" = Some (VBool true) ->
  extract2 = (log2, Returned report2) ->
  report2 !! "success" = Some (VBool true) ->
  compare = ((log1 ++ log2 ++ [Entered COMPARISON p1; Entered COMPARISON p2])%list,
             Returned compared) ->
  verify = ((log1 ++ log2 ++ [Entered COMPARISON p1; Entered COMPARISON p2])%list,
            Returned verified) ->
  staged p1 p2 extract1 extract2 compare verify.
Proof.
  intros E1 Hok1 E2 Hok2 -> ->.
  exists log1, report1, log2, report2, [Entered COMPARISON p1; Entered COMPARISON p2].
  repeat split; try done.
  intros [Hko|Hko]; [rewrite Hok1 in Hko|rewrite Hok2 in Hko]; discriminate.
Qed.

Section Stages.
Context `{Runtime}.

(** Both images are always processed, the camera image first.  The
    stages of [compare_faces], and of [verify_identity], are those of
    the extraction on the first path, then those of the extraction on
    the second path, also when the first extraction failed, then the
    comparison stage, which is entered exactly when both extractions
    succeeded. *)
Theorem comparison_extracts_both_images (tolerance : option R) (model : option string)
    (p1 p2 : string) (details : Value) :
  let self := Service.__init__ tolerance model in
  exists log1 report1 log2 report2 tail,
    Service.extract_face_encoding self p1 = (log1, Returned report1)
    /\ Service.extract_face_encoding self p2 = (log2, Returned report2)
    /\ trace (Service.compare_faces self p1 p2) = (log1 ++ log2 ++ tail)%list
    /\ trace (Service.verify_identity self p1 p2 details) = (log1 ++ log2 ++ tail)%list
    /\ (report1 !! "success" = Some (VBool true) ->
        report2 !! "success" = Some (VBool true) ->
        tail = [Entered COMPARISON p1; Entered COMPARISON p2])
    /\ (report1 !! "success" = Some (VBool false)
        \/ report2 !! "success" = Some (VBool false) ->
        tail = []).
Proof.
  intros self.
  change (staged p1 p2 (Service.extract_face_encoding self p1)
            (Service.extract_face_encoding self p2)
            (Service.compare_faces self p1 p2)
            (Service.verify_identity self p1 p2 details)).
  destruct FACE_RECOGNITION_AVAILABLE eqn:Hav.
  - destruct (Service_extract_cases Hav self p1) as [(l1 & m1 & c1 & E1) | (e1 & loc1 & He1)].
    { assert (exists l2 r2, Service.extract_face_encoding self p2 = (l2, Returned r2))
        as (l2 & r2 & E2).
      { destruct (Service_extract_cases Hav self p2)
          as [(l2 & m2 & c2 & E2) | (e2 & loc2 & He2)].
        - by eexists _, _.
        - eexists _, _. by apply Service_extract_one. }
      pose proof (Service_compare_camera_failed Hav self p1 p2 _ _ _ _ _ E1 E2) as Hc.
      pose proof (Service_verify_failed Hav self p1 p2 details _ _ _ Hc) as Hv.
      exact (staged_camera_failed _ _ _ _ _ _ _ _ _ _ _ _
               E1 (failure_success _ _) E2 Hc Hv). }
    pose proof (Service_extract_one Hav self p1 _ _ He1) as E1.
    destruct (Service_extract_cases Hav self p2) as [(l2 & m2 & c2 & E2) | (e2 & loc2 & He2)].
    { pose proof (Service_compare_id_card_failed Hav self p1 p2 _ _ _ _ _ _ E1 E2) as Hc.
      pose proof (Service_verify_failed Hav self p1 p2 details _ _ _ Hc) as Hv.
      exact (staged_id_card_failed _ _ _ _ _ _ _ _ _ _ _ _
               E1 E2 (failure_success _ _) Hc Hv). }
    pose proof (Service_extract_one Hav self p2 _ _ He2) as E2.
    destruct (decide (length e1 = length e2)) as [Hlen|Hlen].
    + pose proof (Service_compare_scored Hav self p1 p2 _ _ _ _ _ _ E1 E2 Hlen) as Hc.
      pose proof (Service_verify_scored Hav self p1 p2 details e1 loc1 e2 loc2
                    (conj He1 (conj He2 Hlen))) as Hv.
      exact (staged_compared _ _ _ _ _ _ _ _ _ _ _ _
               E1 (encoding_report_succeeds _ _) E2 (encoding_report_succeeds _ _) Hc Hv).
    + pose proof (Service_compare_mismatched Hav self p1 p2 _ _ _ _ _ _ E1 E2 Hlen) as Hc.
      pose proof (Service_verify_failed Hav self p1 p2 details _ _ _ Hc) as Hv.
      exact (staged_compared _ _ _ _ _ _ _ _ _ _ _ _
               E1 (encoding_report_succeeds _ _) E2 (encoding_report_succeeds _ _) Hc Hv).
  - unfold self.
    rewrite !(Service_extract_dispatch Hav), (Service_compare_dispatch Hav),
      (Service_verify_dispatch Hav).
    set (fb := Fallback.__init__ _ _).
    destruct (Fallback_extract_cases fb p1)
      as [(l1 & m1 & c1 & E1) | (i1 & r1 & Him1 & Hf1 & Hh1 & E1)].
    { assert (exists l2 r2, Fallback.extract_face_features fb p2 = (l2, Returned r2))
        as (l2 & r2 & E2).
      { destruct (Fallback_extract_cases fb p2)
          as [(l2 & m2 & c2 & E2) | (i2 & r2 & _ & _ & _ & E2)]; by eexists _, _. }
      pose proof (Fallback_compare_camera_failed fb p1 p2 _ _ _ _ _ E1 E2) as Hc.
      pose proof (Fallback_verify_failed fb p1 p2 details _ _ _ Hc) as Hv.
      exact (staged_camera_failed _ _ _ _ _ _ _ _ _ _ _ _
               E1 (failure_success _ _) E2 Hc Hv). }
    destruct (Fallback_extract_cases fb p2)
      as [(l2 & m2 & c2 & E2) | (i2 & r2 & Him2 & Hf2 & Hh2 & E2)].
    { pose proof (Fallback_compare_id_card_failed fb p1 p2 _ _ _ _ _ _ E1 E2) as Hc.
      pose proof (Fallback_verify_failed fb p1 p2 details _ _ _ Hc) as Hv.
      exact (staged_id_card_failed _ _ _ _ _ _ _ _ _ _ _ _
               E1 E2 (failure_success _ _) Hc Hv). }
    destruct (decide (length (histogram_of i1 r1) = length (histogram_of i2 r2)))
      as [Hlen|Hlen].
    2: { pose proof (Fallback_compare_sizes_differ fb p1 p2 _ _ _ _ _ _ E1 E2 Hlen) as Hc.
         pose proof (Fallback_verify_failed fb p1 p2 details _ _ _ Hc) as Hv.
         exact (staged_compared _ _ _ _ _ _ _ _ _ _ _ _
                  E1 (features_report_succeeds _ _) E2 (features_report_succeeds _ _)
                  Hc Hv). }
    destruct (decide (Rmax (area_of r1) (area_of r2) = 0)) as [Harea|Harea].
    { pose proof (Fallback_compare_no_area fb p1 p2 _ _ _ _ _ _ E1 E2 Hlen Harea) as Hc.
      pose proof (Fallback_verify_failed fb p1 p2 details _ _ _ Hc) as Hv.
      exact (staged_compared _ _ _ _ _ _ _ _ _ _ _ _
               E1 (features_report_succeeds _ _) E2 (features_report_succeeds _ _)
               Hc Hv). }
    pose proof (Fallback_compare_scored fb p1 p2 _ _ _ _ _ _ E1 E2 Hlen Harea) as Hc.
    assert (Hs : scorable p1 p2 i1 r1 i2 r2) by (by repeat split).
    pose proof (Fallback_verify_scored fb p1 p2 details _ _ _ _ Hs) as Hv.
    exact (staged_compared _ _ _ _ _ _ _ _ _ _ _ _
             E1 (features_report_succeeds _ _) E2 (features_report_succeeds _ _) Hc Hv).
Qed.

End Stages.

(** ** Verification and comparison *)

Section Repeats.
Context `{Runtime}.

Lemma failed_verification_repeats message code details key :
  key ∈ ["success"; "message"; "error_code"; "is_match"; "method"] ->
  failed_verification (VStr message) (VStr code) details !! key = failure message code !! key.
Proof.
  intros Hin. unfold failed_verification, failure.
  repeat (apply elem_of_cons in Hin as [->|Hin]); try (by rewrite !lookup_dict).
  by apply elem_of_nil in Hin.
Qed.

Lemma embedding_record_repeats tolerance p1 p2 details e1 l1 e2 l2 key :
  key ∈ ["success"; "message"; "error_code"; "is_match"; "method";
         "result"; "confidence"; "face_distance"; "similarity_score"] ->
  embedding_verification_record tolerance p1 p2 details e1 l1 e2 l2 !! key
  = embedding_comparison_report tolerance p1 p2 e1 l1 e2 l2 !! key.
Proof.
  intros Hin. unfold embedding_verification_record, embedding_comparison_report.
  repeat (apply elem_of_cons in Hin as [->|Hin]);
    try (rewrite lookup_insert_ne by done; rewrite !lookup_dict; simpl;
         by rewrite ?lookup_dict).
  by apply elem_of_nil in Hin.
Qed.

Lemma basic_record_repeats p1 p2 details i1 r1 i2 r2 key :
  key ∈ ["success"; "message"; "error_code"; "is_match"; "method";
         "result"; "confidence"; "face_distance"; "similarity_score"] ->
  basic_verification_record p1 p2 details i1 r1 i2 r2 !! key
  = basic_comparison_report p1 p2 i1 r1 i2 r2 !! key.
Proof.
  intros Hin. unfold basic_verification_record, basic_comparison_report.
  repeat (apply elem_of_cons in Hin as [->|Hin]);
    try (rewrite lookup_insert_ne by done; rewrite !lookup_dict; simpl;
         by rewrite ?lookup_dict).
  by apply elem_of_nil in Hin.
Qed.

Lemma shared_keys_listed key :
  key ∈ ["success"; "message"; "error_code"; "is_match"; "method"] ->
  key ∈ ["success"; "message"; "error_code"; "is_match"; "method";
         "result"; "confidence"; "face_distance"; "similarity_score"].
Proof.
  intros Hin. repeat (apply elem_of_cons in Hin as [->|Hin]);
    [repeat first [apply list_elem_of_here | apply list_elem_of_further]..|].
  by apply elem_of_nil in Hin.
Qed.

Lemma score_keys_listed key :
  key ∈ ["result"; "confidence"; "face_distance"; "similarity_score"] ->
  key ∈ ["success"; "message"; "error_code"; "is_match"; "method";
         "result"; "confidence"; "face_distance"; "similarity_score"].
Proof.
  intros Hin. repeat (apply elem_of_cons in Hin as [->|Hin]);
    [repeat first [apply list_elem_of_here | apply list_elem_of_further]..|].
  by apply elem_of_nil in Hin.
Qed.

(** The verification decides nothing of its own.  [verify_identity] runs
    the stages of [compare_faces] and no other, and its record repeats
    the report of the comparison: success, message, error code, decision
    and method always; result, confidence and the score (face_distance
    or similarity_score) when the comparison succeeded.  When it failed,
    the record holds the result "Verification Failed" and confidence 0,
    which the report does not have.  The face locations under details
    are not handed on. *)
Theorem verification_repeats_the_comparison (tolerance : option R) (model : option string)
    (p1 p2 : string) (details : Value) :
  let self := Service.__init__ tolerance model in
  exists log report record,
    Service.compare_faces self p1 p2 = (log, Returned report)
    /\ Service.verify_identity self p1 p2 details = (log, Returned record)
    /\ (forall key,
          key ∈ ["success"; "message"; "error_code"; "is_match"; "method"] ->
          record !! key = report !! key)
    /\ (report !! "success" = Some (VBool true) ->
        forall key,
          key ∈ ["result"; "confidence"; "face_distance"; "similarity_score"] ->
          record !! key = report !! key)
    /\ (report !! "success" = Some (VBool false) ->
        record !! "result" = Some (VStr "Verification Failed")
        /\ record !! "confidence" = Some (VInt 0)
        /\ report !! "result" = None /\ report !! "confidence" = None)
    /\ record !! "details" = None.
Proof.
  intros self.
  assert (Hfailed : forall log m c,
            Service.compare_faces self p1 p2 = (log, Returned (failure m c)) ->
            Service.verify_identity self p1 p2 details
            = (log, Returned (failed_verification (VStr m) (VStr c) details)) ->
            exists log report record,
              Service.compare_faces self p1 p2 = (log, Returned report)
              /\ Service.verify_identity self p1 p2 details = (log, Returned record)
              /\ (forall key,
                    key ∈ ["success"; "message"; "error_code"; "is_match"; "method"] ->
                    record !! key = report !! key)
              /\ (report !! "success" = Some (VBool true) ->
                  forall key,
                    key ∈ ["result"; "confidence"; "face_distance"; "similarity_score"] ->
                    record !! key = report !! key)
              /\ (report !! "success" = Some (VBool false) ->
                  record !! "result" = Some (VStr "Verification Failed")
                  /\ record !! "confidence" = Some (VInt 0)
                  /\ report !! "result" = None /\ report !! "confidence" = None)
              /\ record !! "details" = None).
  { intros log m c Hc Hv. eexists _, _, _. split; [exact Hc|]. split; [exact Hv|].
    split; [intros key; apply failed_verification_repeats|].
    split; [rewrite failure_success; discriminate|].
    unfold failed_verification, failure. by rewrite !lookup_dict. }
  destruct FACE_RECOGNITION_AVAILABLE eqn:Hav.
  - destruct (Service_compare_codes self p1 p2 Hav)
      as [(log & m & c & Hc & _) | (e1 & l1 & e2 & l2 & Hcmp)].
    + apply (Hfailed log m c Hc). by apply Service_verify_failed.
    + eexists _, _, _.
      split; [exact (Service_compare_of_comparable Hav self _ _ _ _ _ _ Hcmp)|].
      split; [exact (Service_verify_scored Hav self _ _ details _ _ _ _ Hcmp)|].
      split; [intros key Hin; by apply embedding_record_repeats, shared_keys_listed|].
      split; [intros _ key Hin; by apply embedding_record_repeats, score_keys_listed|].
      split; [rewrite embedding_report_success; discriminate|].
      unfold embedding_verification_record.
      rewrite lookup_insert_ne by done. by rewrite lookup_dict.
  - revert Hfailed. unfold self.
    rewrite (Service_compare_dispatch Hav), (Service_verify_dispatch Hav).
    set (fb := Fallback.__init__ _ _). intros Hfailed.
    destruct (Fallback_compare_codes fb p1 p2)
      as [(log & m & c & Hc & _) | (i1 & r1 & i2 & r2 & Hs)].
    + apply (Hfailed log m c Hc). by apply Fallback_verify_failed.
    + eexists _, _, _.
      split; [exact (Fallback_compare_of_scorable fb _ _ _ _ _ _ Hs)|].
      split; [exact (Fallback_verify_scored fb _ _ details _ _ _ _ Hs)|].
      split; [intros key Hin; by apply basic_record_repeats, shared_keys_listed|].
      split; [intros _ key Hin; by apply basic_record_repeats, score_keys_listed|].
      split; [rewrite basic_report_success; discriminate|].
      unfold basic_verification_record.
      rewrite lookup_insert_ne by done. by rewrite lookup_dict.
Qed.

End Repeats.
